(** * practice-vulkan: a shallow embedding of the renderer and its input filter

    The development covers three translation units of the repository:
    - [hello-vulkan/app/src/main/cpp/main.cpp]: the lifecycle shim, with its
      motion-event filter, its command handler and its main loop;
    - [vulkan-loader/app/src/main/cpp/VkRenderer.cpp]: constructor and
      destructor of the loader sample, which lists the instance layers;
    - [vulkan-semaphore/app/src/main/cpp/VkRenderer.cpp]: constructor,
      destructor and [render] of the renderer, with the clear-colour
      animation of [render] as IEEE 754 arithmetic on [spec_float].

    The renderer talks to an external graphics driver.  Its code is embedded
    as a finite program tree whose nodes are the API calls, and a driver is
    any state machine that answers them; statements quantify over all
    drivers.  Definitions come first, properties after them. *)

From Stdlib Require Import ZArith List String Bool Lia QArith Qabs Qpower Lqa Permutation.
From Stdlib Require Import Floats.SpecFloat.
Import ListNotations.
Open Scope Z_scope.
Open Scope list_scope.

Set Implicit Arguments.

(** ** Input filter of the lifecycle shim (main.cpp) *)

Module Input.

(** Constants of [android/input.h]. *)
Definition AINPUT_SOURCE_CLASS_MASK : Z := 0x000000ff.
Definition AINPUT_SOURCE_CLASS_POINTER : Z := 0x00000002.
Definition AINPUT_SOURCE_CLASS_JOYSTICK : Z := 0x00000010.

(** The scalar header of [GameActivityMotionEvent]; [source] is an
    [int32_t] bit field whose low byte is the source class. *)
Record GameActivityMotionEvent := {
  deviceId : Z;
  source : Z;
  action : Z;
  eventTime : Z;
  downTime : Z;
  flags : Z;
  metaState : Z;
  buttonState : Z;
  pointerCount : Z
}.

Definition motion_event_filter_func (motionEvent : GameActivityMotionEvent) : bool :=
  let sourceClass := Z.land (source motionEvent) AINPUT_SOURCE_CLASS_MASK in
  (sourceClass =? AINPUT_SOURCE_CLASS_POINTER) ||
  (sourceClass =? AINPUT_SOURCE_CLASS_JOYSTICK).

End Input.

(** ** IEEE 754 arithmetic of the clear-colour animation

    [render] computes [fmodf(float32[i] + 0.01, 1.0)]: the [float] channel is
    promoted to [double], added to the [double] literal [0.01], narrowed to
    [float] for [fmodf], whose second argument is [1.0] narrowed to [float].
    Values are [spec_float]s; binary32 is [prec = 24], [emax = 128] and
    binary64 is [prec = 53], [emax = 1024], with round-to-nearest-even. *)

Module Binary.

Definition prec32 : Z := 24.
Definition emax32 : Z := 128.
Definition prec64 : Z := 53.
Definition emax64 : Z := 1024.

(** Conversion between formats: the value is rounded into the target. *)
Definition convert (prec emax : Z) (x : spec_float) : spec_float :=
  match x with
  | S754_finite s m e => binary_round prec emax s m e
  | _ => x
  end.

Definition double_of_float : spec_float -> spec_float := convert prec64 emax64.
Definition float_of_double : spec_float -> spec_float := convert prec32 emax32.

Definition double_of_Z (n : Z) : spec_float := binary_normalize prec64 emax64 n 0 false.

(** The literals [0.01] and [1.0] of type [double]: the decimal [0.01] is
    the correctly rounded quotient of 1 by 100. *)
Definition lit_0_01 : spec_float :=
  SFdiv prec64 emax64 (double_of_Z 1) (double_of_Z 100).
Definition lit_1_0 : spec_float := double_of_Z 1.

(** [fmodf] of the C library: [x - n*y] for the integer [n] obtained by
    truncating [x/y]; the result is exact and carries the sign of [x]. *)
Definition fmodf (x y : spec_float) : spec_float :=
  match x, y with
  | S754_nan, _ | _, S754_nan => S754_nan
  | S754_infinity _, _ => S754_nan
  | _, S754_zero _ => S754_nan
  | S754_zero _, _ => x
  | S754_finite _ _ _, S754_infinity _ => x
  | S754_finite sx mx ex, S754_finite _ my ey =>
      let ez := Z.min ex ey in
      let X := Zpos (fst (shl_align mx ex ez)) in
      let Y := Zpos (fst (shl_align my ey ez)) in
      binary_normalize prec32 emax32 (cond_Zopp sx (X mod Y)) ez sx
  end.

(** The rational a floating-point datum denotes (0 for the specials). *)
Definition F2Q (x : spec_float) : Q :=
  match x with
  | S754_finite s m e => (inject_Z (cond_Zopp s (Zpos m)) * Qpower 2 e)%Q
  | _ => 0%Q
  end.

Definition is_finite (x : spec_float) : bool :=
  match x with
  | S754_zero _ | S754_finite _ _ _ => true
  | _ => false
  end.

(** A binary32 value of the half-open unit interval. *)
Definition unit_interval (x : spec_float) : Prop :=
  valid_binary prec32 emax32 x = true /\ is_finite x = true /\
  (0 <= F2Q x)%Q /\ (F2Q x < 1)%Q.

(** C's [==] on floats. *)
Definition float_eq (x y : spec_float) : bool := SFeqb x y.

(** [x] is within [eps] of [y] modulo 1. *)
Definition near_mod_1 (eps x y : Q) : Prop :=
  exists k : Z, (Qabs (x - y + inject_Z k) <= eps)%Q.

(** The bound on the rounding error of one animation step that the
    statements use: 2^-24 for the narrowing to binary32, 2^-53 for the
    binary64 addition and the error of the literal [0.01] are below it. *)
Definition step_error : Q := 1 # 10000000.

End Binary.

(** ** Vulkan data the renderer reads and writes *)

Module Vk.

Definition Handle := Z.
Definition VkResult := Z.
Definition VkFlags := Z.

Definition VK_NULL_HANDLE : Handle := 0.
Definition VK_SUCCESS : VkResult := 0.
Definition VK_TIMEOUT : VkResult := 2.
Definition VK_ERROR_OUT_OF_HOST_MEMORY : VkResult := -1.
Definition VK_ERROR_OUT_OF_DEVICE_MEMORY : VkResult := -2.
Definition VK_ERROR_OUT_OF_DATE_KHR : VkResult := -1000001004.
Definition VK_TRUE : Z := 1.
Definition UINT64_MAX : Z := 0xFFFFFFFFFFFFFFFF.

Definition VK_QUEUE_GRAPHICS_BIT : VkFlags := 0x00000001.
Definition VK_QUEUE_COMPUTE_BIT : VkFlags := 0x00000002.
Definition VK_QUEUE_FAMILY_IGNORED : Z := 0xFFFFFFFF.
Definition VK_FORMAT_R8G8B8A8_UNORM : Z := 37.
Definition VK_FORMAT_B8G8R8A8_UNORM : Z := 44.
Definition VK_FORMAT_MAX_ENUM : Z := 0x7FFFFFFF.
Definition VK_PRESENT_MODE_IMMEDIATE_KHR : Z := 0.
Definition VK_PRESENT_MODE_MAILBOX_KHR : Z := 1.
Definition VK_PRESENT_MODE_FIFO_KHR : Z := 2.
Definition VK_PRESENT_MODE_MAX_ENUM_KHR : Z := 0x7FFFFFFF.
Definition VK_COMPOSITE_ALPHA_FLAG_BITS_MAX_ENUM_KHR : Z := 0x7FFFFFFF.
Definition VK_IMAGE_USAGE_TRANSFER_DST_BIT : VkFlags := 0x00000002.
Definition VK_IMAGE_USAGE_COLOR_ATTACHMENT_BIT : VkFlags := 0x00000010.
Definition VK_SHARING_MODE_EXCLUSIVE : Z := 0.
Definition VK_COMMAND_POOL_CREATE_TRANSIENT_BIT : VkFlags := 0x00000001.
Definition VK_COMMAND_POOL_CREATE_RESET_COMMAND_BUFFER_BIT : VkFlags := 0x00000002.
Definition VK_COMMAND_BUFFER_LEVEL_PRIMARY : Z := 0.
Definition VK_COMMAND_BUFFER_USAGE_ONE_TIME_SUBMIT_BIT : VkFlags := 0x00000001.
Definition VK_IMAGE_LAYOUT_UNDEFINED : Z := 0.
Definition VK_IMAGE_LAYOUT_TRANSFER_DST_OPTIMAL : Z := 7.
Definition VK_IMAGE_LAYOUT_PRESENT_SRC_KHR : Z := 1000001002.
Definition VK_PIPELINE_STAGE_TOP_OF_PIPE_BIT : VkFlags := 0x00000001.
Definition VK_PIPELINE_STAGE_TRANSFER_BIT : VkFlags := 0x00001000.
Definition VK_PIPELINE_STAGE_BOTTOM_OF_PIPE_BIT : VkFlags := 0x00002000.
Definition VK_ACCESS_NONE : VkFlags := 0.
Definition VK_ACCESS_TRANSFER_WRITE_BIT : VkFlags := 0x00001000.

Definition VK_MAKE_API_VERSION (variant major minor patch : Z) : Z :=
  Z.lor (Z.lor (Z.lor (Z.shiftl variant 29) (Z.shiftl major 22))
               (Z.shiftl minor 12)) patch.

Record VkLayerProperties := { layerName : string }.
Record VkExtensionProperties := { extensionName : string }.
Record VkPhysicalDeviceProperties := {
  apiVersion : Z; driverVersion : Z; vendorID : Z; deviceID : Z;
  deviceType : Z; deviceName : string
}.
Record VkQueueFamilyProperties := { queueFlags : VkFlags; queueCount : Z }.
Record VkExtent2D := { width : Z; height : Z }.
Record VkSurfaceCapabilitiesKHR := {
  minImageCount : Z;
  currentExtent : VkExtent2D;
  currentTransform : VkFlags;
  supportedCompositeAlpha : VkFlags;
  supportedUsageFlags : VkFlags
}.
Record VkSurfaceFormatKHR := { format : Z; colorSpace : Z }.

(** Value-initialised elements of the [vector]s the enumerations fill. *)
Definition zeroLayer := {| layerName := EmptyString |}.
Definition zeroExtension := {| extensionName := EmptyString |}.
Definition zeroQueueFamily := {| queueFlags := 0; queueCount := 0 |}.
Definition zeroSurfaceFormat := {| format := 0; colorSpace := 0 |}.

Record VkApplicationInfo := {
  pApplicationName : string; applicationVersion : Z; app_apiVersion : Z
}.
Record VkInstanceCreateInfo := {
  pApplicationInfo : VkApplicationInfo;
  ici_ppEnabledLayerNames : list string;
  ici_ppEnabledExtensionNames : list string
}.
Record VkDeviceQueueCreateInfo := {
  dq_queueFamilyIndex : Z; dq_queueCount : Z; pQueuePriorities : list Z
}.
Record VkDeviceCreateInfo := {
  pQueueCreateInfos : list VkDeviceQueueCreateInfo;
  dci_ppEnabledExtensionNames : list string
}.
Record VkSwapchainCreateInfoKHR := {
  sc_surface : Handle;
  sc_minImageCount : Z;
  imageFormat : Z;
  imageColorSpace : Z;
  imageExtent : VkExtent2D;
  imageArrayLayers : Z;
  imageUsage : VkFlags;
  imageSharingMode : Z;
  preTransform : VkFlags;
  compositeAlpha : Z;
  presentMode : Z
}.
Record VkCommandPoolCreateInfo := { cp_flags : VkFlags; cp_queueFamilyIndex : Z }.
Record VkCommandBufferAllocateInfo := {
  commandPool : Handle; level : Z; commandBufferCount : Z
}.
Record VkCommandBufferBeginInfo := { cb_flags : VkFlags }.
Record VkImageMemoryBarrier := {
  srcAccessMask : VkFlags; dstAccessMask : VkFlags;
  oldLayout : Z; newLayout : Z;
  srcQueueFamilyIndex : Z; dstQueueFamilyIndex : Z;
  image : Handle
}.
Record VkSubmitInfo := {
  si_pWaitSemaphores : list Handle;
  pWaitDstStageMask : list VkFlags;
  pCommandBuffers : list Handle;
  pSignalSemaphores : list Handle
}.
Record VkPresentInfoKHR := {
  pi_pWaitSemaphores : list Handle;
  pSwapchains : list Handle;
  pImageIndices : list Z
}.


(** A [VkClearColorValue] is used through its [float32[4]] member. *)
Record VkClearColorValue := {
  float32_0 : spec_float; float32_1 : spec_float;
  float32_2 : spec_float; float32_3 : spec_float
}.

Definition float32 (c : VkClearColorValue) (i : Z) : spec_float :=
  if i =? 0 then float32_0 c else if i =? 1 then float32_1 c
  else if i =? 2 then float32_2 c else float32_3 c.

Definition set_float32 (c : VkClearColorValue) (i : Z) (v : spec_float) : VkClearColorValue :=
  if i =? 0 then {| float32_0 := v; float32_1 := float32_1 c;
                    float32_2 := float32_2 c; float32_3 := float32_3 c |}
  else if i =? 1 then {| float32_0 := float32_0 c; float32_1 := v;
                         float32_2 := float32_2 c; float32_3 := float32_3 c |}
  else if i =? 2 then {| float32_0 := float32_0 c; float32_1 := float32_1 c;
                         float32_2 := v; float32_3 := float32_3 c |}
  else {| float32_0 := float32_0 c; float32_1 := float32_1 c;
          float32_2 := float32_2 c; float32_3 := v |}.

(** ** The API calls the renderer makes

    An enumeration entry point is called twice in the source: with a null
    data pointer it reports a count, with a buffer of [capacity] elements it
    writes entries and stores their number back into the count. *)
Inductive Enum (T : Type) : Type -> Type :=
| QueryCount : Enum T N
| Fetch (capacity : N) : Enum T (list T).
Arguments QueryCount {T}.
Arguments Fetch {T} capacity.

Inductive VkCall : Type -> Type :=
| vkEnumerateInstanceLayerProperties R (q : Enum VkLayerProperties R) : VkCall (VkResult * R)
| vkEnumerateInstanceExtensionProperties R (q : Enum VkExtensionProperties R) : VkCall (VkResult * R)
| vkCreateInstance (ci : VkInstanceCreateInfo) : VkCall (VkResult * Handle)
| vkEnumeratePhysicalDevices R (instance : Handle) (q : Enum Handle R) : VkCall (VkResult * R)
| vkGetPhysicalDeviceProperties (physicalDevice : Handle) : VkCall VkPhysicalDeviceProperties
| vkGetPhysicalDeviceQueueFamilyProperties R (physicalDevice : Handle)
    (q : Enum VkQueueFamilyProperties R) : VkCall R
| vkEnumerateDeviceExtensionProperties R (physicalDevice : Handle)
    (q : Enum VkExtensionProperties R) : VkCall (VkResult * R)
| vkCreateDevice (physicalDevice : Handle) (ci : VkDeviceCreateInfo) : VkCall (VkResult * Handle)
| vkGetDeviceQueue (device : Handle) (queueFamilyIndex queueIndex : Z) : VkCall Handle
| vkCreateAndroidSurfaceKHR (instance window : Handle) : VkCall (VkResult * Handle)
| vkGetPhysicalDeviceSurfaceSupportKHR (physicalDevice : Handle) (queueFamilyIndex : Z)
    (surface : Handle) : VkCall (VkResult * Z)
| vkGetPhysicalDeviceSurfaceCapabilitiesKHR (physicalDevice surface : Handle)
    : VkCall (VkResult * VkSurfaceCapabilitiesKHR)
| vkGetPhysicalDeviceSurfaceFormatsKHR R (physicalDevice surface : Handle)
    (q : Enum VkSurfaceFormatKHR R) : VkCall (VkResult * R)
| vkGetPhysicalDeviceSurfacePresentModesKHR R (physicalDevice surface : Handle)
    (q : Enum Z R) : VkCall (VkResult * R)
| vkCreateSwapchainKHR (device : Handle) (ci : VkSwapchainCreateInfoKHR) : VkCall (VkResult * Handle)
| vkGetSwapchainImagesKHR R (device swapchain : Handle) (q : Enum Handle R) : VkCall (VkResult * R)
| vkCreateCommandPool (device : Handle) (ci : VkCommandPoolCreateInfo) : VkCall (VkResult * Handle)
| vkAllocateCommandBuffers (device : Handle) (ai : VkCommandBufferAllocateInfo)
    : VkCall (VkResult * Handle)
| vkBeginCommandBuffer (commandBuffer : Handle) (bi : VkCommandBufferBeginInfo)
    : VkCall (VkResult * unit)
| vkCmdPipelineBarrier (commandBuffer : Handle) (srcStageMask dstStageMask : VkFlags)
    (imageMemoryBarriers : list VkImageMemoryBarrier) : VkCall unit
| vkCmdClearColorImage (commandBuffer image : Handle) (imageLayout : Z)
    (color : VkClearColorValue) : VkCall unit
| vkEndCommandBuffer (commandBuffer : Handle) : VkCall (VkResult * unit)
| vkQueueSubmit (queue : Handle) (submits : list VkSubmitInfo) (fence : Handle)
    : VkCall (VkResult * unit)
| vkQueueWaitIdle (queue : Handle) : VkCall (VkResult * unit)
| vkQueuePresentKHR (queue : Handle) (presentInfo : VkPresentInfoKHR) : VkCall (VkResult * unit)
| vkCreateFence (device : Handle) : VkCall (VkResult * Handle)
| vkCreateSemaphore (device : Handle) : VkCall (VkResult * Handle)
| vkAcquireNextImageKHR (device swapchain : Handle) (timeout : Z) (semaphore fence : Handle)
    : VkCall (VkResult * Z)
| vkWaitForFences (device : Handle) (fences : list Handle) (waitAll timeout : Z)
    : VkCall (VkResult * unit)
| vkResetFences (device : Handle) (fences : list Handle) : VkCall (VkResult * unit)
| vkResetCommandBuffer (commandBuffer : Handle) (flags : VkFlags) : VkCall (VkResult * unit)
| vkDestroySemaphore (device semaphore : Handle) : VkCall unit
| vkDestroyFence (device fence : Handle) : VkCall unit
| vkFreeCommandBuffers (device commandPool : Handle) (commandBuffers : list Handle) : VkCall unit
| vkDestroyCommandPool (device commandPool : Handle) : VkCall unit
| vkDestroySwapchainKHR (device swapchain : Handle) : VkCall unit
| vkDestroySurfaceKHR (instance surface : Handle) : VkCall unit
| vkDestroyDevice (device : Handle) : VkCall unit
| vkDestroyInstance (instance : Handle) : VkCall unit.

(** Whether the entry point is declared to return a [VkResult]. *)
Definition returns_VkResult X (c : VkCall X) : bool :=
  match c with
  | vkGetPhysicalDeviceProperties _
  | vkGetPhysicalDeviceQueueFamilyProperties _ _
  | vkGetDeviceQueue _ _ _
  | vkCmdPipelineBarrier _ _ _ _
  | vkCmdClearColorImage _ _ _ _
  | vkDestroySemaphore _ _ | vkDestroyFence _ _ | vkFreeCommandBuffers _ _ _
  | vkDestroyCommandPool _ _ | vkDestroySwapchainKHR _ _ | vkDestroySurfaceKHR _ _
  | vkDestroyDevice _ | vkDestroyInstance _ => false
  | _ => true
  end.

(** The status a fallible call answered with, if it has one. *)
Definition status_of X (c : VkCall X) : X -> option VkResult :=
  match c in VkCall X return X -> option VkResult with
  | vkGetPhysicalDeviceProperties _ => fun _ => None
  | vkGetPhysicalDeviceQueueFamilyProperties _ _ => fun _ => None
  | vkGetDeviceQueue _ _ _ => fun _ => None
  | vkCmdPipelineBarrier _ _ _ _ => fun _ => None
  | vkCmdClearColorImage _ _ _ _ => fun _ => None
  | vkDestroySemaphore _ _ | vkDestroyFence _ _ | vkFreeCommandBuffers _ _ _
  | vkDestroyCommandPool _ _ | vkDestroySwapchainKHR _ _ | vkDestroySurfaceKHR _ _
  | vkDestroyDevice _ | vkDestroyInstance _ => fun _ => None
  | _ => fun x => Some (fst x)
  end.

End Vk.

(** ** Programs over the API *)

Module Prog.
Import Vk.

(** How the process can die.  [CheckFailed] is what [VK_CHECK_ERROR] logs;
    [AssertFailed] is a failed [assert] (assertions are taken as compiled
    in, that is, [NDEBUG] is not defined). *)
Inductive Diagnostic :=
| CheckFailed (file : string) (line : Z) (expression : string) (status : VkResult)
| AssertFailed (line : Z) (expression : string).

(** A program is a finite tree: it returns, terminates the process, runs
    into undefined behaviour (an out-of-range [operator[]]), or makes a call
    and continues with the answer. *)
Inductive Prog (A : Type) : Type :=
| Ret (a : A)
| Fatal (d : Diagnostic)
| Undefined
| Call X (c : VkCall X) (k : X -> Prog A).
Arguments Fatal {A} d.
Arguments Undefined {A}.

Fixpoint bind A B (p : Prog A) (f : A -> Prog B) : Prog B :=
  match p with
  | Ret a => f a
  | Fatal d => Fatal d
  | Undefined => Undefined
  | Call c k => Call c (fun x => bind (k x) f)
  end.

Definition call X (c : VkCall X) : Prog X := Call c (fun x => Ret x).

Notation "x <- p ;; q" := (bind p (fun x => q))
  (at level 61, p at next level, right associativity).
Notation "p ;; q" := (bind p (fun _ => q))
  (at level 61, right associativity).

Definition call_name X (c : VkCall X) : string :=
  match c with
  | vkEnumerateInstanceLayerProperties _ => "vkEnumerateInstanceLayerProperties"
  | vkEnumerateInstanceExtensionProperties _ => "vkEnumerateInstanceExtensionProperties"
  | vkCreateInstance _ => "vkCreateInstance"
  | vkEnumeratePhysicalDevices _ _ => "vkEnumeratePhysicalDevices"
  | vkGetPhysicalDeviceProperties _ => "vkGetPhysicalDeviceProperties"
  | vkGetPhysicalDeviceQueueFamilyProperties _ _ => "vkGetPhysicalDeviceQueueFamilyProperties"
  | vkEnumerateDeviceExtensionProperties _ _ => "vkEnumerateDeviceExtensionProperties"
  | vkCreateDevice _ _ => "vkCreateDevice"
  | vkGetDeviceQueue _ _ _ => "vkGetDeviceQueue"
  | vkCreateAndroidSurfaceKHR _ _ => "vkCreateAndroidSurfaceKHR"
  | vkGetPhysicalDeviceSurfaceSupportKHR _ _ _ => "vkGetPhysicalDeviceSurfaceSupportKHR"
  | vkGetPhysicalDeviceSurfaceCapabilitiesKHR _ _ => "vkGetPhysicalDeviceSurfaceCapabilitiesKHR"
  | vkGetPhysicalDeviceSurfaceFormatsKHR _ _ _ => "vkGetPhysicalDeviceSurfaceFormatsKHR"
  | vkGetPhysicalDeviceSurfacePresentModesKHR _ _ _ => "vkGetPhysicalDeviceSurfacePresentModesKHR"
  | vkCreateSwapchainKHR _ _ => "vkCreateSwapchainKHR"
  | vkGetSwapchainImagesKHR _ _ _ => "vkGetSwapchainImagesKHR"
  | vkCreateCommandPool _ _ => "vkCreateCommandPool"
  | vkAllocateCommandBuffers _ _ => "vkAllocateCommandBuffers"
  | vkBeginCommandBuffer _ _ => "vkBeginCommandBuffer"
  | vkCmdPipelineBarrier _ _ _ _ => "vkCmdPipelineBarrier"
  | vkCmdClearColorImage _ _ _ _ => "vkCmdClearColorImage"
  | vkEndCommandBuffer _ => "vkEndCommandBuffer"
  | vkQueueSubmit _ _ _ => "vkQueueSubmit"
  | vkQueueWaitIdle _ => "vkQueueWaitIdle"
  | vkQueuePresentKHR _ _ => "vkQueuePresentKHR"
  | vkCreateFence _ => "vkCreateFence"
  | vkCreateSemaphore _ => "vkCreateSemaphore"
  | vkAcquireNextImageKHR _ _ _ _ _ => "vkAcquireNextImageKHR"
  | vkWaitForFences _ _ _ _ => "vkWaitForFences"
  | vkResetFences _ _ => "vkResetFences"
  | vkResetCommandBuffer _ _ => "vkResetCommandBuffer"
  | vkDestroySemaphore _ _ => "vkDestroySemaphore"
  | vkDestroyFence _ _ => "vkDestroyFence"
  | vkFreeCommandBuffers _ _ _ => "vkFreeCommandBuffers"
  | vkDestroyCommandPool _ _ => "vkDestroyCommandPool"
  | vkDestroySwapchainKHR _ _ => "vkDestroySwapchainKHR"
  | vkDestroySurfaceKHR _ _ => "vkDestroySurfaceKHR"
  | vkDestroyDevice _ => "vkDestroyDevice"
  | vkDestroyInstance _ => "vkDestroyInstance"
  end%string.

(** Modelled from the spec: the macro [VK_CHECK_ERROR] of [VkUtil.h], which
    is not among the sources.  It evaluates the call, and on any status
    other than success logs file, line and call expression and terminates
    the process; on success execution continues after it. *)
Definition VK_CHECK_ERROR X (line : Z) (c : VkCall (VkResult * X)) : Prog X :=
  Call c (fun rx =>
    if fst rx =? VK_SUCCESS then Ret (snd rx)
    else Fatal (CheckFailed "VkRenderer.cpp" line (call_name c) (fst rx))).

Definition assert (line : Z) (expression : string) (condition : bool) : Prog unit :=
  if condition then Ret tt else Fatal (AssertFailed line expression).

(** [v[i]] of a [vector]: undefined outside the bounds. *)
Definition at_index A (v : list A) (i : Z) : Prog A :=
  if i <? 0 then Undefined
  else match nth_error v (Z.to_nat i) with
       | Some x => Ret x
       | None => Undefined
       end.

(** The entries a buffer of [capacity] elements receives, and the vector
    of [capacity] value-initialised elements after the driver wrote them. *)
Definition written A (capacity : N) (entries : list A) : list A :=
  firstn (N.to_nat capacity) entries.

Definition filled A (capacity : N) (zero : A) (entries : list A) : list A :=
  written capacity entries ++
  repeat zero (N.to_nat capacity - List.length (written capacity entries)).

(** The second call of an enumeration whose loop runs to the count this
    call stored: it is given [v.data()] of the vector [v] of [count]
    value-initialised elements.  The data pointer of an empty vector is
    null, and with a null pointer the call is the count query once more.
    The value is the vector after the call with the count the call stored:
    with a buffer, the number of entries written into it. *)
Definition secondCall A (zero : A) (count : N) (query : Prog N) (fetch : Prog (list A))
  : Prog (list A * N) :=
  if (count =? 0)%N
  then stored <- query ;; Ret ([], stored)
  else entries <- fetch ;;
       Ret (filled count zero entries, N.of_nat (List.length (written count entries))).

(** The value of an expression that is undefined for some operands. *)
Definition defined A (o : option A) : Prog A :=
  match o with
  | Some a => Ret a
  | None => Undefined
  end.

(** [INT_MAX], the largest value of the loop counters declared [auto i = 0]. *)
Definition INT_MAX : Z := 0x7FFFFFFF.

(** ** Drivers and runs *)

Inductive Event := Ev X (c : VkCall X) (x : X).

Inductive Outcome (A : Type) :=
| Done (a : A)
| Terminated (d : Diagnostic)
| UB.
Arguments Terminated {A} d.
Arguments UB {A}.

Record Driver := {
  world : Type;
  reply : forall X, VkCall X -> world -> X * world
}.

Record Run (W A : Type) := {
  trace : list Event;
  outcome : Outcome A;
  final : W
}.

Fixpoint run A (d : Driver) (p : Prog A) (w : world d) : Run (world d) A :=
  match p with
  | Ret a => {| trace := []; outcome := Done a; final := w |}
  | Fatal x => {| trace := []; outcome := Terminated x; final := w |}
  | Undefined => {| trace := []; outcome := UB; final := w |}
  | Call c k =>
      let xw := reply d c w in
      let r := run d (k (fst xw)) (snd xw) in
      {| trace := Ev c (fst xw) :: trace r; outcome := outcome r; final := final r |}
  end.

(** The run of [bind p f], from the run of [p]. *)
Definition then_run (d : Driver) A B (R : Run (world d) A) (f : A -> Prog B)
  : Run (world d) B :=
  match outcome R with
  | Done a =>
      let R' := run d (f a) (final R) in
      {| trace := trace R ++ trace R'; outcome := outcome R'; final := final R' |}
  | Terminated x => {| trace := trace R; outcome := Terminated x; final := final R |}
  | UB => {| trace := trace R; outcome := UB; final := final R |}
  end.

End Prog.

(** ** The renderer (VkRenderer.cpp) *)

Module Renderer.
Import Vk Prog Binary.

(** The data members the translation unit uses ([VkRenderer.h] declares
    them). *)
Record VkRenderer := {
  mInstance : Handle;
  mPhysicalDevice : Handle;
  mQueueFamilyIndex : Z;
  mDevice : Handle;
  mQueue : Handle;
  mSurface : Handle;
  mSwapchain : Handle;
  mSwapchainImages : list Handle;
  mCommandPool : Handle;
  mCommandBuffer : Handle;
  mFence : Handle;
  mImageAcquisitionSemaphore : Handle;
  mRenderCompletionSemaphore : Handle;
  mClearColorValue : VkClearColorValue
}.

(** *** Constructor, 1: the instance *)

Definition wantedInstanceExtension (properties : VkExtensionProperties) : bool :=
  String.eqb (extensionName properties) "VK_KHR_surface" ||
  String.eqb (extensionName properties) "VK_KHR_android_surface".

Definition createInstance : Prog Handle :=
  let applicationInfo :=
    {| pApplicationName := "Practice Vulkan";
       applicationVersion := VK_MAKE_API_VERSION 0 0 1 0;
       app_apiVersion := VK_MAKE_API_VERSION 0 1 3 0 |} in
  instanceLayerCount <- VK_CHECK_ERROR 46 (vkEnumerateInstanceLayerProperties QueryCount) ;;
  entries <- VK_CHECK_ERROR 49
    (vkEnumerateInstanceLayerProperties (Fetch instanceLayerCount)) ;;
  let instanceLayerProperties := filled instanceLayerCount zeroLayer entries in
  let instanceLayerNames := map layerName instanceLayerProperties in
  instanceExtensionCount <- VK_CHECK_ERROR 58
    (vkEnumerateInstanceExtensionProperties QueryCount) ;;
  entries <- VK_CHECK_ERROR 63
    (vkEnumerateInstanceExtensionProperties (Fetch instanceExtensionCount)) ;;
  let instanceExtensionProperties := filled instanceExtensionCount zeroExtension entries in
  let instanceExtensionNames :=
    map extensionName (filter wantedInstanceExtension instanceExtensionProperties) in
  assert 74 "instanceExtensionNames.size() == 2"
    (Nat.eqb (List.length instanceExtensionNames) 2) ;;
  let instanceCreateInfo :=
    {| pApplicationInfo := applicationInfo;
       ici_ppEnabledLayerNames := instanceLayerNames;
       ici_ppEnabledExtensionNames := instanceExtensionNames |} in
  VK_CHECK_ERROR 85 (vkCreateInstance instanceCreateInfo).

(** *** Constructor, 2: the physical device *)

Definition selectPhysicalDevice (mInstance : Handle) : Prog Handle :=
  physicalDeviceCount <- VK_CHECK_ERROR 91 (vkEnumeratePhysicalDevices mInstance QueryCount) ;;
  entries <- VK_CHECK_ERROR 94
    (vkEnumeratePhysicalDevices mInstance (Fetch physicalDeviceCount)) ;;
  let physicalDevices := filled physicalDeviceCount VK_NULL_HANDLE entries in
  mPhysicalDevice <- at_index physicalDevices 0 ;;
  physicalDeviceProperties <- call (vkGetPhysicalDeviceProperties mPhysicalDevice) ;;
  Ret mPhysicalDevice.

(** *** Constructor, 3: the logical device *)

Definition graphicsCapable (properties : VkQueueFamilyProperties) : bool :=
  negb (Z.land (queueFlags properties) VK_QUEUE_GRAPHICS_BIT =? 0).

(** [for (i = start; i != count; ++i) if (test(v[i])) break;] with an
    unsigned [i]: the value of [i] when the loop is left.  [v] is the vector
    from element [i] on and [count] the number of rounds to go; [v[i]]
    outside the vector is undefined. *)
Fixpoint breakIndex A (test : A -> bool) (v : list A) (count : nat) (i : Z) {struct count}
  : option Z :=
  match count with
  | O => Some i
  | S count' =>
      match v with
      | [] => None
      | x :: rest => if test x then Some i else breakIndex test rest count' (i + 1)
      end
  end.

Definition wantedDeviceExtension (properties : VkExtensionProperties) : bool :=
  String.eqb (extensionName properties) "VK_KHR_swapchain".

Definition createDevice (mPhysicalDevice : Handle) : Prog (Z * Handle * Handle) :=
  queueFamilyPropertiesCount <-
    call (vkGetPhysicalDeviceQueueFamilyProperties mPhysicalDevice QueryCount) ;;
  fetched <- secondCall zeroQueueFamily queueFamilyPropertiesCount
    (call (vkGetPhysicalDeviceQueueFamilyProperties mPhysicalDevice QueryCount))
    (call (vkGetPhysicalDeviceQueueFamilyProperties mPhysicalDevice
             (Fetch queueFamilyPropertiesCount))) ;;
  let queueFamilyProperties := fst fetched in
  let queueFamilyPropertiesCount := snd fetched in
  mQueueFamilyIndex <-
    defined (breakIndex graphicsCapable queueFamilyProperties
               (N.to_nat queueFamilyPropertiesCount) 0) ;;
  let queuePriorities := [1] in
  let deviceQueueCreateInfo :=
    {| dq_queueFamilyIndex := mQueueFamilyIndex;
       dq_queueCount := 1;
       pQueuePriorities := queuePriorities |} in
  deviceExtensionCount <- VK_CHECK_ERROR 145
    (vkEnumerateDeviceExtensionProperties mPhysicalDevice QueryCount) ;;
  entries <- VK_CHECK_ERROR 151
    (vkEnumerateDeviceExtensionProperties mPhysicalDevice (Fetch deviceExtensionCount)) ;;
  let deviceExtensionProperties := filled deviceExtensionCount zeroExtension entries in
  let deviceExtensionNames :=
    map extensionName (filter wantedDeviceExtension deviceExtensionProperties) in
  assert 162 "deviceExtensionNames.size() == 1"
    (Nat.eqb (List.length deviceExtensionNames) 1) ;;
  let deviceCreateInfo :=
    {| pQueueCreateInfos := [deviceQueueCreateInfo];
       dci_ppEnabledExtensionNames := deviceExtensionNames |} in
  mDevice <- VK_CHECK_ERROR 172 (vkCreateDevice mPhysicalDevice deviceCreateInfo) ;;
  mQueue <- call (vkGetDeviceQueue mDevice mQueueFamilyIndex 0) ;;
  Ret (mQueueFamilyIndex, mDevice, mQueue).

(** *** Constructor, 4: the surface *)

Definition createSurface (window mInstance mPhysicalDevice : Handle) (mQueueFamilyIndex : Z)
  : Prog Handle :=
  mSurface <- VK_CHECK_ERROR 183 (vkCreateAndroidSurfaceKHR mInstance window) ;;
  supported <- VK_CHECK_ERROR 186
    (vkGetPhysicalDeviceSurfaceSupportKHR mPhysicalDevice mQueueFamilyIndex mSurface) ;;
  assert 190 "supported" (negb (supported =? 0)) ;;
  Ret mSurface.

(** *** Constructor, 5: the swapchain *)

(** [for (auto i = 0; i != count; ++i) if (test(v[i])) { index = i; break; }]
    with [index] initialised to [notFound]: the final value of [index].
    [v] is the vector from element [i] on and [count] the number of rounds
    to go.  The counter is an [int]: [++i] at [INT_MAX] is undefined, as is
    [v[i]] outside the vector. *)
Fixpoint firstIndex A (test : A -> bool) (v : list A) (count : nat) (i notFound : Z)
  {struct count} : option Z :=
  match count with
  | O => Some notFound
  | S count' =>
      match v with
      | [] => None
      | x :: rest =>
          if test x then Some i
          else if i =? INT_MAX then None
          else firstIndex test rest count' (i + 1) notFound
      end
  end.

(** The scan of the composite-alpha bits [0x1u << i] for [i = 0 .. 4]. *)
Fixpoint firstCompositeAlpha (supported : VkFlags) (shifts : list Z) (notFound : Z) : Z :=
  match shifts with
  | [] => notFound
  | i :: rest =>
      let flag := Z.shiftl 1 i in
      if negb (Z.land supported flag =? 0) then flag
      else firstCompositeAlpha supported rest notFound
  end.

Definition isPreferredFormat (f : VkSurfaceFormatKHR) : bool :=
  format f =? VK_FORMAT_R8G8B8A8_UNORM.

Definition isFifo (mode : Z) : bool := mode =? VK_PRESENT_MODE_FIFO_KHR.

Definition selectSurfaceFormat (mPhysicalDevice mSurface : Handle)
  : Prog (list VkSurfaceFormatKHR * Z) :=
  surfaceFormatCount <- VK_CHECK_ERROR 214
    (vkGetPhysicalDeviceSurfaceFormatsKHR mPhysicalDevice mSurface QueryCount) ;;
  fetched <- secondCall zeroSurfaceFormat surfaceFormatCount
    (VK_CHECK_ERROR 220
       (vkGetPhysicalDeviceSurfaceFormatsKHR mPhysicalDevice mSurface QueryCount))
    (VK_CHECK_ERROR 220
       (vkGetPhysicalDeviceSurfaceFormatsKHR mPhysicalDevice mSurface
          (Fetch surfaceFormatCount))) ;;
  let surfaceFormats := fst fetched in
  let surfaceFormatCount := snd fetched in
  surfaceFormatIndex <-
    defined (firstIndex isPreferredFormat surfaceFormats (N.to_nat surfaceFormatCount) 0
               VK_FORMAT_MAX_ENUM) ;;
  assert 232 "surfaceFormatIndex != VK_FORMAT_MAX_ENUM"
    (negb (surfaceFormatIndex =? VK_FORMAT_MAX_ENUM)) ;;
  Ret (surfaceFormats, surfaceFormatIndex).

Definition selectPresentMode (mPhysicalDevice mSurface : Handle) : Prog (list Z * Z) :=
  presentModeCount <- VK_CHECK_ERROR 235
    (vkGetPhysicalDeviceSurfacePresentModesKHR mPhysicalDevice mSurface QueryCount) ;;
  fetched <- secondCall 0 presentModeCount
    (VK_CHECK_ERROR 241
       (vkGetPhysicalDeviceSurfacePresentModesKHR mPhysicalDevice mSurface QueryCount))
    (VK_CHECK_ERROR 241
       (vkGetPhysicalDeviceSurfacePresentModesKHR mPhysicalDevice mSurface
          (Fetch presentModeCount))) ;;
  let presentModes := fst fetched in
  let presentModeCount := snd fetched in
  presentModeIndex <-
    defined (firstIndex isFifo presentModes (N.to_nat presentModeCount) 0
               VK_PRESENT_MODE_MAX_ENUM_KHR) ;;
  assert 253 "presentModeIndex != VK_PRESENT_MODE_MAX_ENUM_KHR"
    (negb (presentModeIndex =? VK_PRESENT_MODE_MAX_ENUM_KHR)) ;;
  Ret (presentModes, presentModeIndex).

Definition createSwapchain (mPhysicalDevice mDevice mSurface : Handle)
  : Prog (Handle * list Handle) :=
  surfaceCapabilities <- VK_CHECK_ERROR 196
    (vkGetPhysicalDeviceSurfaceCapabilitiesKHR mPhysicalDevice mSurface) ;;
  let compositeAlpha :=
    firstCompositeAlpha (supportedCompositeAlpha surfaceCapabilities) [0; 1; 2; 3; 4]
      VK_COMPOSITE_ALPHA_FLAG_BITS_MAX_ENUM_KHR in
  assert 207 "compositeAlpha != VK_COMPOSITE_ALPHA_FLAG_BITS_MAX_ENUM_KHR"
    (negb (compositeAlpha =? VK_COMPOSITE_ALPHA_FLAG_BITS_MAX_ENUM_KHR)) ;;
  let swapchainImageUsage :=
    Z.lor VK_IMAGE_USAGE_COLOR_ATTACHMENT_BIT VK_IMAGE_USAGE_TRANSFER_DST_BIT in
  assert 211 "surfaceCapabilities.supportedUsageFlags & VK_IMAGE_USAGE_COLOR_ATTACHMENT_BIT"
    (negb (Z.land (supportedUsageFlags surfaceCapabilities)
                  VK_IMAGE_USAGE_COLOR_ATTACHMENT_BIT =? 0)) ;;
  formats <- selectSurfaceFormat mPhysicalDevice mSurface ;;
  let '(surfaceFormats, surfaceFormatIndex) := formats in
  modes <- selectPresentMode mPhysicalDevice mSurface ;;
  let '(presentModes, presentModeIndex) := modes in
  surfaceFormat <- at_index surfaceFormats surfaceFormatIndex ;;
  chosenPresentMode <- at_index presentModes presentModeIndex ;;
  let swapchainCreateInfo :=
    {| sc_surface := mSurface;
       sc_minImageCount := minImageCount surfaceCapabilities;
       imageFormat := format surfaceFormat;
       imageColorSpace := colorSpace surfaceFormat;
       imageExtent := currentExtent surfaceCapabilities;
       imageArrayLayers := 1;
       imageUsage := swapchainImageUsage;
       imageSharingMode := VK_SHARING_MODE_EXCLUSIVE;
       preTransform := currentTransform surfaceCapabilities;
       compositeAlpha := compositeAlpha;
       presentMode := chosenPresentMode |} in
  mSwapchain <- VK_CHECK_ERROR 270 (vkCreateSwapchainKHR mDevice swapchainCreateInfo) ;;
  swapchainImageCount <- VK_CHECK_ERROR 273
    (vkGetSwapchainImagesKHR mDevice mSwapchain QueryCount) ;;
  entries <- VK_CHECK_ERROR 276
    (vkGetSwapchainImagesKHR mDevice mSwapchain (Fetch swapchainImageCount)) ;;
  let mSwapchainImages := filled swapchainImageCount VK_NULL_HANDLE entries in
  Ret (mSwapchain, mSwapchainImages).

(** *** Constructor, 6-12: command pool, command buffer, initial layouts *)

Definition presentBarrier (swapchainImage : Handle) : VkImageMemoryBarrier :=
  {| srcAccessMask := 0;
     dstAccessMask := 0;
     oldLayout := VK_IMAGE_LAYOUT_UNDEFINED;
     newLayout := VK_IMAGE_LAYOUT_PRESENT_SRC_KHR;
     srcQueueFamilyIndex := VK_QUEUE_FAMILY_IGNORED;
     dstQueueFamilyIndex := VK_QUEUE_FAMILY_IGNORED;
     image := swapchainImage |}.

Fixpoint recordInitialLayouts (mCommandBuffer : Handle) (images : list Handle) : Prog unit :=
  match images with
  | [] => Ret tt
  | swapchainImage :: rest =>
      call (vkCmdPipelineBarrier mCommandBuffer
              VK_PIPELINE_STAGE_TOP_OF_PIPE_BIT VK_PIPELINE_STAGE_BOTTOM_OF_PIPE_BIT
              [presentBarrier swapchainImage]) ;;
      recordInitialLayouts mCommandBuffer rest
  end.

Definition createCommandPool (mDevice : Handle) (mQueueFamilyIndex : Z) : Prog Handle :=
  let commandPoolCreateInfo :=
    {| cp_flags := Z.lor VK_COMMAND_POOL_CREATE_TRANSIENT_BIT
                         VK_COMMAND_POOL_CREATE_RESET_COMMAND_BUFFER_BIT;
       cp_queueFamilyIndex := mQueueFamilyIndex |} in
  VK_CHECK_ERROR 291 (vkCreateCommandPool mDevice commandPoolCreateInfo).

Definition allocateCommandBuffer (mDevice mCommandPool : Handle) : Prog Handle :=
  let commandBufferAllocateInfo :=
    {| commandPool := mCommandPool;
       level := VK_COMMAND_BUFFER_LEVEL_PRIMARY;
       commandBufferCount := 1 |} in
  VK_CHECK_ERROR 303 (vkAllocateCommandBuffers mDevice commandBufferAllocateInfo).

Definition transitionSwapchainImages (mQueue mCommandBuffer : Handle)
  (mSwapchainImages : list Handle) : Prog unit :=
  let commandBufferBeginInfo :=
    {| cb_flags := VK_COMMAND_BUFFER_USAGE_ONE_TIME_SUBMIT_BIT |} in
  VK_CHECK_ERROR 313 (vkBeginCommandBuffer mCommandBuffer commandBufferBeginInfo) ;;
  recordInitialLayouts mCommandBuffer mSwapchainImages ;;
  VK_CHECK_ERROR 352 (vkEndCommandBuffer mCommandBuffer) ;;
  let submitInfo :=
    {| si_pWaitSemaphores := [];
       pWaitDstStageMask := [];
       pCommandBuffers := [mCommandBuffer];
       pSignalSemaphores := [] |} in
  VK_CHECK_ERROR 363 (vkQueueSubmit mQueue [submitInfo] VK_NULL_HANDLE) ;;
  VK_CHECK_ERROR 364 (vkQueueWaitIdle mQueue).

(** *** Constructor, 13: fence and semaphores *)

Definition createSyncObjects (mDevice : Handle) : Prog (Handle * Handle * Handle) :=
  mFence <- VK_CHECK_ERROR 373 (vkCreateFence mDevice) ;;
  mImageAcquisitionSemaphore <- VK_CHECK_ERROR 382 (vkCreateSemaphore mDevice) ;;
  mRenderCompletionSemaphore <- VK_CHECK_ERROR 383 (vkCreateSemaphore mDevice) ;;
  Ret (mFence, mImageAcquisitionSemaphore, mRenderCompletionSemaphore).

(** [VkRenderer::VkRenderer(ANativeWindow *window)].  The constructor does
    not assign [mClearColorValue]; its initial value comes from the member's
    declaration and is a parameter here. *)
Definition constructor (initialClearColor : VkClearColorValue) (window : Handle)
  : Prog VkRenderer :=
  mInstance <- createInstance ;;
  mPhysicalDevice <- selectPhysicalDevice mInstance ;;
  device <- createDevice mPhysicalDevice ;;
  let '(mQueueFamilyIndex, mDevice, mQueue) := device in
  mSurface <- createSurface window mInstance mPhysicalDevice mQueueFamilyIndex ;;
  swapchain <- createSwapchain mPhysicalDevice mDevice mSurface ;;
  let '(mSwapchain, mSwapchainImages) := swapchain in
  mCommandPool <- createCommandPool mDevice mQueueFamilyIndex ;;
  mCommandBuffer <- allocateCommandBuffer mDevice mCommandPool ;;
  transitionSwapchainImages mQueue mCommandBuffer mSwapchainImages ;;
  sync <- createSyncObjects mDevice ;;
  let '(mFence, mImageAcquisitionSemaphore, mRenderCompletionSemaphore) := sync in
  Ret {| mInstance := mInstance;
         mPhysicalDevice := mPhysicalDevice;
         mQueueFamilyIndex := mQueueFamilyIndex;
         mDevice := mDevice;
         mQueue := mQueue;
         mSurface := mSurface;
         mSwapchain := mSwapchain;
         mSwapchainImages := mSwapchainImages;
         mCommandPool := mCommandPool;
         mCommandBuffer := mCommandBuffer;
         mFence := mFence;
         mImageAcquisitionSemaphore := mImageAcquisitionSemaphore;
         mRenderCompletionSemaphore := mRenderCompletionSemaphore;
         mClearColorValue := initialClearColor |}.

(** [VkRenderer::~VkRenderer()] *)
Definition destructor (r : VkRenderer) : Prog unit :=
  call (vkDestroySemaphore (mDevice r) (mImageAcquisitionSemaphore r)) ;;
  call (vkDestroySemaphore (mDevice r) (mRenderCompletionSemaphore r)) ;;
  call (vkDestroyFence (mDevice r) (mFence r)) ;;
  call (vkFreeCommandBuffers (mDevice r) (mCommandPool r) [mCommandBuffer r]) ;;
  call (vkDestroyCommandPool (mDevice r) (mCommandPool r)) ;;
  call (vkDestroySwapchainKHR (mDevice r) (mSwapchain r)) ;;
  call (vkDestroySurfaceKHR (mInstance r) (mSurface r)) ;;
  call (vkDestroyDevice (mDevice r)) ;;
  call (vkDestroyInstance (mInstance r)).

(** *** [VkRenderer::render()] *)

(** One channel: [fmodf(float32[i] + 0.01, 1.0)]. *)
Definition advanceChannel (c : spec_float) : spec_float :=
  fmodf (float_of_double (SFadd prec64 emax64 (double_of_float c) lit_0_01))
        (float_of_double lit_1_0).

(** [for (auto i = 0; i != 4; ++i) float32[i] = fmodf(float32[i] + 0.01, 1.0);] *)
Definition updateClearColor (color : VkClearColorValue) : VkClearColorValue :=
  fold_left (fun c i => set_float32 c i (advanceChannel (float32 c i))) [0; 1; 2; 3] color.

Definition clearBarrier (swapchainImage : Handle) : VkImageMemoryBarrier :=
  {| srcAccessMask := VK_ACCESS_NONE;
     dstAccessMask := VK_ACCESS_TRANSFER_WRITE_BIT;
     oldLayout := VK_IMAGE_LAYOUT_PRESENT_SRC_KHR;
     newLayout := VK_IMAGE_LAYOUT_TRANSFER_DST_OPTIMAL;
     srcQueueFamilyIndex := VK_QUEUE_FAMILY_IGNORED;
     dstQueueFamilyIndex := VK_QUEUE_FAMILY_IGNORED;
     image := swapchainImage |}.

Definition backToPresentBarrier (swapchainImage : Handle) : VkImageMemoryBarrier :=
  {| srcAccessMask := VK_ACCESS_TRANSFER_WRITE_BIT;
     dstAccessMask := 0;
     oldLayout := VK_IMAGE_LAYOUT_TRANSFER_DST_OPTIMAL;
     newLayout := VK_IMAGE_LAYOUT_PRESENT_SRC_KHR;
     srcQueueFamilyIndex := VK_QUEUE_FAMILY_IGNORED;
     dstQueueFamilyIndex := VK_QUEUE_FAMILY_IGNORED;
     image := swapchainImage |}.

Definition with_clear_color (r : VkRenderer) (color : VkClearColorValue) : VkRenderer :=
  {| mInstance := mInstance r;
     mPhysicalDevice := mPhysicalDevice r;
     mQueueFamilyIndex := mQueueFamilyIndex r;
     mDevice := mDevice r;
     mQueue := mQueue r;
     mSurface := mSurface r;
     mSwapchain := mSwapchain r;
     mSwapchainImages := mSwapchainImages r;
     mCommandPool := mCommandPool r;
     mCommandBuffer := mCommandBuffer r;
     mFence := mFence r;
     mImageAcquisitionSemaphore := mImageAcquisitionSemaphore r;
     mRenderCompletionSemaphore := mRenderCompletionSemaphore r;
     mClearColorValue := color |}.

Definition render (r : VkRenderer) : Prog VkRenderer :=
  swapchainImageIndex <- VK_CHECK_ERROR 403
    (vkAcquireNextImageKHR (mDevice r) (mSwapchain r) UINT64_MAX
       (mImageAcquisitionSemaphore r) (mFence r)) ;;
  swapchainImage <- at_index (mSwapchainImages r) swapchainImageIndex ;;
  VK_CHECK_ERROR 414 (vkWaitForFences (mDevice r) [mFence r] VK_TRUE UINT64_MAX) ;;
  VK_CHECK_ERROR 415 (vkResetFences (mDevice r) [mFence r]) ;;
  call (vkResetCommandBuffer (mCommandBuffer r) 0) ;;
  let commandBufferBeginInfo :=
    {| cb_flags := VK_COMMAND_BUFFER_USAGE_ONE_TIME_SUBMIT_BIT |} in
  VK_CHECK_ERROR 430 (vkBeginCommandBuffer (mCommandBuffer r) commandBufferBeginInfo) ;;
  call (vkCmdPipelineBarrier (mCommandBuffer r)
          VK_PIPELINE_STAGE_TOP_OF_PIPE_BIT VK_PIPELINE_STAGE_TRANSFER_BIT
          [clearBarrier swapchainImage]) ;;
  let r := with_clear_color r (updateClearColor (mClearColorValue r)) in
  call (vkCmdClearColorImage (mCommandBuffer r) swapchainImage
          VK_IMAGE_LAYOUT_TRANSFER_DST_OPTIMAL (mClearColorValue r)) ;;
  call (vkCmdPipelineBarrier (mCommandBuffer r)
          VK_PIPELINE_STAGE_TRANSFER_BIT VK_PIPELINE_STAGE_BOTTOM_OF_PIPE_BIT
          [backToPresentBarrier swapchainImage]) ;;
  VK_CHECK_ERROR 524 (vkEndCommandBuffer (mCommandBuffer r)) ;;
  let waitDstStageMask := VK_PIPELINE_STAGE_TRANSFER_BIT in
  let submitInfo :=
    {| si_pWaitSemaphores := [mImageAcquisitionSemaphore r];
       pWaitDstStageMask := [waitDstStageMask];
       pCommandBuffers := [mCommandBuffer r];
       pSignalSemaphores := [mRenderCompletionSemaphore r] |} in
  VK_CHECK_ERROR 541 (vkQueueSubmit (mQueue r) [submitInfo] VK_NULL_HANDLE) ;;
  let presentInfo :=
    {| pi_pWaitSemaphores := [mRenderCompletionSemaphore r];
       pSwapchains := [mSwapchain r];
       pImageIndices := [swapchainImageIndex] |} in
  VK_CHECK_ERROR 555 (vkQueuePresentKHR (mQueue r) presentInfo) ;;
  Ret r.

(** [n] successive frames. *)
Fixpoint renderTimes (n : nat) (r : VkRenderer) : Prog VkRenderer :=
  match n with
  | O => Ret r
  | S n' => r' <- render r ;; renderTimes n' r'
  end.

End Renderer.

(** ** A simulated driver

    A well-behaved driver built from a description of the platform; it
    hands out fresh handles, cycles through the swapchain images and
    answers every fallible call with the status the description gives for
    the entry point.  It serves as the concrete environment of the examples. *)

Module Sim.
Import Vk Prog.

Record PhysicalDevice := {
  pd_handle : Handle;
  pd_properties : VkPhysicalDeviceProperties;
  pd_queueFamilies : list VkQueueFamilyProperties;
  pd_extensions : list VkExtensionProperties;
  pd_surfaceSupport : Z;
  pd_capabilities : VkSurfaceCapabilitiesKHR;
  pd_formats : list VkSurfaceFormatKHR;
  pd_presentModes : list Z
}.

Record Platform := {
  layers : list VkLayerProperties;
  instanceExtensions : list VkExtensionProperties;
  devices : list PhysicalDevice;
  swapchainImages : list Handle;
  status : string -> VkResult
}.

Record World := { nextHandle : Handle; frame : Z }.

Definition enumerate T R (q : Enum T R) (available : list T) : R :=
  match q in Enum _ R return R with
  | QueryCount => N.of_nat (List.length available)
  | Fetch capacity => firstn (N.to_nat capacity) available
  end.

Definition noDevice : PhysicalDevice :=
  {| pd_handle := VK_NULL_HANDLE;
     pd_properties := {| apiVersion := 0; driverVersion := 0; vendorID := 0;
                         deviceID := 0; deviceType := 0; deviceName := EmptyString |};
     pd_queueFamilies := [];
     pd_extensions := [];
     pd_surfaceSupport := 0;
     pd_capabilities := {| minImageCount := 0;
                           currentExtent := {| width := 0; height := 0 |};
                           currentTransform := 0;
                           supportedCompositeAlpha := 0;
                           supportedUsageFlags := 0 |};
     pd_formats := [];
     pd_presentModes := [] |}.

Definition device_of (p : Platform) (h : Handle) : PhysicalDevice :=
  match find (fun d => pd_handle d =? h) (devices p) with
  | Some d => d
  | None => noDevice
  end.

Definition fresh (w : World) : World :=
  {| nextHandle := nextHandle w + 1; frame := frame w |}.

Definition next_frame (w : World) : World :=
  {| nextHandle := nextHandle w; frame := frame w + 1 |}.

Definition sim_reply (p : Platform) X (c : VkCall X) (w : World) : X * World :=
  let s := status p (call_name c) in
  match c in VkCall X return X * World with
  | vkEnumerateInstanceLayerProperties q => ((s, enumerate q (layers p)), w)
  | vkEnumerateInstanceExtensionProperties q => ((s, enumerate q (instanceExtensions p)), w)
  | vkCreateInstance _ => ((s, nextHandle w), fresh w)
  | vkEnumeratePhysicalDevices _ q => ((s, enumerate q (map pd_handle (devices p))), w)
  | vkGetPhysicalDeviceProperties pd => (pd_properties (device_of p pd), w)
  | vkGetPhysicalDeviceQueueFamilyProperties pd q =>
      (enumerate q (pd_queueFamilies (device_of p pd)), w)
  | vkEnumerateDeviceExtensionProperties pd q =>
      ((s, enumerate q (pd_extensions (device_of p pd))), w)
  | vkCreateDevice _ _ => ((s, nextHandle w), fresh w)
  | vkGetDeviceQueue _ _ _ => (nextHandle w, fresh w)
  | vkCreateAndroidSurfaceKHR _ _ => ((s, nextHandle w), fresh w)
  | vkGetPhysicalDeviceSurfaceSupportKHR pd _ _ => ((s, pd_surfaceSupport (device_of p pd)), w)
  | vkGetPhysicalDeviceSurfaceCapabilitiesKHR pd _ => ((s, pd_capabilities (device_of p pd)), w)
  | vkGetPhysicalDeviceSurfaceFormatsKHR pd _ q =>
      ((s, enumerate q (pd_formats (device_of p pd))), w)
  | vkGetPhysicalDeviceSurfacePresentModesKHR pd _ q =>
      ((s, enumerate q (pd_presentModes (device_of p pd))), w)
  | vkCreateSwapchainKHR _ _ => ((s, nextHandle w), fresh w)
  | vkGetSwapchainImagesKHR _ _ q => ((s, enumerate q (swapchainImages p)), w)
  | vkCreateCommandPool _ _ => ((s, nextHandle w), fresh w)
  | vkAllocateCommandBuffers _ _ => ((s, nextHandle w), fresh w)
  | vkBeginCommandBuffer _ _ => ((s, tt), w)
  | vkCmdPipelineBarrier _ _ _ _ => (tt, w)
  | vkCmdClearColorImage _ _ _ _ => (tt, w)
  | vkEndCommandBuffer _ => ((s, tt), w)
  | vkQueueSubmit _ _ _ => ((s, tt), w)
  | vkQueueWaitIdle _ => ((s, tt), w)
  | vkQueuePresentKHR _ _ => ((s, tt), w)
  | vkCreateFence _ => ((s, nextHandle w), fresh w)
  | vkCreateSemaphore _ => ((s, nextHandle w), fresh w)
  | vkAcquireNextImageKHR _ _ _ _ _ =>
      ((s, frame w mod Z.max 1 (Z.of_nat (List.length (swapchainImages p)))), next_frame w)
  | vkWaitForFences _ _ _ _ => ((s, tt), w)
  | vkResetFences _ _ => ((s, tt), w)
  | vkResetCommandBuffer _ _ => ((s, tt), w)
  | vkDestroySemaphore _ _ => (tt, w)
  | vkDestroyFence _ _ => (tt, w)
  | vkFreeCommandBuffers _ _ _ => (tt, w)
  | vkDestroyCommandPool _ _ => (tt, w)
  | vkDestroySwapchainKHR _ _ => (tt, w)
  | vkDestroySurfaceKHR _ _ => (tt, w)
  | vkDestroyDevice _ => (tt, w)
  | vkDestroyInstance _ => (tt, w)
  end.

Definition driver (p : Platform) : Driver :=
  {| world := World; reply := sim_reply p |}.

Definition boot : World := {| nextHandle := 1; frame := 0 |}.

Definition allSucceed : string -> VkResult := fun _ => VK_SUCCESS.

Definition capabilities : VkSurfaceCapabilitiesKHR :=
  {| minImageCount := 2;
     currentExtent := {| width := 1080; height := 2400 |};
     currentTransform := 1;
     supportedCompositeAlpha := 0x2;
     supportedUsageFlags := 0x1f |}.

Definition gpu (h : Handle) (families : list VkQueueFamilyProperties)
  (formats : list VkSurfaceFormatKHR) (modes : list Z) : PhysicalDevice :=
  {| pd_handle := h;
     pd_properties := {| apiVersion := VK_MAKE_API_VERSION 0 1 3 0; driverVersion := 1;
                         vendorID := 0x5143; deviceID := 0x6040001; deviceType := 1;
                         deviceName := "gpu" |};
     pd_queueFamilies := families;
     pd_extensions := [ {| extensionName := "VK_KHR_swapchain" |} ];
     pd_surfaceSupport := VK_TRUE;
     pd_capabilities := capabilities;
     pd_formats := formats;
     pd_presentModes := modes |}.

Definition graphicsFamily := {| queueFlags := 0x7; queueCount := 1 |}.
Definition computeFamily := {| queueFlags := VK_QUEUE_COMPUTE_BIT; queueCount := 1 |}.
Definition rgba := {| format := VK_FORMAT_R8G8B8A8_UNORM; colorSpace := 0 |}.
Definition bgra := {| format := VK_FORMAT_B8G8R8A8_UNORM; colorSpace := 0 |}.

Definition platform_of (gpus : list PhysicalDevice) (st : string -> VkResult) : Platform :=
  {| layers := [ {| layerName := "VK_LAYER_KHRONOS_validation" |} ];
     instanceExtensions := [ {| extensionName := "VK_KHR_surface" |};
                             {| extensionName := "VK_KHR_android_surface" |};
                             {| extensionName := "VK_EXT_debug_utils" |} ];
     devices := gpus;
     swapchainImages := [1001; 1002; 1003];
     status := st |}.

(** A phone with one GPU that can do everything the renderer asks for. *)
Definition phone : Platform :=
  platform_of
    [ gpu 501 [graphicsFamily] [bgra; rgba] [VK_PRESENT_MODE_MAILBOX_KHR; VK_PRESENT_MODE_FIFO_KHR] ]
    allSucceed.

End Sim.


(** ** Views of a trace *)

Module Observe.
Import Vk Prog Renderer.

(** The calls of the frame loop, with the arguments and status that matter
    for ordering and synchronisation. *)
Inductive FrameStep :=
| Acquire (semaphore fence : Handle) (timeout : Z) (st : VkResult) (index : Z)
| WaitFence (fences : list Handle) (waitAll timeout : Z) (st : VkResult)
| ResetFence (fences : list Handle) (st : VkResult)
| ResetCommands (commandBuffer : Handle) (st : VkResult)
| BeginCommands (commandBuffer : Handle) (st : VkResult)
| RecordCommand (commandBuffer : Handle)
| EndCommands (commandBuffer : Handle) (st : VkResult)
| Submit (queue : Handle) (submits : list VkSubmitInfo) (fence : Handle) (st : VkResult)
| Present (queue : Handle) (info : VkPresentInfoKHR) (st : VkResult)
| OtherCall.

Definition frameStep (e : Event) : FrameStep :=
  match e with
  | Ev c x =>
      match c in VkCall X return X -> FrameStep with
      | vkAcquireNextImageKHR _ _ timeout semaphore fence =>
          fun x => Acquire semaphore fence timeout (fst x) (snd x)
      | vkWaitForFences _ fences waitAll timeout =>
          fun x => WaitFence fences waitAll timeout (fst x)
      | vkResetFences _ fences => fun x => ResetFence fences (fst x)
      | vkResetCommandBuffer cb _ => fun x => ResetCommands cb (fst x)
      | vkBeginCommandBuffer cb _ => fun x => BeginCommands cb (fst x)
      | vkCmdPipelineBarrier cb _ _ _ => fun _ => RecordCommand cb
      | vkCmdClearColorImage cb _ _ _ => fun _ => RecordCommand cb
      | vkEndCommandBuffer cb => fun x => EndCommands cb (fst x)
      | vkQueueSubmit queue submits fence => fun x => Submit queue submits fence (fst x)
      | vkQueuePresentKHR queue info => fun x => Present queue info (fst x)
      | _ => fun _ => OtherCall
      end x
  end.

Definition frameSteps (tr : list Event) : list FrameStep := map frameStep tr.

(** What the host knows about the fence. *)
Inductive FenceKnowledge :=
| Pending            (* not known to be signaled *)
| ObservedSignaled   (* an unbounded wait on it returned success *)
| Rearmed.           (* reset after having been observed signaled *)

Definition rerecords (commandBuffer : Handle) (s : FrameStep) : bool :=
  match s with
  | ResetCommands cb _ | BeginCommands cb _ | RecordCommand cb => cb =? commandBuffer
  | _ => false
  end.

(** The instrumented fence: it follows waits and resets of [fence] and
    rejects a run in which [commandBuffer] is reset or recorded while the
    fence has not been observed signaled and then reset. *)
Fixpoint fenceMonitor (fence commandBuffer : Handle) (k : FenceKnowledge)
  (steps : list FrameStep) : bool :=
  match steps with
  | [] => true
  | s :: rest =>
      let continue := fenceMonitor fence commandBuffer in
      match s with
      | Acquire _ f _ _ _ => if f =? fence then continue Pending rest else continue k rest
      | WaitFence [f] waitAll timeout st =>
          if (f =? fence) && (waitAll =? VK_TRUE) && (timeout =? UINT64_MAX)
             && (st =? VK_SUCCESS)
          then continue ObservedSignaled rest
          else continue k rest
      | ResetFence [f] st =>
          if (f =? fence) && (st =? VK_SUCCESS)
          then match k with
               | ObservedSignaled => continue Rearmed rest
               | _ => false
               end
          else continue k rest
      | _ =>
          if rerecords commandBuffer s
          then match k with
               | Rearmed => continue k rest
               | _ => false
               end
          else continue k rest
      end
  end.

(** The objects the renderer owns. *)
Inductive Object :=
| Instance (h : Handle)
| Device (h : Handle)
| Surface (h : Handle)
| Swapchain (h : Handle)
| CommandPool (h : Handle)
| CommandBuffer (h : Handle)
| Fence (h : Handle)
| Semaphore (h : Handle).

Definition whenSuccess (st : VkResult) (o : Object) : list Object :=
  if st =? VK_SUCCESS then [o] else [].

Definition created (e : Event) : list Object :=
  match e with
  | Ev c x =>
      match c in VkCall X return X -> list Object with
      | vkCreateInstance _ => fun x => whenSuccess (fst x) (Instance (snd x))
      | vkCreateDevice _ _ => fun x => whenSuccess (fst x) (Device (snd x))
      | vkCreateAndroidSurfaceKHR _ _ => fun x => whenSuccess (fst x) (Surface (snd x))
      | vkCreateSwapchainKHR _ _ => fun x => whenSuccess (fst x) (Swapchain (snd x))
      | vkCreateCommandPool _ _ => fun x => whenSuccess (fst x) (CommandPool (snd x))
      | vkAllocateCommandBuffers _ _ => fun x => whenSuccess (fst x) (CommandBuffer (snd x))
      | vkCreateFence _ => fun x => whenSuccess (fst x) (Fence (snd x))
      | vkCreateSemaphore _ => fun x => whenSuccess (fst x) (Semaphore (snd x))
      | _ => fun _ => []
      end x
  end.

Definition destroyed (e : Event) : list Object :=
  match e with
  | Ev c _ =>
      match c with
      | vkDestroyInstance h => [Instance h]
      | vkDestroyDevice h => [Device h]
      | vkDestroySurfaceKHR _ h => [Surface h]
      | vkDestroySwapchainKHR _ h => [Swapchain h]
      | vkDestroyCommandPool _ h => [CommandPool h]
      | vkFreeCommandBuffers _ _ hs => map CommandBuffer hs
      | vkDestroyFence _ h => [Fence h]
      | vkDestroySemaphore _ h => [Semaphore h]
      | _ => []
      end
  end.

Definition creations (tr : list Event) : list Object := flat_map created tr.
Definition destructions (tr : list Event) : list Object := flat_map destroyed tr.

(** Calls that answered with a status other than success. *)
Definition failures (tr : list Event) : list (string * VkResult) :=
  flat_map (fun e =>
    match e with
    | Ev c x =>
        match status_of c x with
        | Some st => if st =? VK_SUCCESS then [] else [(call_name c, st)]
        | None => []
        end
    end) tr.

Definition names (tr : list Event) : list string :=
  map (fun e => match e with Ev c _ => call_name c end) tr.

End Observe.

(** ** Concrete scenarios *)

Module Scenario.
Import Vk Prog Renderer Sim.

Definition window : Handle := 77.

Definition black : VkClearColorValue :=
  {| float32_0 := S754_zero false; float32_1 := S754_zero false;
     float32_2 := S754_zero false; float32_3 := S754_zero false |}.

(** Two GPUs: the first enumerated one exposes only a compute queue family,
    the second one a graphics-capable family. *)
Definition twoGpus : Platform :=
  platform_of
    [ gpu 501 [computeFamily] [rgba] [VK_PRESENT_MODE_FIFO_KHR];
      gpu 502 [graphicsFamily] [rgba] [VK_PRESENT_MODE_FIFO_KHR] ]
    allSucceed.

(** A single GPU without any graphics-capable queue family. *)
Definition computeOnly : Platform :=
  platform_of
    [ gpu 501 [computeFamily; computeFamily] [rgba] [VK_PRESENT_MODE_FIFO_KHR] ]
    allSucceed.

(** The phone, short of device memory when a command buffer is reset. *)
Definition resetFails : string -> VkResult :=
  fun name => if String.eqb name "vkResetCommandBuffer"
              then VK_ERROR_OUT_OF_DEVICE_MEMORY else VK_SUCCESS.

Definition lowMemoryPhone : Platform :=
  platform_of
    [ gpu 501 [graphicsFamily] [bgra; rgba]
        [VK_PRESENT_MODE_MAILBOX_KHR; VK_PRESENT_MODE_FIFO_KHR] ]
    resetFails.

(** Devices that lack the preferred format, or the FIFO present mode. *)
Definition noRgba : Platform :=
  platform_of [ gpu 501 [graphicsFamily] [bgra] [VK_PRESENT_MODE_FIFO_KHR] ] allSucceed.

Definition noFifo : Platform :=
  platform_of [ gpu 501 [graphicsFamily] [bgra; rgba] [VK_PRESENT_MODE_MAILBOX_KHR] ]
    allSucceed.

(** The renderer the constructor builds on the phone, and the driver state
    it leaves behind. *)
Definition built (p : Platform) : Run World VkRenderer :=
  run (driver p) (constructor black window) boot.

Definition renderer_of (p : Platform) (fallback : VkRenderer) : VkRenderer :=
  match outcome (built p) with
  | Done r => r
  | _ => fallback
  end.

Definition nullRenderer : VkRenderer :=
  {| mInstance := 0; mPhysicalDevice := 0; mQueueFamilyIndex := 0; mDevice := 0;
     mQueue := 0; mSurface := 0; mSwapchain := 0; mSwapchainImages := [];
     mCommandPool := 0; mCommandBuffer := 0; mFence := 0;
     mImageAcquisitionSemaphore := 0; mRenderCompletionSemaphore := 0;
     mClearColorValue := black |}.

Definition phoneRenderer : VkRenderer :=
  Eval vm_compute in renderer_of phone nullRenderer.

End Scenario.

Module Replay.
Import Vk Prog Renderer Sim Scenario.

Definition phoneWorld : World := Eval vm_compute in final (built phone).

Definition lowMemoryRenderer : VkRenderer :=
  Eval vm_compute in renderer_of lowMemoryPhone nullRenderer.

Definition lowMemoryWorld : World := Eval vm_compute in final (built lowMemoryPhone).

(** The first frame on the phone. *)
Definition firstFrame : Run World VkRenderer :=
  run (driver phone) (render phoneRenderer) phoneWorld.

(** The renderer after one hundred frames on the phone. *)
Definition hundredFrames : Run World VkRenderer :=
  run (driver phone) (renderTimes 100 phoneRenderer) phoneWorld.

Definition afterHundredFrames : VkRenderer :=
  Eval vm_compute in
    match outcome hundredFrames with
    | Done r => r
    | _ => nullRenderer
    end.

End Replay.

(** ** Views of the constructor's trace *)

Module Capabilities.
Import Vk Prog.

(** The entries a successful enumeration with a buffer wrote. *)
Definition entriesOf T R (q : Enum T R) : VkResult * R -> list (list T) :=
  match q in Enum _ R return VkResult * R -> list (list T) with
  | QueryCount => fun _ => []
  | Fetch capacity =>
      fun x => if fst x =? VK_SUCCESS then [written capacity (snd x)] else []
  end.

Definition reportedFormats (tr : list Event) : list (list VkSurfaceFormatKHR) :=
  flat_map (fun e =>
    match e with
    | Ev c x =>
        match c in VkCall X return X -> list (list VkSurfaceFormatKHR) with
        | vkGetPhysicalDeviceSurfaceFormatsKHR _ _ q => entriesOf q
        | _ => fun _ => []
        end x
    end) tr.

Definition reportedPresentModes (tr : list Event) : list (list Z) :=
  flat_map (fun e =>
    match e with
    | Ev c x =>
        match c in VkCall X return X -> list (list Z) with
        | vkGetPhysicalDeviceSurfacePresentModesKHR _ _ q => entriesOf q
        | _ => fun _ => []
        end x
    end) tr.

(** The counts successful count queries stored. *)
Definition countOf T R (q : Enum T R) : VkResult * R -> list N :=
  match q in Enum _ R return VkResult * R -> list N with
  | QueryCount => fun x => if fst x =? VK_SUCCESS then [snd x] else []
  | Fetch _ => fun _ => []
  end.

Definition formatCounts (tr : list Event) : list N :=
  flat_map (fun e =>
    match e with
    | Ev c x =>
        match c in VkCall X return X -> list N with
        | vkGetPhysicalDeviceSurfaceFormatsKHR _ _ q => countOf q
        | _ => fun _ => []
        end x
    end) tr.

Definition presentModeCounts (tr : list Event) : list N :=
  flat_map (fun e =>
    match e with
    | Ev c x =>
        match c in VkCall X return X -> list N with
        | vkGetPhysicalDeviceSurfacePresentModesKHR _ _ q => countOf q
        | _ => fun _ => []
        end x
    end) tr.

Definition reportedDevices (tr : list Event) : list (list Handle) :=
  flat_map (fun e =>
    match e with
    | Ev c x =>
        match c in VkCall X return X -> list (list Handle) with
        | vkEnumeratePhysicalDevices _ q => entriesOf q
        | _ => fun _ => []
        end x
    end) tr.

(** The swapchains and logical devices the renderer asked for. *)
Definition swapchainRequests (tr : list Event) : list VkSwapchainCreateInfoKHR :=
  flat_map (fun e =>
    match e with
    | Ev c _ =>
        match c with
        | vkCreateSwapchainKHR _ ci => [ci]
        | _ => []
        end
    end) tr.

Definition deviceRequests (tr : list Event) : list (Handle * VkDeviceCreateInfo) :=
  flat_map (fun e =>
    match e with
    | Ev c _ =>
        match c with
        | vkCreateDevice pd ci => [(pd, ci)]
        | _ => []
        end
    end) tr.

End Capabilities.

Module Checks.
Import Vk Prog Observe.

(** A run in which every call that answered with a failure status ended
    the process there, with the diagnostic of [VK_CHECK_ERROR]. *)
Definition dies_on_failure W A (R : Run W A) : Prop :=
  forall name st,
    In (name, st) (failures (trace R)) ->
    exists line, outcome R = Terminated (CheckFailed "VkRenderer.cpp" line name st).

End Checks.

(** ** The calls of one frame *)

Module Frames.
Import Vk Prog Renderer.

(** The entry points [render] goes through, in source order. *)
Definition frameCalls : list string :=
  [ "vkAcquireNextImageKHR"; "vkWaitForFences"; "vkResetFences";
    "vkResetCommandBuffer"; "vkBeginCommandBuffer"; "vkCmdPipelineBarrier";
    "vkCmdClearColorImage"; "vkCmdPipelineBarrier"; "vkEndCommandBuffer";
    "vkQueueSubmit"; "vkQueuePresentKHR" ]%string.

(** The commands recorded into command buffers, and the image indices
    successful acquisitions returned. *)
Inductive Command :=
| Barrier (commandBuffer : Handle) (srcStageMask dstStageMask : VkFlags)
    (barriers : list VkImageMemoryBarrier)
| Clear (commandBuffer img : Handle) (imageLayout : Z) (color : VkClearColorValue).

Definition recorded (tr : list Event) : list Command :=
  flat_map (fun e =>
    match e with
    | Ev c _ =>
        match c with
        | vkCmdPipelineBarrier cb src dst barriers => [Barrier cb src dst barriers]
        | vkCmdClearColorImage cb img layout color => [Clear cb img layout color]
        | _ => []
        end
    end) tr.

Definition acquired (tr : list Event) : list Z :=
  flat_map (fun e =>
    match e with
    | Ev c x =>
        match c in VkCall X return X -> list Z with
        | vkAcquireNextImageKHR _ _ _ _ _ =>
            fun x => if fst x =? VK_SUCCESS then [snd x] else []
        | _ => fun _ => []
        end x
    end) tr.

End Frames.
(** ** Monitors

    A monitor follows a trace with a state of its own and stops at the
    first event it does not accept. *)

Module Monitor.
Import Vk Prog.

Section Monitor.
Variable S : Type.
Variable step : S -> Event -> option S.

Fixpoint monitor (s : S) (tr : list Event) : option S :=
  match tr with
  | [] => Some s
  | e :: rest =>
      match step s e with
      | Some s' => monitor s' rest
      | None => None
      end
  end.

End Monitor.

(** Every call a program can make, whatever the driver answers, satisfies
    [P]. *)
Inductive CallsOnly (P : forall X, VkCall X -> Prop) (A : Type) : Prog A -> Prop :=
| CallsOnly_Ret a : CallsOnly P (Ret a)
| CallsOnly_Fatal x : CallsOnly P (Fatal x)
| CallsOnly_Undefined : CallsOnly P Undefined
| CallsOnly_Call X (c : VkCall X) (k : X -> Prog A) :
    P X c -> (forall x, CallsOnly P (k x)) -> CallsOnly P (Call c k).

End Monitor.

(** ** Image layouts

    The layout every image is in, as the recorded barriers declare it, in
    recording order. *)

Module Layouts.
Import Vk Prog Monitor.

Definition Layouts := Handle -> Z.

Definition undefinedLayouts : Layouts := fun _ => VK_IMAGE_LAYOUT_UNDEFINED.

Definition setLayout (l : Layouts) (img : Handle) (layout : Z) : Layouts :=
  fun h => if h =? img then layout else l h.

(** A barrier may name [VK_IMAGE_LAYOUT_UNDEFINED] or the layout the image
    is in as its old layout. *)
Definition applyBarrier (l : Layouts) (b : VkImageMemoryBarrier) : option Layouts :=
  if (oldLayout b =? VK_IMAGE_LAYOUT_UNDEFINED) || (oldLayout b =? l (image b))
  then Some (setLayout l (image b) (newLayout b))
  else None.

Fixpoint applyBarriers (l : Layouts) (bs : list VkImageMemoryBarrier) : option Layouts :=
  match bs with
  | [] => Some l
  | b :: rest =>
      match applyBarrier l b with
      | Some l' => applyBarriers l' rest
      | None => None
      end
  end.

(** The image behind a swapchain index is in the present layout. *)
Definition presentable (images : list Handle) (l : Layouts) (index : Z) : bool :=
  if index <? 0 then false
  else match nth_error images (Z.to_nat index) with
       | Some img => l img =? VK_IMAGE_LAYOUT_PRESENT_SRC_KHR
       | None => false
       end.

(** Barriers move images between layouts; a clear needs its image in the
    transfer-destination layout it names; a present request needs its
    images in the present layout. *)
Definition layoutStep (images : list Handle) (l : Layouts) (e : Event) : option Layouts :=
  match e with
  | Ev c _ =>
      match c with
      | vkCmdPipelineBarrier _ _ _ barriers => applyBarriers l barriers
      | vkCmdClearColorImage _ img imageLayout _ =>
          if (imageLayout =? VK_IMAGE_LAYOUT_TRANSFER_DST_OPTIMAL) && (l img =? imageLayout)
          then Some l else None
      | vkQueuePresentKHR _ info =>
          if forallb (presentable images l) (pImageIndices info) then Some l else None
      | _ => Some l
      end
  end.

Definition layoutMonitor (images : list Handle) : Layouts -> list Event -> option Layouts :=
  monitor (layoutStep images).

(** The layouts after each of [imgs] went through a barrier into the
    present layout. *)
Definition toPresent (imgs : list Handle) (l : Layouts) : Layouts :=
  fold_left (fun l img => setLayout l img VK_IMAGE_LAYOUT_PRESENT_SRC_KHR) imgs l.

Definition allPresentable (images : list Handle) (l : Layouts) : Prop :=
  forall img, In img images -> l img = VK_IMAGE_LAYOUT_PRESENT_SRC_KHR.

End Layouts.
(** ** Kinds of calls *)

Module Calls.
Import Vk Prog.

(** The entry points that enumerate, query or create: what the setup
    consists of apart from recording and submitting the initial layout
    transitions. *)
Definition queryOrCreate X (c : VkCall X) : bool :=
  match c with
  | vkEnumerateInstanceLayerProperties _
  | vkEnumerateInstanceExtensionProperties _
  | vkCreateInstance _
  | vkEnumeratePhysicalDevices _ _
  | vkGetPhysicalDeviceProperties _
  | vkGetPhysicalDeviceQueueFamilyProperties _ _
  | vkEnumerateDeviceExtensionProperties _ _
  | vkCreateDevice _ _
  | vkGetDeviceQueue _ _ _
  | vkCreateAndroidSurfaceKHR _ _
  | vkGetPhysicalDeviceSurfaceSupportKHR _ _ _
  | vkGetPhysicalDeviceSurfaceCapabilitiesKHR _ _
  | vkGetPhysicalDeviceSurfaceFormatsKHR _ _ _
  | vkGetPhysicalDeviceSurfacePresentModesKHR _ _ _
  | vkCreateSwapchainKHR _ _
  | vkGetSwapchainImagesKHR _ _ _
  | vkCreateCommandPool _ _
  | vkAllocateCommandBuffers _ _
  | vkCreateFence _
  | vkCreateSemaphore _ => true
  | _ => false
  end.

Definition QueryOrCreate X (c : VkCall X) : Prop := queryOrCreate c = true.

End Calls.
(** ** Disciplines of the frame loop, as monitors *)

Module Discipline.
Import Vk Prog Observe Monitor.

(** One step of the instrumented fence of [fenceMonitor]: the host's
    knowledge of the fence after the event, if the event is accepted. *)
Definition fenceStep (fence commandBuffer : Handle) (k : FenceKnowledge) (e : Event)
  : option FenceKnowledge :=
  match frameStep e with
  | Acquire _ f _ _ _ => Some (if f =? fence then Pending else k)
  | WaitFence [f] waitAll timeout st =>
      Some (if (f =? fence) && (waitAll =? VK_TRUE) && (timeout =? UINT64_MAX)
               && (st =? VK_SUCCESS)
            then ObservedSignaled else k)
  | ResetFence [f] st =>
      if (f =? fence) && (st =? VK_SUCCESS)
      then match k with
           | ObservedSignaled => Some Rearmed
           | _ => None
           end
      else Some k
  | s =>
      if rerecords commandBuffer s
      then match k with
           | Rearmed => Some k
           | _ => None
           end
      else Some k
  end.

(** What a command buffer holds: nothing that may be submitted, a
    recording in progress, or a finished recording. *)
Inductive Recording := Blank | Open | Closed.

Definition submitted (commandBuffer : Handle) (infos : list VkSubmitInfo) : bool :=
  existsb (fun si => existsb (Z.eqb commandBuffer) (pCommandBuffers si)) infos.

(** Commands go into an open recording only; a recording is opened on a
    command buffer that is not being recorded, and closed once; a
    submission takes a finished recording and uses it up, as
    [VK_COMMAND_BUFFER_USAGE_ONE_TIME_SUBMIT_BIT] asks. *)
Definition recordingStep (commandBuffer : Handle) (s : Recording) (e : Event)
  : option Recording :=
  match frameStep e with
  | ResetCommands cb st =>
      Some (if (cb =? commandBuffer) && (st =? VK_SUCCESS) then Blank else s)
  | BeginCommands cb st =>
      if cb =? commandBuffer
      then match s with
           | Open => None
           | _ => Some (if st =? VK_SUCCESS then Open else Blank)
           end
      else Some s
  | RecordCommand cb =>
      if cb =? commandBuffer
      then match s with
           | Open => Some Open
           | _ => None
           end
      else Some s
  | EndCommands cb st =>
      if cb =? commandBuffer
      then match s with
           | Open => Some (if st =? VK_SUCCESS then Closed else Blank)
           | _ => None
           end
      else Some s
  | Submit _ infos _ _ =>
      if submitted commandBuffer infos
      then match s with
           | Closed => Some Blank
           | _ => None
           end
      else Some s
  | _ => Some s
  end.

(** A host wait that covers a submission to [queue] that signals [fence]:
    the queue went idle, or the fence, if there is one, was waited for. *)
Definition waitedFor (queue fence : Handle) (e : Event) : bool :=
  match e with
  | Ev c x =>
      match c in VkCall X return X -> bool with
      | vkQueueWaitIdle q => fun x => (q =? queue) && (fst x =? VK_SUCCESS)
      | vkWaitForFences _ fences _ _ =>
          fun x => negb (fence =? VK_NULL_HANDLE) && existsb (Z.eqb fence) fences
                   && (fst x =? VK_SUCCESS)
      | _ => fun _ => false
      end x
  end.

(** The submission of the command buffer the host has not waited for yet,
    as the queue it went to and the fence it signals.  The command buffer
    is not reset, recorded or submitted again while there is one. *)
Definition submissionStep (commandBuffer : Handle) (pending : option (Handle * Handle))
  (e : Event) : option (option (Handle * Handle)) :=
  match frameStep e with
  | Submit queue infos fence st =>
      if submitted commandBuffer infos
      then match pending with
           | None => Some (if st =? VK_SUCCESS then Some (queue, fence) else None)
           | Some _ => None
           end
      else Some pending
  | s =>
      if rerecords commandBuffer s
      then match pending with
           | None => Some None
           | Some _ => None
           end
      else match pending with
           | Some (queue, fence) => Some (if waitedFor queue fence e then None else pending)
           | None => Some None
           end
  end.

End Discipline.
(** ** What the setup asks for *)

Module Requests.
Import Vk Prog.

Definition instanceRequests (tr : list Event) : list VkInstanceCreateInfo :=
  flat_map (fun e =>
    match e with
    | Ev c _ =>
        match c with
        | vkCreateInstance ci => [ci]
        | _ => []
        end
    end) tr.

(** The queue family index given to each call that takes one. *)
Definition queueFamilyUses (tr : list Event) : list Z :=
  flat_map (fun e =>
    match e with
    | Ev c _ =>
        match c with
        | vkCreateDevice _ ci => map dq_queueFamilyIndex (pQueueCreateInfos ci)
        | vkGetDeviceQueue _ queueFamilyIndex _ => [queueFamilyIndex]
        | vkGetPhysicalDeviceSurfaceSupportKHR _ queueFamilyIndex _ => [queueFamilyIndex]
        | vkCreateCommandPool _ ci => [cp_queueFamilyIndex ci]
        | _ => []
        end
    end) tr.

(** The answers to the presentation-support query: device, queue family
    and surface asked about, status and [VkBool32] answered. *)
Definition supportAnswers (tr : list Event) : list (Handle * Z * Handle * VkResult * Z) :=
  flat_map (fun e =>
    match e with
    | Ev c x =>
        match c in VkCall X return X -> list (Handle * Z * Handle * VkResult * Z) with
        | vkGetPhysicalDeviceSurfaceSupportKHR pd q surface =>
            fun x => [(pd, q, surface, fst x, snd x)]
        | _ => fun _ => []
        end x
    end) tr.

(** The capabilities a successful query reported. *)
Definition reportedCapabilities (tr : list Event) : list VkSurfaceCapabilitiesKHR :=
  flat_map (fun e =>
    match e with
    | Ev c x =>
        match c in VkCall X return X -> list VkSurfaceCapabilitiesKHR with
        | vkGetPhysicalDeviceSurfaceCapabilitiesKHR _ _ =>
            fun x => if fst x =? VK_SUCCESS then [snd x] else []
        | _ => fun _ => []
        end x
    end) tr.

(** The extensions a successful enumeration with a buffer wrote. *)
Definition reportedDeviceExtensions (tr : list Event) : list (list VkExtensionProperties) :=
  flat_map (fun e =>
    match e with
    | Ev c x =>
        match c in VkCall X return X -> list (list VkExtensionProperties) with
        | vkEnumerateDeviceExtensionProperties _ q => Capabilities.entriesOf q
        | _ => fun _ => []
        end x
    end) tr.

End Requests.
(** ** Ownership *)

Module Ownership.
Import Vk Prog Observe.

Definition dependsOn (st : VkResult) (child : Object) (parents : list Object)
  : list (Object * Object) :=
  if st =? VK_SUCCESS then map (fun parent => (child, parent)) parents else [].

(** What a successful creation makes depend on what: the new object, and
    each object the call names as its parent or as what it is made from. *)
Definition dependencies (e : Event) : list (Object * Object) :=
  match e with
  | Ev c x =>
      match c in VkCall X return X -> list (Object * Object) with
      | vkCreateAndroidSurfaceKHR instance _ =>
          fun x => dependsOn (fst x) (Surface (snd x)) [Instance instance]
      | vkCreateSwapchainKHR device ci =>
          fun x => dependsOn (fst x) (Swapchain (snd x))
                     [Device device; Surface (sc_surface ci)]
      | vkCreateCommandPool device _ =>
          fun x => dependsOn (fst x) (CommandPool (snd x)) [Device device]
      | vkAllocateCommandBuffers device ai =>
          fun x => dependsOn (fst x) (CommandBuffer (snd x))
                     [Device device; CommandPool (commandPool ai)]
      | vkCreateFence device =>
          fun x => dependsOn (fst x) (Fence (snd x)) [Device device]
      | vkCreateSemaphore device =>
          fun x => dependsOn (fst x) (Semaphore (snd x)) [Device device]
      | _ => fun _ => []
      end x
  end.

End Ownership.
(** ** The loader sample (vulkan-loader, VkRenderer.cpp) *)

Module Loader.
Import Vk Prog.

(** [VkRenderer::VkRenderer()].  The value is what the constructor writes
    to [aout]: one line per [<< endl]. *)
Definition constructor : Prog (list string) :=
  layerCount <- VK_CHECK_ERROR 34 (vkEnumerateInstanceLayerProperties QueryCount) ;;
  entries <- VK_CHECK_ERROR 37 (vkEnumerateInstanceLayerProperties (Fetch layerCount)) ;;
  let layerProps := filled layerCount zeroLayer entries in
  Ret (map layerName layerProps).

(** [VkRenderer::~VkRenderer()] *)
Definition destructor : Prog unit := Ret tt.

End Loader.

(** ** The lifecycle shim (hello-vulkan, main.cpp) *)

Module Shim.
Import Input.

(** Constants of [android_native_app_glue.h]. *)
Definition APP_CMD_INIT_WINDOW : Z := 1.
Definition APP_CMD_TERM_WINDOW : Z := 2.

(** [handle_cmd]: the lines it writes to [aout]; it does not touch
    [pApp]. *)
Definition handle_cmd (cmd : Z) : list string :=
  if cmd =? APP_CMD_INIT_WINDOW then ["Hello Vulkan!"%string]
  else if cmd =? APP_CMD_TERM_WINDOW then []
  else [].

(** The members of [android_app] that [android_main] reads and writes. *)
Record android_app := {
  onAppCmd : option (Z -> list string);
  userData : Z;
  destroyRequested : Z
}.

Definition set_onAppCmd (app : android_app) (handler : Z -> list string) : android_app :=
  {| onAppCmd := Some handler;
     userData := userData app;
     destroyRequested := destroyRequested app |}.

(** What [android_main] calls and does not define: the glue and the
    looper.  Each of them may change the [android_app] it is given and a
    state of its own.  [ALooper_pollAll] yields its result and the
    [outData] it stored, a poll source or a null pointer. *)
Record Platform := {
  state : Type;
  source : Type;
  android_app_set_motion_event_filter :
    (GameActivityMotionEvent -> bool) -> android_app -> state -> android_app * state;
  ALooper_pollAll : Z -> android_app -> state -> Z * option source * android_app * state;
  process : source -> android_app -> state -> android_app * state
}.

(** What [android_main] does to the outside: a call of [ALooper_pollAll]
    with its timeout, its result and the [outData] it stored, and a call of
    [pSource->process]. *)
Inductive ShimEvent (P : Platform) :=
| Polled (timeoutMillis result : Z) (outData : option (source P))
| Processed (pSource : source P).
Arguments Polled {P} timeoutMillis result outData.
Arguments Processed {P} pSource.

(** The body of the [do ... while] loop. *)
Definition iteration (P : Platform) (st : android_app * state P)
  : android_app * state P * list (ShimEvent P) :=
  let '(result, pSource, app, s) := ALooper_pollAll P 0 (fst st) (snd st) in
  let after :=
    if result >=? 0
    then match pSource with
         | Some src => (process P src app s, [Processed src])
         | None => ((app, s), [])
         end
    else ((app, s), []) in
  (* if (pApp->userData) { } *)
  (fst after, Polled 0 result pSource :: snd after).

(** [do { ... } while (!pApp->destroyRequested);], at most [fuel] times
    round. *)
Fixpoint eventLoop (P : Platform) (fuel : nat) (st : android_app * state P)
  : option (android_app * state P * list (ShimEvent P)) :=
  match fuel with
  | O => None
  | S fuel' =>
      let '(st', events) := iteration P st in
      if destroyRequested (fst st') =? 0
      then match eventLoop P fuel' st' with
           | Some (final, events') => Some (final, events ++ events')
           | None => None
           end
      else Some (st', events)
  end.

Definition android_main (P : Platform) (fuel : nat) (pApp : android_app) (s : state P)
  : option (android_app * state P * list (ShimEvent P)) :=
  let pApp := set_onAppCmd pApp handle_cmd in
  let st := android_app_set_motion_event_filter P motion_event_filter_func pApp s in
  eventLoop P fuel st.

(** The state after [k] rounds of the loop. *)
Definition rounds (P : Platform) (k : nat) (st : android_app * state P)
  : android_app * state P :=
  Nat.iter k (fun st => fst (iteration P st)) st.

(** The events of [k] rounds of polling: every poll has timeout 0, and
    [process] is called exactly after a poll with a non-negative result
    that stored a source, once, for that source, before the next poll. *)
Inductive Rounds (P : Platform) : nat -> list (ShimEvent P) -> Prop :=
| Rounds_none : @Rounds P 0 []
| Rounds_processed (result : Z) (pSource : source P) (k : nat) (rest : list (ShimEvent P)) :
    0 <= result -> @Rounds P k rest ->
    @Rounds P (S k) (Polled 0 result (Some pSource) :: Processed pSource :: rest)
| Rounds_idle (result : Z) (outData : option (source P)) (k : nat)
    (rest : list (ShimEvent P)) :
    result < 0 \/ outData = None -> @Rounds P k rest ->
    @Rounds P (S k) (Polled 0 result outData :: rest).
Arguments Rounds : clear implicits.

End Shim.
(** ** Further scenarios *)

Module Cases.
Import Vk Prog Renderer Sim Scenario Input Shim.

(** A platform without any GPU. *)
Definition noGpu : Sim.Platform := platform_of [] allSucceed.

(** A phone whose GPU has a compute-only queue family before the
    graphics-capable one. *)
Definition graphicsSecond : Sim.Platform :=
  platform_of
    [ gpu 501 [computeFamily; graphicsFamily] [bgra; rgba]
        [VK_PRESENT_MODE_MAILBOX_KHR; VK_PRESENT_MODE_FIFO_KHR] ]
    allSucceed.

(** A phone whose GPU reports no surface format and no present mode. *)
Definition noFormats : Sim.Platform :=
  platform_of [ gpu 501 [graphicsFamily] [] [] ] allSucceed.

(** The instance the constructor asks for on the phone. *)
Definition phoneInstanceRequest : VkInstanceCreateInfo :=
  {| pApplicationInfo :=
       {| pApplicationName := "Practice Vulkan";
          applicationVersion := VK_MAKE_API_VERSION 0 0 1 0;
          app_apiVersion := VK_MAKE_API_VERSION 0 1 3 0 |};
     ici_ppEnabledLayerNames := ["VK_LAYER_KHRONOS_validation"%string];
     ici_ppEnabledExtensionNames := ["VK_KHR_surface"; "VK_KHR_android_surface"]%string |}.

(** Two frames on the phone. *)
Definition twoFrames : Run World VkRenderer :=
  run (driver phone) (renderTimes 2 phoneRenderer) Replay.phoneWorld.

(** The frame after the hundredth on the phone. *)
Definition nextFrame : VkRenderer :=
  with_clear_color Replay.afterHundredFrames
    (updateClearColor (mClearColorValue Replay.afterHundredFrames)).

(** The phone's renderer with an infinite red channel, and one frame on. *)
Definition overflowed : VkRenderer :=
  with_clear_color phoneRenderer
    {| float32_0 := S754_infinity false; float32_1 := S754_zero false;
       float32_2 := S754_zero false; float32_3 := S754_zero false |}.

Definition afterOverflow : VkRenderer :=
  with_clear_color overflowed (updateClearColor (mClearColorValue overflowed)).

(** Count queries for the queue families and for the surface formats,
    and an answer with its count replaced by 0. *)
Definition countsFamilies X (c : VkCall X) : bool :=
  match c with
  | vkGetPhysicalDeviceQueueFamilyProperties _ q =>
      match q with
      | QueryCount => true
      | Fetch _ => false
      end
  | _ => false
  end.

Definition countsFormats X (c : VkCall X) : bool :=
  match c with
  | vkGetPhysicalDeviceSurfaceFormatsKHR _ _ q =>
      match q with
      | QueryCount => true
      | Fetch _ => false
      end
  | _ => false
  end.

Definition withoutCount X (c : VkCall X) : X -> X :=
  match c in VkCall X return X -> X with
  | vkGetPhysicalDeviceQueueFamilyProperties _ q =>
      match q in Enum _ R return R -> R with
      | QueryCount => fun _ => 0%N
      | Fetch _ => fun x => x
      end
  | vkGetPhysicalDeviceSurfaceFormatsKHR _ _ q =>
      match q in Enum _ R return VkResult * R -> VkResult * R with
      | QueryCount => fun x => (fst x, 0%N)
      | Fetch _ => fun x => x
      end
  | _ => fun x => x
  end.

(** A driver that answers like the phone, except that its first count
    query for the queue families, and its first for the surface formats,
    store 0.  Its world is the phone's, with whether each of the two has
    been asked. *)
Definition late : Driver :=
  {| world := World * (bool * bool);
     reply := fun X (c : VkCall X) (w : World * (bool * bool)) =>
       let x := sim_reply phone c (fst w) in
       let families := fst (snd w) in
       let formats := snd (snd w) in
       if countsFamilies c && negb families
       then (withoutCount c (fst x), (snd x, (true, formats)))
       else if countsFormats c && negb formats
       then (withoutCount c (fst x), (snd x, (families, true)))
       else (fst x, (snd x, (families, formats))) |}.

(** A platform for the shim: every poll returns a source, alternately with
    the results 0 and [ALOOPER_POLL_TIMEOUT]; the third poll delivers the
    request to destroy the activity. *)
Definition countdown : Shim.Platform :=
  {| state := nat;
     source := unit;
     android_app_set_motion_event_filter := fun _ app polled => (app, polled);
     ALooper_pollAll := fun _ app polled =>
       (if Nat.even polled then 0 else -3, Some tt, app, S polled);
     process := fun _ app polled =>
       ({| onAppCmd := onAppCmd app;
           userData := userData app;
           destroyRequested := if Nat.leb 3 polled then 1 else destroyRequested app |},
        polled) |}.

Definition freshApp : android_app :=
  {| onAppCmd := None; userData := 0; destroyRequested := 0 |}.

End Cases.

(** * Properties *)

Import Vk Prog Renderer Binary Observe Capabilities Checks.

(** ** The input filter *)

Lemma low_byte (s : Z) : Z.land s Input.AINPUT_SOURCE_CLASS_MASK = s mod 2 ^ 8.
Proof.
  change Input.AINPUT_SOURCE_CLASS_MASK with (Z.ones 8).
  apply Z.land_ones. lia.
Qed.

(** C8.  [motion_event_filter_func] is a function of the event's [source]
    field alone, and it answers [true] exactly when the source class, the
    low byte of [source], is the pointer class (0x02) or the joystick class
    (0x10); for every other source class it answers [false]. *)
Theorem motion_event_filter_func_spec :
  (forall ev : Input.GameActivityMotionEvent,
      Input.motion_event_filter_func ev = true <->
      (Input.source ev mod 2 ^ 8 = Input.AINPUT_SOURCE_CLASS_POINTER \/
       Input.source ev mod 2 ^ 8 = Input.AINPUT_SOURCE_CLASS_JOYSTICK)) /\
  (forall ev : Input.GameActivityMotionEvent,
      Input.source ev mod 2 ^ 8 <> Input.AINPUT_SOURCE_CLASS_POINTER ->
      Input.source ev mod 2 ^ 8 <> Input.AINPUT_SOURCE_CLASS_JOYSTICK ->
      Input.motion_event_filter_func ev = false) /\
  (forall ev ev' : Input.GameActivityMotionEvent,
      Input.source ev = Input.source ev' ->
      Input.motion_event_filter_func ev = Input.motion_event_filter_func ev').
Proof.
  assert (E : forall ev,
    Input.motion_event_filter_func ev = true <->
    (Input.source ev mod 2 ^ 8 = Input.AINPUT_SOURCE_CLASS_POINTER \/
     Input.source ev mod 2 ^ 8 = Input.AINPUT_SOURCE_CLASS_JOYSTICK)).
  { intro ev. unfold Input.motion_event_filter_func.
    rewrite low_byte, orb_true_iff, !Z.eqb_eq. tauto. }
  split; [exact E|split].
  - intros ev Hp Hj.
    destruct (Input.motion_event_filter_func ev) eqn:F; [|reflexivity].
    apply E in F. tauto.
  - intros ev ev' H. unfold Input.motion_event_filter_func. now rewrite H.
Qed.

(** A touchscreen event (source 0x1002) passes the filter, a keyboard event
    (source 0x101) does not. *)
Lemma motion_event_filter_func_witness :
  Input.motion_event_filter_func
    {| Input.deviceId := 3; Input.source := 0x1002; Input.action := 0;
       Input.eventTime := 0; Input.downTime := 0; Input.flags := 0;
       Input.metaState := 0; Input.buttonState := 0; Input.pointerCount := 1 |} = true /\
  Input.motion_event_filter_func
    {| Input.deviceId := 4; Input.source := 0x101; Input.action := 0;
       Input.eventTime := 0; Input.downTime := 0; Input.flags := 0;
       Input.metaState := 0; Input.buttonState := 0; Input.pointerCount := 0 |} = false.
Proof.
  destruct motion_event_filter_func_spec as (Iff & Other & _).
  split.
  - apply Iff. left. reflexivity.
  - apply Other; vm_compute; discriminate.
Defined.

(** ** Running programs *)

Section Runs.
Variable d : Driver.

Lemma run_bind A B (p : Prog A) (f : A -> Prog B) (w : world d) :
  run d (bind p f) w = then_run d (run d p w) f.
Proof.
  revert w. induction p as [a|x| |X c k IH]; intro w; unfold then_run; simpl.
  - now destruct (run d (f a) w).
  - reflexivity.
  - reflexivity.
  - rewrite IH. unfold then_run.
    destruct (outcome (run d (k (fst (reply d c w))) (snd (reply d c w)))); reflexivity.
Qed.

Lemma run_bind_done A B (p : Prog A) (f : A -> Prog B) (w : world d) (b : B) :
  outcome (run d (bind p f) w) = Done b ->
  exists a, outcome (run d p w) = Done a /\
            outcome (run d (f a) (final (run d p w))) = Done b /\
            trace (run d (bind p f) w) =
              trace (run d p w) ++ trace (run d (f a) (final (run d p w))) /\
            final (run d (bind p f) w) = final (run d (f a) (final (run d p w))).
Proof.
  rewrite run_bind. unfold then_run.
  destruct (outcome (run d p w)) as [a|x|] eqn:E; simpl; try discriminate.
  intro H. exists a. auto.
Qed.

Lemma run_check X (line : Z) (c : VkCall (VkResult * X)) (w : world d) :
  run d (VK_CHECK_ERROR line c) w =
  {| trace := [Ev c (fst (reply d c w))];
     outcome := if fst (fst (reply d c w)) =? VK_SUCCESS
                then Done (snd (fst (reply d c w)))
                else Terminated (CheckFailed "VkRenderer.cpp" line (call_name c)
                                   (fst (fst (reply d c w))));
     final := snd (reply d c w) |}.
Proof.
  unfold VK_CHECK_ERROR. simpl.
  destruct (fst (fst (reply d c w)) =? VK_SUCCESS); reflexivity.
Qed.

Lemma run_call X (c : VkCall X) (w : world d) :
  run d (call c) w =
  {| trace := [Ev c (fst (reply d c w))];
     outcome := Done (fst (reply d c w));
     final := snd (reply d c w) |}.
Proof. reflexivity. Qed.

End Runs.

(** One step of symbolic execution: name the driver's answer to the next
    call and split on the status test that follows it. *)
Ltac answer :=
  match goal with
  | E : reply ?d ?c ?w = _ |- context [reply ?d ?c ?w] => rewrite E; cbn [fst snd] in *
  | |- context [reply ?d ?c ?w] =>
      let st := fresh "st" in
      let x := fresh "x" in
      let w' := fresh "w" in
      let E := fresh "E" in
      first [ destruct (reply d c w) as [[st x] w'] eqn:E
            | destruct (reply d c w) as [x w'] eqn:E ];
      cbn [fst snd] in *
  end.

Ltac status_test :=
  match goal with
  | |- context [if ?st =? VK_SUCCESS then _ else _] =>
      let E := fresh "S" in
      destruct (Z.eqb_spec st VK_SUCCESS) as [E|E]; [try subst st|]
  end.

Ltac index_test :=
  match goal with
  | |- context [0 <? 0] => rewrite Z.ltb_irrefl
  | |- context [if ?i <? 0 then Undefined else _] =>
      let E := fresh "N" in destruct (i <? 0) eqn:E
  | |- context [match nth_error ?v ?n with Some _ => _ | None => Undefined end] =>
      let E := fresh "I" in destruct (nth_error v n) eqn:E
  end.

Ltac exec :=
  unfold at_index;
  repeat (cbn -[Z.eqb Z.ltb nth_error updateClearColor];
          first [answer | status_test | index_test]);
  cbn -[Z.eqb Z.ltb nth_error updateClearColor].

Lemma split_at_cons A (pre post l : list A) (s x : A) :
  x :: l = pre ++ s :: post ->
  (pre = [] /\ s = x /\ post = l) \/ (exists pre', pre = x :: pre' /\ l = pre' ++ s :: post).
Proof.
  destruct pre as [|y pre]; simpl; intro H; inversion H; subst; eauto.
Qed.

Lemma split_at_nil A (pre post : list A) (s : A) : [] = pre ++ s :: post -> False.
Proof. destruct pre; discriminate. Qed.

(** All the ways a concrete list splits around one of its elements. *)
Ltac splits H :=
  repeat (apply split_at_cons in H;
          destruct H as [(-> & -> & ->) | (? & -> & H)]);
  try (apply split_at_nil in H; contradiction).

(** ** The frame loop *)

Section Frame.
Variable d : Driver.
Variable r : VkRenderer.

(** C4.  In every call to [render], against every driver: the instrumented
    fence accepts the run, that is, the command buffer is reset and recorded
    only after an unbounded wait on the fence returned success and the fence
    was then reset; every step that resets or records the command buffer is
    preceded by exactly that wait and that reset, in this order, with
    nothing but re-recording steps after them; and a call that completes
    does reset and re-record the command buffer. *)
Theorem render_fence_before_rerecording (w : world d) :
  let R := run d (render r) w in
  let steps := frameSteps (trace R) in
  fenceMonitor (mFence r) (mCommandBuffer r) Pending steps = true /\
  (forall pre s post,
      steps = pre ++ s :: post ->
      rerecords (mCommandBuffer r) s = true ->
      exists before between,
        pre = before ++ WaitFence [mFence r] VK_TRUE UINT64_MAX VK_SUCCESS
                     :: ResetFence [mFence r] VK_SUCCESS :: between /\
        forallb (rerecords (mCommandBuffer r)) between = true) /\
  (forall r', outcome R = Done r' ->
      exists st, In (ResetCommands (mCommandBuffer r) st) steps /\
                 In (BeginCommands (mCommandBuffer r) VK_SUCCESS) steps).
Proof.
  unfold render, frameSteps. exec.
  all: (split; [rewrite ?Z.eqb_refl; cbn -[Z.eqb]; rewrite ?Z.eqb_refl; reflexivity|]).
  all: split; [|intros r' Hr; try discriminate Hr].
  all: try (intros pre s post H Hs; splits H; cbn -[Z.eqb] in Hs; try discriminate Hs).
  all: try (match goal with |- exists _ _, ?a :: _ = _ /\ _ => exists [a] end;
            eexists; split; [reflexivity|];
            cbn -[Z.eqb]; rewrite ?Z.eqb_refl; reflexivity).
  eexists; split; cbn; [do 3 right; left; reflexivity | do 4 right; left; reflexivity].
Qed.

(** C7.  In every call to [render], against every driver: every queue
    submission carries one [VkSubmitInfo] whose only wait semaphore is the
    acquisition semaphore and whose only signal semaphore is the completion
    semaphore; every present request waits on the completion semaphore
    alone and presents the image index the acquisition of this call
    returned, after the submission succeeded; and a call that completes
    ends with that submission followed by that present request. *)
Theorem render_semaphores (w : world d) :
  let R := run d (render r) w in
  let steps := frameSteps (trace R) in
  (forall pre queue submits fence st post,
      steps = pre ++ Submit queue submits fence st :: post ->
      exists si, submits = [si] /\
        si_pWaitSemaphores si = [mImageAcquisitionSemaphore r] /\
        pSignalSemaphores si = [mRenderCompletionSemaphore r]) /\
  (forall pre queue info st post,
      steps = pre ++ Present queue info st :: post ->
      pi_pWaitSemaphores info = [mRenderCompletionSemaphore r] /\
      exists index si,
        pImageIndices info = [index] /\
        In (Acquire (mImageAcquisitionSemaphore r) (mFence r) UINT64_MAX VK_SUCCESS index) pre /\
        In (Submit queue [si] VK_NULL_HANDLE VK_SUCCESS) pre) /\
  (forall r', outcome R = Done r' ->
      exists pre si info,
        steps = pre ++ [Submit (mQueue r) [si] VK_NULL_HANDLE VK_SUCCESS;
                        Present (mQueue r) info VK_SUCCESS]).
Proof.
  unfold render, frameSteps. exec.
  all: (split; [|split]);
    [ intros pre queue xs f st' post H;
      match type of H with
      | _ = _ ++ ?s :: _ => remember s as step eqn:Hs
      end;
      splits H; inversion Hs; subst; clear Hs;
      eexists; refine (conj eq_refl (conj eq_refl eq_refl))
    | intros pre queue xs st' post H;
      match type of H with
      | _ = _ ++ ?s :: _ => remember s as step eqn:Hs
      end;
      splits H; inversion Hs; subst; clear Hs;
      refine (conj eq_refl _); do 2 eexists; refine (conj eq_refl (conj _ _)); cbn;
      ((left; reflexivity) || (do 9 right; left; reflexivity))
    | intros r' Hr; try discriminate Hr ].
  do 3 eexists.
  match goal with |- ?a :: ?b :: ?c :: ?d :: ?e :: ?f :: ?g :: ?h :: ?i :: _ = _ =>
    instantiate (3 := [a; b; c; d; e; f; g; h; i]) end.
  reflexivity.
Qed.

Lemma render_done (w : world d) (r' : VkRenderer) :
  outcome (run d (render r) w) = Done r' ->
  r' = with_clear_color r (updateClearColor (mClearColorValue r)).
Proof.
  unfold render. exec; intro H; try discriminate H.
  now inversion H.
Qed.

(** Every call of [render] that answers with a failure status terminates
    the process at that call, with one exception. *)
Lemma render_failures (w : world d) (name : string) (st : VkResult) :
  let R := run d (render r) w in
  In (name, st) (failures (trace R)) ->
  name = "vkResetCommandBuffer"%string \/
  exists line, outcome R = Terminated (CheckFailed "VkRenderer.cpp" line name st).
Proof.
  unfold render, failures. exec.
  all: repeat match goal with
       | S : ?s <> VK_SUCCESS |- context [?s =? VK_SUCCESS] =>
           rewrite (proj2 (Z.eqb_neq s VK_SUCCESS) S)
       | |- context [?s =? VK_SUCCESS] => destruct (Z.eqb_spec s VK_SUCCESS)
       end; cbn -[Z.eqb].
  all: intro H; repeat (destruct H as [H|H]; [inversion H; subst; clear H|]);
       try contradiction; eauto.
Qed.

End Frame.

(** The first frame on the phone: the reset of the command buffer comes
    right after the wait on fence 8 and its reset. *)
Lemma render_fence_before_rerecording_witness :
  exists before between,
    firstn 3 (frameSteps (trace Replay.firstFrame)) =
      before ++ WaitFence [8] VK_TRUE UINT64_MAX VK_SUCCESS
             :: ResetFence [8] VK_SUCCESS :: between /\
    forallb (rerecords 7) between = true.
Proof.
  apply (proj1 (proj2 (render_fence_before_rerecording
                         (Sim.driver Sim.phone) Scenario.phoneRenderer Replay.phoneWorld)))
    with (s := ResetCommands 7 VK_SUCCESS)
         (post := skipn 4 (frameSteps (trace Replay.firstFrame)));
    reflexivity.
Defined.

(** The first frame on the phone: the present request follows the
    acquisition of image 0 and the submission. *)
Lemma render_semaphores_witness :
  pi_pWaitSemaphores {| pi_pWaitSemaphores := [10]; pSwapchains := [5]; pImageIndices := [0] |}
    = [10] /\
  exists index si,
    [0] = [index] /\
    In (Acquire 9 8 UINT64_MAX VK_SUCCESS index) (firstn 10 (frameSteps (trace Replay.firstFrame))) /\
    In (Submit 3 [si] VK_NULL_HANDLE VK_SUCCESS) (firstn 10 (frameSteps (trace Replay.firstFrame))).
Proof.
  apply (proj1 (proj2 (render_semaphores
                         (Sim.driver Sim.phone) Scenario.phoneRenderer Replay.phoneWorld)))
    with (st := VK_SUCCESS) (post := []).
  reflexivity.
Defined.


(** ** Scans *)

Lemma breakIndex_absent A (test : A -> bool) (v rest : list A) (i : Z) :
  existsb test v = false ->
  breakIndex test (v ++ rest) (List.length v) i = Some (i + Z.of_nat (List.length v)).
Proof.
  revert i. induction v as [|x v IH]; intros i H; simpl in *.
  - f_equal. lia.
  - apply orb_false_iff in H as [Hx Hv]. rewrite Hx, IH by exact Hv. f_equal. lia.
Qed.

Lemma breakIndex_present A (test : A -> bool) (v rest : list A) (i : Z) :
  existsb test v = true ->
  exists k x, breakIndex test (v ++ rest) (List.length v) i = Some (i + Z.of_nat k) /\
              nth_error v k = Some x /\ find test v = Some x.
Proof.
  revert i. induction v as [|x v IH]; intros i H; simpl in *; [discriminate|].
  destruct (test x) eqn:Hx.
  - exists 0%nat, x. repeat split. f_equal. lia.
  - destruct (IH (i + 1) H) as (k & y & E & N & F).
    exists (S k), y. repeat split; auto. rewrite E. f_equal. lia.
Qed.

Lemma firstIndex_absent A (test : A -> bool) (v rest : list A) (i notFound : Z) :
  existsb test v = false ->
  i + Z.of_nat (List.length v) <= INT_MAX ->
  firstIndex test (v ++ rest) (List.length v) i notFound = Some notFound.
Proof.
  revert i. induction v as [|x v IH]; intros i H L; simpl in *; [reflexivity|].
  apply orb_false_iff in H as [Hx Hv]. rewrite Hx.
  destruct (Z.eqb_spec i INT_MAX) as [E|E]; [lia|].
  apply IH; [exact Hv|lia].
Qed.

Lemma firstIndex_present A (test : A -> bool) (v rest : list A) (i notFound : Z) :
  existsb test v = true ->
  i + Z.of_nat (List.length v) <= INT_MAX ->
  exists k x, firstIndex test (v ++ rest) (List.length v) i notFound = Some (i + Z.of_nat k) /\
              nth_error v k = Some x /\ find test v = Some x /\
              (k < List.length v)%nat.
Proof.
  revert i. induction v as [|x v IH]; intros i H L; simpl in *; [discriminate|].
  destruct (test x) eqn:Hx.
  - exists 0%nat, x. repeat split; [f_equal; lia|lia].
  - destruct (Z.eqb_spec i INT_MAX) as [E|E]; [lia|].
    destruct (IH (i + 1) H) as (k & y & E' & N & F & K); [lia|].
    exists (S k), y. repeat split; auto; [rewrite E'; f_equal; lia|lia].
Qed.

(** What the loops see after a second call with a buffer: the vector
    starts with the entries written, and their number is the count. *)
Lemma stored_count A (capacity : N) (entries : list A) :
  N.to_nat (N.of_nat (List.length (written capacity entries))) =
  List.length (written capacity entries).
Proof. lia. Qed.

Lemma filled_written A (capacity : N) (zero : A) (entries : list A) (k : nat) (x : A) :
  nth_error (written capacity entries) k = Some x ->
  nth_error (filled capacity zero entries) k = Some x.
Proof.
  intro H. unfold filled. rewrite nth_error_app1; [exact H|].
  apply nth_error_Some. congruence.
Qed.

(** ** Setup *)

Ltac assert_test :=
  match goal with
  | |- context [assert _ _ ?c] =>
      let E := fresh "A" in destruct c eqn:E; unfold assert at 1
  end.

(** The second call was a count query or had a buffer; a loop that
    indexes a vector left it with a value or was undefined. *)
Ltac capacity_test :=
  match goal with
  | |- context [if (?c =? 0)%N then _ else _] =>
      let E := fresh "C" in destruct (N.eqb_spec c 0) as [E|E]; [try subst c|]
  end.

Ltac defined_test :=
  match goal with
  | |- context [defined ?o] =>
      let E := fresh "D" in destruct o eqn:E
  end.

Ltac setup_exec :=
  unfold at_index, secondCall;
  repeat (cbn -[Z.eqb Z.ltb nth_error filled written filter map List.length Nat.eqb
                firstIndex breakIndex firstCompositeAlpha Z.land Z.lor String.eqb
                VK_MAKE_API_VERSION N.eqb N.to_nat N.of_nat];
          first [answer | status_test | assert_test | index_test | capacity_test
                | defined_test]);
  cbn -[Z.eqb Z.ltb nth_error filled written filter map List.length Nat.eqb
        firstIndex breakIndex firstCompositeAlpha Z.land Z.lor String.eqb
        VK_MAKE_API_VERSION N.eqb N.to_nat N.of_nat].

Section Setup.
Variable d : Driver.

Ltac phase :=
  setup_exec;
  let H := fresh "H" in
  intro H; try discriminate H; inversion H; subst; reflexivity.

Lemma createInstance_creates (w : world d) (h : Handle) :
  outcome (run d createInstance w) = Done h ->
  creations (trace (run d createInstance w)) = [Instance h].
Proof. unfold createInstance, creations. phase. Qed.

Lemma selectPhysicalDevice_creates (w : world d) (inst h : Handle) :
  outcome (run d (selectPhysicalDevice inst) w) = Done h ->
  creations (trace (run d (selectPhysicalDevice inst) w)) = [].
Proof. unfold selectPhysicalDevice, creations. phase. Qed.

Lemma createDevice_creates (w : world d) (pd : Handle) (q : Z) (dev queue : Handle) :
  outcome (run d (createDevice pd) w) = Done (q, dev, queue) ->
  creations (trace (run d (createDevice pd) w)) = [Device dev].
Proof. unfold createDevice, creations. phase. Qed.

Lemma createSurface_creates (w : world d) (win inst pd : Handle) (q : Z) (h : Handle) :
  outcome (run d (createSurface win inst pd q) w) = Done h ->
  creations (trace (run d (createSurface win inst pd q) w)) = [Surface h].
Proof. unfold createSurface, creations. phase. Qed.

Lemma createSwapchain_creates (w : world d) (pd dev surf : Handle) (h : Handle)
  (images : list Handle) :
  outcome (run d (createSwapchain pd dev surf) w) = Done (h, images) ->
  creations (trace (run d (createSwapchain pd dev surf) w)) = [Swapchain h].
Proof.
  unfold createSwapchain, selectSurfaceFormat, selectPresentMode, creations. phase.
Qed.

Lemma createCommandPool_creates (w : world d) (dev : Handle) (q : Z) (h : Handle) :
  outcome (run d (createCommandPool dev q) w) = Done h ->
  creations (trace (run d (createCommandPool dev q) w)) = [CommandPool h].
Proof. unfold createCommandPool, creations. phase. Qed.

Lemma allocateCommandBuffer_creates (w : world d) (dev pool : Handle) (h : Handle) :
  outcome (run d (allocateCommandBuffer dev pool) w) = Done h ->
  creations (trace (run d (allocateCommandBuffer dev pool) w)) = [CommandBuffer h].
Proof. unfold allocateCommandBuffer, creations. phase. Qed.

Lemma recordInitialLayouts_run (cb : Handle) (images : list Handle) (w : world d) :
  outcome (run d (recordInitialLayouts cb images) w) = Done tt /\
  creations (trace (run d (recordInitialLayouts cb images) w)) = [].
Proof.
  revert w. induction images as [|i images IH]; intro w; [now split|].
  cbn [recordInitialLayouts]. rewrite run_bind, run_call. unfold then_run.
  cbn [outcome trace final]. destruct (IH (snd (reply d
    (vkCmdPipelineBarrier cb VK_PIPELINE_STAGE_TOP_OF_PIPE_BIT
       VK_PIPELINE_STAGE_BOTTOM_OF_PIPE_BIT [presentBarrier i]) w))) as [O C].
  split; [exact O|]. unfold creations in *. cbn. exact C.
Qed.

Lemma transitionSwapchainImages_creates (w : world d) (queue cb : Handle)
  (images : list Handle) :
  creations (trace (run d (transitionSwapchainImages queue cb images) w)) = [].
Proof.
  unfold transitionSwapchainImages.
  rewrite run_bind, run_check. unfold then_run. cbn [outcome trace final].
  status_test; [|reflexivity].
  rewrite run_bind. unfold then_run.
  match goal with |- context [run d (recordInitialLayouts ?c ?i) ?w] =>
    destruct (recordInitialLayouts_run c i w) as [O C]; rewrite O end.
  cbn [outcome trace final]. unfold creations in *.
  rewrite !flat_map_app, C.
  setup_exec; reflexivity.
Qed.

Lemma createSyncObjects_creates (w : world d) (dev f a c : Handle) :
  outcome (run d (createSyncObjects dev) w) = Done (f, a, c) ->
  creations (trace (run d (createSyncObjects dev) w)) = [Fence f; Semaphore a; Semaphore c].
Proof. unfold createSyncObjects, creations. phase. Qed.


Lemma creations_app (t t' : list Event) : creations (t ++ t') = creations t ++ creations t'.
Proof. apply flat_map_app. Qed.

(** What a completed constructor has created, in order. *)
Lemma constructor_creations (color : VkClearColorValue) (window : Handle) (w : world d)
  (r : VkRenderer) :
  outcome (run d (constructor color window) w) = Done r ->
  creations (trace (run d (constructor color window) w)) =
    [ Instance (mInstance r); Device (mDevice r); Surface (mSurface r);
      Swapchain (mSwapchain r); CommandPool (mCommandPool r);
      CommandBuffer (mCommandBuffer r); Fence (mFence r);
      Semaphore (mImageAcquisitionSemaphore r);
      Semaphore (mRenderCompletionSemaphore r) ].
Proof.
  unfold constructor. intro H.
  apply run_bind_done in H as (inst & H1 & H & -> & _).
  apply run_bind_done in H as (pd & H2 & H & -> & _).
  apply run_bind_done in H as ([[q dev] queue] & H3 & H & -> & _).
  apply run_bind_done in H as (surf & H4 & H & -> & _).
  apply run_bind_done in H as ([sc images] & H5 & H & -> & _).
  apply run_bind_done in H as (pool & H6 & H & -> & _).
  apply run_bind_done in H as (cb & H7 & H & -> & _).
  apply run_bind_done in H as ([] & H8 & H & -> & _).
  apply run_bind_done in H as ([[f a] c] & H9 & H & -> & _).
  cbn in H. inversion H; subst; clear H. cbn [trace].
  rewrite !creations_app.
  rewrite (createInstance_creates _ H1), (selectPhysicalDevice_creates _ _ H2),
    (createDevice_creates _ _ H3), (createSurface_creates _ _ _ _ _ H4),
    (createSwapchain_creates _ _ _ _ H5), (createCommandPool_creates _ _ _ H6),
    (allocateCommandBuffer_creates _ _ _ H7), transitionSwapchainImages_creates,
    (createSyncObjects_creates _ _ H9).
  reflexivity.
Qed.

Lemma destructor_destructions (r : VkRenderer) (w : world d) :
  destructions (trace (run d (destructor r) w)) =
    [ Semaphore (mImageAcquisitionSemaphore r);
      Semaphore (mRenderCompletionSemaphore r);
      Fence (mFence r); CommandBuffer (mCommandBuffer r);
      CommandPool (mCommandPool r); Swapchain (mSwapchain r);
      Surface (mSurface r); Device (mDevice r); Instance (mInstance r) ] /\
  outcome (run d (destructor r) w) = Done tt.
Proof.
  split; [reflexivity|]. cbn.
  match goal with |- Done ?u = _ => now destruct u end.
Qed.

(** C5, as amended.  After a completed constructor, against every driver,
    the destructor releases every object the constructor created exactly
    once; the order is the reverse of the creation order except for the two
    semaphores, which are destroyed first and in their creation order
    (acquisition, then completion). *)
Theorem destructor_releases_created_objects (color : VkClearColorValue) (window : Handle)
  (w w' : world d) (r : VkRenderer) :
  outcome (run d (constructor color window) w) = Done r ->
  let made := creations (trace (run d (constructor color window) w)) in
  let freed := destructions (trace (run d (destructor r) w')) in
  exists others acquisition completion,
    made = others ++ [Semaphore acquisition; Semaphore completion] /\
    freed = Semaphore acquisition :: Semaphore completion :: rev others /\
    acquisition = mImageAcquisitionSemaphore r /\
    completion = mRenderCompletionSemaphore r /\
    Permutation made freed.
Proof.
  intros H made freed. subst made freed.
  rewrite (constructor_creations _ _ _ H).
  rewrite (proj1 (destructor_destructions r w')).
  exists [ Instance (mInstance r); Device (mDevice r); Surface (mSurface r);
           Swapchain (mSwapchain r); CommandPool (mCommandPool r);
           CommandBuffer (mCommandBuffer r); Fence (mFence r) ].
  do 2 eexists. repeat split.
  set (A := Semaphore (mImageAcquisitionSemaphore r)).
  set (C := Semaphore (mRenderCompletionSemaphore r)).
  apply Permutation_trans
    with (rev ([Instance (mInstance r); Device (mDevice r); Surface (mSurface r);
                Swapchain (mSwapchain r); CommandPool (mCommandPool r);
                CommandBuffer (mCommandBuffer r); Fence (mFence r)] ++ [A; C])).
  - apply Permutation_rev.
  - cbn. apply perm_swap.
Qed.


Lemma selectPhysicalDevice_selects (inst : Handle) (w : world d) (pd : Handle) :
  outcome (run d (selectPhysicalDevice inst) w) = Done pd ->
  exists (count : N) (entries : list Handle),
    In (Ev (vkEnumeratePhysicalDevices inst (Fetch count)) (VK_SUCCESS, entries))
       (trace (run d (selectPhysicalDevice inst) w)) /\
    nth_error (filled count VK_NULL_HANDLE entries) 0 = Some pd.
Proof.
  unfold selectPhysicalDevice. setup_exec.
  all: intro H; try discriminate H; inversion H; subst; clear H.
  exists x, x0. split; [|assumption]. right. left. reflexivity.
Qed.

(** C3, as amended.  Against every driver, a constructor that completes has
    selected the element at index 0 of the vector the physical-device
    enumeration filled, whatever queue families the devices expose. *)
Theorem constructor_selects_first_enumerated_device (color : VkClearColorValue)
  (window : Handle) (w : world d) (r : VkRenderer) :
  outcome (run d (constructor color window) w) = Done r ->
  exists (count : N) (entries : list Handle),
    In (Ev (vkEnumeratePhysicalDevices (mInstance r) (Fetch count)) (VK_SUCCESS, entries))
       (trace (run d (constructor color window) w)) /\
    nth_error (filled count VK_NULL_HANDLE entries) 0 = Some (mPhysicalDevice r).
Proof.
  unfold constructor. intro H.
  apply run_bind_done in H as (inst & H1 & H & -> & _).
  apply run_bind_done in H as (pd & H2 & H & -> & _).
  apply run_bind_done in H as ([[q dev] queue] & H3 & H & -> & _).
  apply run_bind_done in H as (surf & H4 & H & -> & _).
  apply run_bind_done in H as ([sc images] & H5 & H & -> & _).
  apply run_bind_done in H as (pool & H6 & H & -> & _).
  apply run_bind_done in H as (cb & H7 & H & -> & _).
  apply run_bind_done in H as ([] & H8 & H & -> & _).
  apply run_bind_done in H as ([[f a] c] & H9 & H & -> & _).
  cbn in H. inversion H; subst; clear H. cbn [mInstance mPhysicalDevice].
  destruct (selectPhysicalDevice_selects _ _ H2) as (count & entries & I & N).
  exists count, entries. split; [|exact N].
  apply in_or_app. right. apply in_or_app. left. exact I.
Qed.

End Setup.

(** C5, as stated, fails on the phone: the two semaphores are destroyed in
    creation order, so the destruction order is not the reverse of the
    creation order. *)
Lemma destructor_not_reverse_creation :
  outcome (Scenario.built Sim.phone) = Done Scenario.phoneRenderer /\
  creations (trace (Scenario.built Sim.phone)) =
    [Instance 1; Device 2; Surface 4; Swapchain 5; CommandPool 6; CommandBuffer 7;
     Fence 8; Semaphore 9; Semaphore 10] /\
  destructions (trace (run (Sim.driver Sim.phone) (destructor Scenario.phoneRenderer)
                         Replay.phoneWorld)) =
    [Semaphore 9; Semaphore 10; Fence 8; CommandBuffer 7; CommandPool 6; Swapchain 5;
     Surface 4; Device 2; Instance 1] /\
  destructions (trace (run (Sim.driver Sim.phone) (destructor Scenario.phoneRenderer)
                         Replay.phoneWorld)) <>
  rev (creations (trace (Scenario.built Sim.phone))).
Proof.
  repeat split; try (vm_compute; reflexivity).
  vm_compute. discriminate.
Qed.

(** Construction and destruction on the phone. *)
Lemma destructor_releases_created_objects_witness :
  exists others acquisition completion,
    creations (trace (Scenario.built Sim.phone)) =
      others ++ [Semaphore acquisition; Semaphore completion] /\
    destructions (trace (run (Sim.driver Sim.phone) (destructor Scenario.phoneRenderer)
                           Replay.phoneWorld)) =
      Semaphore acquisition :: Semaphore completion :: rev others /\
    acquisition = 9 /\ completion = 10 /\
    Permutation (creations (trace (Scenario.built Sim.phone)))
      (destructions (trace (run (Sim.driver Sim.phone) (destructor Scenario.phoneRenderer)
                              Replay.phoneWorld))).
Proof.
  apply (@destructor_releases_created_objects (Sim.driver Sim.phone) Scenario.black
           Scenario.window Sim.boot Replay.phoneWorld Scenario.phoneRenderer).
  vm_compute. reflexivity.
Defined.

(** C3, as stated, fails with two GPUs of which only the second exposes a
    graphics-capable queue family: the first one is selected. *)
Lemma first_device_selected_without_graphics_family :
  map Sim.pd_handle (Sim.devices Scenario.twoGpus) = [501; 502] /\
  existsb graphicsCapable (Sim.pd_queueFamilies (Sim.device_of Scenario.twoGpus 501)) = false /\
  existsb graphicsCapable (Sim.pd_queueFamilies (Sim.device_of Scenario.twoGpus 502)) = true /\
  exists r, outcome (Scenario.built Scenario.twoGpus) = Done r /\ mPhysicalDevice r = 501.
Proof.
  repeat split; try (vm_compute; reflexivity).
  eexists. split; vm_compute; reflexivity.
Qed.

(** With two GPUs the constructor completes and holds the first one. *)
Lemma constructor_selects_first_enumerated_device_witness :
  exists (count : N) (entries : list Handle),
    In (Ev (vkEnumeratePhysicalDevices 1 (Fetch count)) (VK_SUCCESS, entries))
       (trace (Scenario.built Scenario.twoGpus)) /\
    nth_error (filled count VK_NULL_HANDLE entries) 0 = Some 501.
Proof.
  apply (@constructor_selects_first_enumerated_device (Sim.driver Scenario.twoGpus)
           Scenario.black Scenario.window Sim.boot
           (Scenario.renderer_of Scenario.twoGpus Scenario.nullRenderer)).
  vm_compute. reflexivity.
Defined.

(** C2, at the failing input: the phone answers [vkResetCommandBuffer] with
    [VK_ERROR_OUT_OF_DEVICE_MEMORY]; [render] does not look at the status,
    goes on recording into the command buffer, submits and presents, and
    returns normally.  It is the only failure status of the run. *)
Theorem render_ignores_vkResetCommandBuffer_status :
  let R := run (Sim.driver Scenario.lowMemoryPhone) (render Replay.lowMemoryRenderer)
               Replay.lowMemoryWorld in
  outcome (Scenario.built Scenario.lowMemoryPhone) = Done Replay.lowMemoryRenderer /\
  failures (trace R) = [("vkResetCommandBuffer"%string, VK_ERROR_OUT_OF_DEVICE_MEMORY)] /\
  returns_VkResult (vkResetCommandBuffer (mCommandBuffer Replay.lowMemoryRenderer) 0) = true /\
  (exists r', outcome R = Done r') /\
  names (trace R) =
    [ "vkAcquireNextImageKHR"; "vkWaitForFences"; "vkResetFences";
      "vkResetCommandBuffer"; "vkBeginCommandBuffer"; "vkCmdPipelineBarrier";
      "vkCmdClearColorImage"; "vkCmdPipelineBarrier"; "vkEndCommandBuffer";
      "vkQueueSubmit"; "vkQueuePresentKHR" ]%string.
Proof.
  repeat split; try (vm_compute; reflexivity).
  eexists. vm_compute. reflexivity.
Qed.

Lemma filter_repeat_false A (f : A -> bool) (x : A) (n : nat) :
  f x = false -> filter f (repeat x n) = [].
Proof. intro H. induction n as [|n IH]; cbn; [reflexivity|]. now rewrite H. Qed.

Lemma filter_filled (f : VkExtensionProperties -> bool) (capacity : N)
  (entries : list VkExtensionProperties) :
  f zeroExtension = false ->
  filter f (filled capacity zeroExtension entries) = filter f (written capacity entries).
Proof.
  intro H. unfold filled. rewrite filter_app, filter_repeat_false by exact H.
  apply app_nil_r.
Qed.

Lemma wantedDeviceExtension_names (l : list VkExtensionProperties) :
  map extensionName (filter wantedDeviceExtension l) =
  repeat "VK_KHR_swapchain"%string (List.length (filter wantedDeviceExtension l)).
Proof.
  induction l as [|x l IH]; cbn; [reflexivity|].
  destruct (wantedDeviceExtension x) eqn:W; [|exact IH].
  cbn. rewrite IH. f_equal. apply String.eqb_eq. exact W.
Qed.

Section DeviceCreation.
Variable d : Driver.


End DeviceCreation.


(** On the platform without a graphics-capable family the logical device is
    indeed requested, with the out-of-range index 2. *)
Example computeOnly_device_request :
  map (fun pc => map dq_queueFamilyIndex (pQueueCreateInfos (snd pc)))
      (deviceRequests (trace (Scenario.built Scenario.computeOnly))) = [[2]].
Proof. vm_compute. reflexivity. Qed.

Section SwapchainCreation.
Variable d : Driver.

Lemma firstIndex_fetched A (test : A -> bool) (capacity : N) (zero : A) (entries : list A)
  (sentinel : Z) :
  existsb test (written capacity entries) = true ->
  Z.of_nat (List.length (written capacity entries)) <= INT_MAX ->
  INT_MAX <= sentinel ->
  exists k x,
    firstIndex test (filled capacity zero entries)
      (N.to_nat (N.of_nat (List.length (written capacity entries)))) 0 sentinel =
      Some (Z.of_nat k) /\
    (Z.of_nat k =? sentinel) = false /\
    (Z.of_nat k <? 0) = false /\
    nth_error (filled capacity zero entries) k = Some x /\
    find test (written capacity entries) = Some x.
Proof.
  intros H L M. rewrite stored_count. unfold filled at 1.
  destruct (@firstIndex_present _ test (written capacity entries)
              (repeat zero (N.to_nat capacity - List.length (written capacity entries)))
              0 sentinel H) as (k & x & E & I & F & K); [lia|].
  exists k, x. rewrite E. repeat split; auto.
  - apply Z.eqb_neq. lia.
  - apply Z.ltb_ge. lia.
  - apply filled_written. exact I.
Qed.

Lemma firstIndex_fetched_absent A (test : A -> bool) (capacity : N) (zero : A)
  (entries : list A) (sentinel : Z) :
  existsb test (written capacity entries) = false ->
  Z.of_nat (List.length (written capacity entries)) <= INT_MAX ->
  firstIndex test (filled capacity zero entries)
    (N.to_nat (N.of_nat (List.length (written capacity entries)))) 0 sentinel =
    Some sentinel.
Proof.
  intros H L. rewrite stored_count. unfold filled.
  apply firstIndex_absent; [exact H|lia].
Qed.

Lemma firstIndex_empty A (test : A -> bool) (count : nat) (i notFound z : Z) :
  firstIndex test [] count i notFound = Some z -> count = 0%nat /\ z = notFound.
Proof. destruct count; cbn; intro H; [injection H as <-; auto | discriminate H]. Qed.

(** C6.  Against every driver: when the surface formats the driver
    reported contain the preferred format [VK_FORMAT_R8G8B8A8_UNORM] and the
    present modes it reported contain [VK_PRESENT_MODE_FIFO_KHR], the
    swapchain is requested with format and colour space of the first
    reported entry that has the preferred format, and with the FIFO present
    mode; when the reported formats lack the preferred format, or the
    reported present modes lack FIFO, setup dies on the assertion of line
    232, respectively 253, and no swapchain is requested; and so it does
    when the driver reports no format, respectively no present mode, at
    all, answering both calls with the count 0.  A reported list is what the
    driver wrote into the buffer of the second call; the loop counters are
    [int]s, so the reported lists are taken to have at most [INT_MAX]
    entries. *)
Theorem createSwapchain_selection (pd dev surf : Handle) (w : world d) :
  let R := run d (createSwapchain pd dev surf) w in
  (forall formats modes,
      reportedFormats (trace R) = [formats] ->
      reportedPresentModes (trace R) = [modes] ->
      Z.of_nat (List.length formats) <= INT_MAX ->
      Z.of_nat (List.length modes) <= INT_MAX ->
      existsb isPreferredFormat formats = true ->
      existsb isFifo modes = true ->
      exists ci entry,
        swapchainRequests (trace R) = [ci] /\
        find isPreferredFormat formats = Some entry /\
        imageFormat ci = format entry /\
        imageColorSpace ci = colorSpace entry /\
        imageFormat ci = VK_FORMAT_R8G8B8A8_UNORM /\
        presentMode ci = VK_PRESENT_MODE_FIFO_KHR) /\
  (forall formats,
      reportedFormats (trace R) = [formats] ->
      Z.of_nat (List.length formats) <= INT_MAX ->
      existsb isPreferredFormat formats = false ->
      outcome R = Terminated (AssertFailed 232 "surfaceFormatIndex != VK_FORMAT_MAX_ENUM") /\
      swapchainRequests (trace R) = []) /\
  (forall modes,
      reportedPresentModes (trace R) = [modes] ->
      Z.of_nat (List.length modes) <= INT_MAX ->
      existsb isFifo modes = false ->
      outcome R = Terminated
        (AssertFailed 253 "presentModeIndex != VK_PRESENT_MODE_MAX_ENUM_KHR") /\
      swapchainRequests (trace R) = []) /\
  (formatCounts (trace R) = [0%N; 0%N] ->
   outcome R = Terminated (AssertFailed 232 "surfaceFormatIndex != VK_FORMAT_MAX_ENUM") /\
   swapchainRequests (trace R) = []) /\
  (presentModeCounts (trace R) = [0%N; 0%N] ->
   outcome R = Terminated
     (AssertFailed 253 "presentModeIndex != VK_PRESENT_MODE_MAX_ENUM_KHR") /\
   swapchainRequests (trace R) = []).
Proof.
  unfold createSwapchain, selectSurfaceFormat, selectPresentMode.
  unfold reportedFormats, reportedPresentModes, swapchainRequests, formatCounts,
    presentModeCounts.
  setup_exec.
  all: repeat match goal with
       | D : firstIndex _ [] _ _ _ = Some _ |- _ =>
           apply firstIndex_empty in D; destruct D as [? ?]; subst
       end.
  all: try match goal with
       | A : negb (?x =? ?x) = true |- _ => rewrite Z.eqb_refl in A; discriminate A
       end.
  all: split;
    [ intros formats modes Hf Hm Lf Lm Pf Pm;
      first [discriminate Hf | discriminate Hm | idtac];
      injection Hf as <-; injection Hm as <-;
      destruct (@firstIndex_fetched _ isPreferredFormat _ zeroSurfaceFormat _
                  VK_FORMAT_MAX_ENUM Pf Lf (Z.le_refl _))
        as (kf & ef & Df & Qf & Nf & Tf & Ff);
      destruct (@firstIndex_fetched _ isFifo _ 0 _ VK_PRESENT_MODE_MAX_ENUM_KHR Pm Lm
                  (Z.le_refl _))
        as (km & em & Dm & Qm & Nm & Tm & Fm);
      repeat match goal with
      | D : firstIndex isPreferredFormat _ _ _ _ = _ |- _ =>
          rewrite Df in D; first [discriminate D | injection D as <-]
      | D : firstIndex isFifo _ _ _ _ = _ |- _ =>
          rewrite Dm in D; first [discriminate D | injection D as <-]
      end;
      repeat match goal with
      | H : negb (Z.of_nat _ =? _) = false |- _ =>
          first [rewrite Qf in H | rewrite Qm in H]; discriminate H
      | H : (Z.of_nat _ <? 0) = true |- _ =>
          first [rewrite Nf in H | rewrite Nm in H]; discriminate H
      | H : nth_error (filled _ _ _) (Z.to_nat (Z.of_nat _)) = _ |- _ =>
          rewrite Nat2Z.id in H; first [rewrite Tf in H | rewrite Tm in H];
          first [discriminate H | injection H as <-]
      end;
      apply find_some in Fm as [_ Fm]; apply Z.eqb_eq in Fm;
      pose proof (find_some _ _ Ff) as [_ Ff']; apply Z.eqb_eq in Ff';
      do 2 eexists; repeat split; eauto
    | split;
      [ intros formats Hf Lf Pf; first [discriminate Hf | injection Hf as <-];
        try match goal with
        | D : firstIndex isPreferredFormat _ _ _ _ = _ |- _ =>
            rewrite (@firstIndex_fetched_absent _ isPreferredFormat _ zeroSurfaceFormat _
                       VK_FORMAT_MAX_ENUM Pf Lf) in D;
            first [discriminate D | injection D as <-]
        end;
        try match goal with
        | A : negb (?x =? ?x) = true |- _ => rewrite Z.eqb_refl in A; discriminate A
        end;
        split; reflexivity
      | split;
        [ intros modes Hm Lm Pm; first [discriminate Hm | injection Hm as <-];
          try match goal with
          | D : firstIndex isFifo _ _ _ _ = _ |- _ =>
              rewrite (@firstIndex_fetched_absent _ isFifo _ 0 _
                         VK_PRESENT_MODE_MAX_ENUM_KHR Pm Lm) in D;
              first [discriminate D | injection D as <-]
          end;
          try match goal with
          | A : negb (?x =? ?x) = true |- _ => rewrite Z.eqb_refl in A; discriminate A
          end;
          split; reflexivity
        | split;
          [ intros Hc; first [discriminate Hc | injection Hc as ->];
            try match goal with
            | D : firstIndex isPreferredFormat [] _ _ _ = None |- _ =>
                cbn in D; discriminate D
            end;
            split; reflexivity
          | intros Hc; first [discriminate Hc | injection Hc as ->];
            try match goal with
            | D : firstIndex isFifo [] _ _ _ = None |- _ => cbn in D; discriminate D
            end;
            split; reflexivity ] ] ] ].
Qed.

End SwapchainCreation.

Lemma createSwapchain_selection_witness :
  (exists ci entry,
     swapchainRequests
       (trace (run (Sim.driver Sim.phone) (createSwapchain 501 2 4) Sim.boot)) = [ci] /\
     find isPreferredFormat [Sim.bgra; Sim.rgba] = Some entry /\
     imageFormat ci = format entry /\
     imageColorSpace ci = colorSpace entry /\
     imageFormat ci = VK_FORMAT_R8G8B8A8_UNORM /\
     presentMode ci = VK_PRESENT_MODE_FIFO_KHR) /\
  (outcome (run (Sim.driver Scenario.noRgba) (createSwapchain 501 2 4) Sim.boot) =
     Terminated (AssertFailed 232 "surfaceFormatIndex != VK_FORMAT_MAX_ENUM") /\
   swapchainRequests
     (trace (run (Sim.driver Scenario.noRgba) (createSwapchain 501 2 4) Sim.boot)) = []) /\
  (outcome (run (Sim.driver Scenario.noFifo) (createSwapchain 501 2 4) Sim.boot) =
     Terminated (AssertFailed 253 "presentModeIndex != VK_PRESENT_MODE_MAX_ENUM_KHR") /\
   swapchainRequests
     (trace (run (Sim.driver Scenario.noFifo) (createSwapchain 501 2 4) Sim.boot)) = []) /\
  (outcome (run (Sim.driver Cases.noFormats) (createSwapchain 501 2 4) Sim.boot) =
     Terminated (AssertFailed 232 "surfaceFormatIndex != VK_FORMAT_MAX_ENUM") /\
   swapchainRequests
     (trace (run (Sim.driver Cases.noFormats) (createSwapchain 501 2 4) Sim.boot)) = []).
Proof.
  split; [|split; [|split]].
  - apply (proj1 (createSwapchain_selection (Sim.driver Sim.phone) 501 2 4 Sim.boot))
      with (modes := [VK_PRESENT_MODE_MAILBOX_KHR; VK_PRESENT_MODE_FIFO_KHR]);
      try reflexivity; vm_compute; discriminate.
  - apply (proj1 (proj2 (createSwapchain_selection (Sim.driver Scenario.noRgba)
                           501 2 4 Sim.boot)))
      with (formats := [Sim.bgra]); try reflexivity; vm_compute; discriminate.
  - apply (proj1 (proj2 (proj2 (createSwapchain_selection (Sim.driver Scenario.noFifo)
                                  501 2 4 Sim.boot))))
      with (modes := [VK_PRESENT_MODE_MAILBOX_KHR]); try reflexivity;
      vm_compute; discriminate.
  - apply (proj1 (proj2 (proj2 (proj2 (createSwapchain_selection
                                         (Sim.driver Cases.noFormats) 501 2 4 Sim.boot))))).
    reflexivity.
Defined.
(** ** Status checks of the constructor *)

Section Checked.
Variable d : Driver.

Lemma failures_app (t t' : list Event) : failures (t ++ t') = failures t ++ failures t'.
Proof. apply flat_map_app. Qed.

Lemma dies_on_failure_bind A B (p : Prog A) (f : A -> Prog B) :
  (forall w, dies_on_failure (run d p w)) ->
  (forall a w, dies_on_failure (run d (f a) w)) ->
  forall w, dies_on_failure (run d (bind p f) w).
Proof.
  intros Hp Hf w name st. rewrite run_bind. unfold then_run.
  specialize (Hp w name st).
  destruct (outcome (run d p w)) as [a|x|] eqn:O; cbn [trace outcome].
  - rewrite failures_app. intro I. apply in_app_or in I as [I|I].
    + destruct (Hp I) as [line E]. discriminate E.
    + apply (Hf a _ name st I).
  - intro I. destruct (Hp I) as [line E]. inversion E. eauto.
  - intro I. destruct (Hp I) as [line E]. discriminate E.
Qed.

Ltac failure_cases :=
  repeat match goal with
         | S : ?s <> VK_SUCCESS |- context [?s =? VK_SUCCESS] =>
             rewrite (proj2 (Z.eqb_neq s VK_SUCCESS) S)
         end;
  cbn -[Z.eqb];
  let H := fresh "H" in
  intro H; repeat (destruct H as [H|H]; [inversion H; subst; clear H|]);
  try contradiction; eauto.

Ltac checked_phase :=
  intros w name st; unfold failures; setup_exec; failure_cases.

Lemma createInstance_checked w : dies_on_failure (run d createInstance w).
Proof. revert w. unfold createInstance. checked_phase. Qed.

Lemma selectPhysicalDevice_checked inst w :
  dies_on_failure (run d (selectPhysicalDevice inst) w).
Proof. revert w. unfold selectPhysicalDevice. checked_phase. Qed.

Lemma createDevice_checked pd w : dies_on_failure (run d (createDevice pd) w).
Proof. revert w. unfold createDevice. checked_phase. Qed.

Lemma createSurface_checked win inst pd q w :
  dies_on_failure (run d (createSurface win inst pd q) w).
Proof. revert w. unfold createSurface. checked_phase. Qed.

Lemma createSwapchain_checked pd dev surf w :
  dies_on_failure (run d (createSwapchain pd dev surf) w).
Proof.
  revert w. unfold createSwapchain, selectSurfaceFormat, selectPresentMode. checked_phase.
Qed.

Lemma createCommandPool_checked dev q w :
  dies_on_failure (run d (createCommandPool dev q) w).
Proof. revert w. unfold createCommandPool. checked_phase. Qed.

Lemma allocateCommandBuffer_checked dev pool w :
  dies_on_failure (run d (allocateCommandBuffer dev pool) w).
Proof. revert w. unfold allocateCommandBuffer. checked_phase. Qed.

Lemma recordInitialLayouts_checked cb images w :
  dies_on_failure (run d (recordInitialLayouts cb images) w).
Proof.
  revert w. induction images as [|i images IH]; intro w.
  - intros name st []. 
  - cbn [recordInitialLayouts]. revert w. apply dies_on_failure_bind.
    + intros w name st []. 
    + intros _ w. apply IH.
Qed.

Lemma check_checked X line (c : VkCall (VkResult * X)) :
  (forall x, status_of c x = Some (fst x)) ->
  forall w, dies_on_failure (run d (VK_CHECK_ERROR line c) w).
Proof.
  intros Hs w name st. rewrite run_check. unfold failures. cbn [trace outcome flat_map].
  rewrite Hs, app_nil_r.
  destruct (Z.eqb_spec (fst (fst (reply d c w))) VK_SUCCESS) as [E|E].
  - intros [].
  - intros [I|[]]. inversion I; subst. eauto.
Qed.

Lemma transitionSwapchainImages_checked queue cb images w :
  dies_on_failure (run d (transitionSwapchainImages queue cb images) w).
Proof.
  revert w. unfold transitionSwapchainImages.
  apply dies_on_failure_bind; [apply check_checked; reflexivity|]. intros _.
  apply dies_on_failure_bind; [apply recordInitialLayouts_checked|]. intros _.
  apply dies_on_failure_bind; [apply check_checked; reflexivity|]. intros _.
  apply dies_on_failure_bind; [apply check_checked; reflexivity|]. intros _.
  apply check_checked; reflexivity.
Qed.

Lemma createSyncObjects_checked dev w : dies_on_failure (run d (createSyncObjects dev) w).
Proof. revert w. unfold createSyncObjects. checked_phase. Qed.

(** Every call of the constructor that answers with a failure status
    terminates the process at that call. *)
Lemma constructor_checked color window w :
  dies_on_failure (run d (constructor color window) w).
Proof.
  revert w. unfold constructor.
  apply dies_on_failure_bind; [apply createInstance_checked|]. intros inst.
  apply dies_on_failure_bind; [apply selectPhysicalDevice_checked|]. intros pd.
  apply dies_on_failure_bind; [apply createDevice_checked|]. intros [[q dev] queue].
  apply dies_on_failure_bind; [apply createSurface_checked|]. intros surf.
  apply dies_on_failure_bind; [apply createSwapchain_checked|]. intros [sc images].
  apply dies_on_failure_bind; [apply createCommandPool_checked|]. intros pool.
  apply dies_on_failure_bind; [apply allocateCommandBuffer_checked|]. intros cb.
  apply dies_on_failure_bind; [apply transitionSwapchainImages_checked|]. intros _.
  apply dies_on_failure_bind; [apply createSyncObjects_checked|]. intros [[f a] c].
  intros w name st [].
Qed.

End Checked.

(** ** The animation step on a few values

    0 goes to 0x3c23d70a; 0.99 (0x3f7d70a4) plus 0.01 rounds to 1 and wraps to 0;
    -0.5 goes to -0.49 (0xbefae148), a negative remainder; an infinity
    goes to NaN. *)

Example advanceChannel_zero :
  advanceChannel (S754_zero false) = S754_finite false 10737418 (-30).
Proof. vm_compute. reflexivity. Qed.

Example advanceChannel_wraps :
  advanceChannel (S754_finite false 16609444 (-24)) = S754_zero false.
Proof. vm_compute. reflexivity. Qed.

Example advanceChannel_negative :
  advanceChannel (S754_finite true 8388608 (-24)) = S754_finite true 16441672 (-25).
Proof. vm_compute. reflexivity. Qed.

Example advanceChannel_infinity :
  advanceChannel (S754_infinity false) = S754_nan.
Proof. vm_compute. reflexivity. Qed.

(** ** Binary rounding *)

Unset Implicit Arguments.

Lemma digits2_bounds (m : positive) :
  2 ^ (Zpos (digits2_pos m) - 1) <= Zpos m < 2 ^ Zpos (digits2_pos m).
Proof.
  induction m as [p IH|p IH|]; cbn [digits2_pos].
  - rewrite Pos2Z.inj_succ.
    replace (Z.succ (Zpos (digits2_pos p)) - 1) with (Z.succ (Zpos (digits2_pos p) - 1)) by lia.
    rewrite !Z.pow_succ_r by lia. lia.
  - rewrite Pos2Z.inj_succ.
    replace (Z.succ (Zpos (digits2_pos p)) - 1) with (Z.succ (Zpos (digits2_pos p) - 1)) by lia.
    rewrite !Z.pow_succ_r by lia. lia.
  - cbn. lia.
Qed.

Lemma digits2_unique (m : positive) (k : Z) :
  2 ^ (k - 1) <= Zpos m < 2 ^ k -> Zpos (digits2_pos m) = k.
Proof.
  intros [L U]. pose proof (digits2_bounds m) as [L' U'].
  assert (0 < k).
  { destruct (Z_lt_le_dec 0 k); [assumption|].
    assert (2 ^ k <= 2 ^ 0) by (destruct (Z_lt_le_dec k 0);
      [rewrite Z.pow_neg_r by lia; cbn; lia | apply Z.pow_le_mono_r; lia]).
    cbn in *; lia. }
  destruct (Z_lt_le_dec (Zpos (digits2_pos m)) k) as [C|C].
  - assert (2 ^ Zpos (digits2_pos m) <= 2 ^ (k - 1)) by (apply Z.pow_le_mono_r; lia). lia.
  - destruct (Z_lt_le_dec k (Zpos (digits2_pos m))) as [C'|C']; [|lia].
    assert (2 ^ k <= 2 ^ (Zpos (digits2_pos m) - 1)) by (apply Z.pow_le_mono_r; lia). lia.
Qed.

Lemma iter_pos_nat A (f : A -> A) (p : positive) (x : A) :
  iter_pos f p x = Nat.iter (Pos.to_nat p) f x.
Proof.
  revert x. induction p as [p IH|p IH|]; intro x; cbn [iter_pos].
  - rewrite !IH, Pos2Nat.inj_xI.
    replace (S (2 * Pos.to_nat p)) with (Pos.to_nat p + (Pos.to_nat p + 1))%nat by lia.
    rewrite !Nat.iter_add. reflexivity.
  - rewrite !IH, Pos2Nat.inj_xO.
    replace (2 * Pos.to_nat p)%nat with (Pos.to_nat p + Pos.to_nat p)%nat by lia.
    rewrite Nat.iter_add. reflexivity.
  - reflexivity.
Qed.

Lemma shr_1_nonneg (m : Z) (r s : bool) :
  0 <= m ->
  shr_1 {| shr_m := m; shr_r := r; shr_s := s |} =
  {| shr_m := m / 2; shr_r := Z.odd m; shr_s := r || s |}.
Proof.
  intro H. rewrite <- Z.div2_div.
  destruct m as [|[p|p|]|p]; try reflexivity. lia.
Qed.

(** [k] halvings of [m], with the last bit shifted out and the disjunction
    of the bits shifted out before it. *)
Lemma shr_iter (m : Z) (k : nat) :
  0 <= m ->
  Nat.iter (S k) shr_1 {| shr_m := m; shr_r := false; shr_s := false |} =
  {| shr_m := m / 2 ^ Z.of_nat (S k);
     shr_r := Z.odd (m / 2 ^ Z.of_nat k);
     shr_s := negb (m mod 2 ^ Z.of_nat k =? 0) |}.
Proof.
  intro H. induction k as [|k IH].
  - cbn [Nat.iter]. rewrite shr_1_nonneg by exact H.
    change (2 ^ Z.of_nat 1) with 2. change (2 ^ Z.of_nat 0) with 1.
    rewrite Z.div_1_r, Z.mod_1_r. reflexivity.
  - rewrite Nat.iter_succ, IH.
    assert (P : 0 < 2 ^ Z.of_nat (S k)) by (apply Z.pow_pos_nonneg; lia).
    rewrite shr_1_nonneg by (apply Z.div_pos; lia).
    f_equal.
    + rewrite Z.div_div by lia. f_equal.
      rewrite (Nat2Z.inj_succ (S k)), Z.pow_succ_r by lia. lia.
    + rewrite (Nat2Z.inj_succ k), Z.pow_succ_r by lia.
      set (b := 2 ^ Z.of_nat k). assert (0 < b) by (apply Z.pow_pos_nonneg; lia).
      rewrite Z.mul_comm, Z.rem_mul_r by lia.
      replace (Z.odd (m / b)) with (negb ((m / b) mod 2 =? 0)).
      * destruct (Z.eqb_spec (m mod b) 0) as [E|E];
        destruct (Z.eqb_spec ((m / b) mod 2) 0) as [E'|E']; cbn.
        -- rewrite E, E', Z.mul_0_r. reflexivity.
        -- apply eq_sym, negb_true_iff, Z.eqb_neq.
           pose proof (Z.mod_pos_bound (m / b) 2). nia.
        -- apply eq_sym, negb_true_iff, Z.eqb_neq.
           pose proof (Z.mod_pos_bound m b). nia.
        -- apply eq_sym, negb_true_iff, Z.eqb_neq.
           pose proof (Z.mod_pos_bound m b). pose proof (Z.mod_pos_bound (m / b) 2). nia.
      * rewrite Zmod_odd. destruct (Z.odd (m / b)); reflexivity.
Qed.

Lemma shr_round (m : Z) (p : positive) :
  0 <= m ->
  let mrs := iter_pos shr_1 p {| shr_m := m; shr_r := false; shr_s := false |} in
  let q' := round_nearest_even (shr_m mrs) (loc_of_shr_record mrs) in
  m / 2 ^ Zpos p <= q' <= m / 2 ^ Zpos p + 1 /\
  2 * Z.abs (q' * 2 ^ Zpos p - m) <= 2 ^ Zpos p.
Proof.
  intros H mrs q'. subst q' mrs. rewrite iter_pos_nat.
  destruct (Pos2Nat.is_succ p) as [k Hk]. rewrite Hk, shr_iter by exact H.
  replace (Zpos p) with (Z.of_nat (S k)) by (rewrite <- Hk; apply positive_nat_Z).
  rewrite (Nat2Z.inj_succ k), Z.pow_succ_r by lia.
  set (B := 2 ^ Z.of_nat k). assert (HB : 0 < B) by (apply Z.pow_pos_nonneg; lia).
  cbn [shr_m loc_of_shr_record].
  rewrite (Z.mul_comm 2 B). rewrite <- Z.div_div by lia.
  set (h := m / B). set (a := m mod B).
  assert (Hm : m = B * h + a) by (apply Z.div_mod; lia).
  assert (Ha : 0 <= a < B) by (apply Z.mod_pos_bound; lia).
  assert (Hh : h = 2 * (h / 2) + h mod 2) by (apply Z.div_mod; lia).
  assert (Ht : 0 <= h mod 2 < 2) by (apply Z.mod_pos_bound; lia).
  assert (Ho : Z.odd h = negb (h mod 2 =? 0)).
  { rewrite Zmod_odd. destruct (Z.odd h); reflexivity. }
  rewrite Ho.
  set (q := h / 2) in *. set (t := h mod 2) in *.
  assert (Hq : m = 2 * B * q + B * t + a) by nia.
  assert (Hd : m / B / 2 = q) by reflexivity.
  clearbody q t a h B.
  destruct (Z.eqb_spec t 0) as [T|T]; destruct (Z.eqb_spec a 0) as [A|A];
    cbn [negb loc_of_shr_record round_nearest_even];
    try destruct (Z.even q); (split; [lia|]);
    assert (t = 0 \/ t = 1) as [-> | ->] by lia; try lia; subst m; try lia.
Qed.

Lemma pos_iter_xO (m d : positive) : Zpos (Pos.iter xO m d) = Zpos m * 2 ^ Zpos d.
Proof.
  induction d as [|d IH] using Pos.peano_ind.
  - cbn. lia.
  - rewrite Pos.iter_succ, Pos2Z.inj_xO, IH, Pos2Z.inj_succ, Z.pow_succ_r by lia. lia.
Qed.

Lemma shl_align_le (m : positive) (e e' : Z) :
  e' <= e ->
  Zpos (fst (shl_align m e e')) = Zpos m * 2 ^ (e - e') /\ snd (shl_align m e e') = e'.
Proof.
  intro H. unfold shl_align. destruct (e' - e) as [|p|p] eqn:E; try lia.
  - replace (e - e') with 0 by lia. cbn [fst snd]. lia.
  - cbn [fst snd]. rewrite pos_iter_xO. split; [|reflexivity].
    f_equal. f_equal. lia.
Qed.

Lemma shl_align_gt (m : positive) (e e' : Z) : e < e' -> shl_align m e e' = (m, e).
Proof.
  intro H. unfold shl_align. destruct (e' - e) as [|p|p] eqn:E; try lia; reflexivity.
Qed.

Lemma digits2_shift (m m' : positive) (k : Z) :
  0 <= k -> Zpos m' = Zpos m * 2 ^ k ->
  Zpos (digits2_pos m') = Zpos (digits2_pos m) + k.
Proof.
  intros Hk E. apply digits2_unique. rewrite E.
  pose proof (digits2_bounds m) as [L U].
  replace (Zpos (digits2_pos m) + k - 1) with (Zpos (digits2_pos m) - 1 + k) by lia.
  rewrite !Z.pow_add_r by lia.
  assert (0 < 2 ^ k) by (apply Z.pow_pos_nonneg; lia). nia.
Qed.

Section Rounding.
Variables prec emax : Z.
Hypothesis Hprec : 0 < prec.
Hypothesis Hemax : prec < emax.

Lemma shr_fexp_stay (m : positive) (e : Z) :
  SpecFloat.fexp prec emax (Zpos (digits2_pos m) + e) <= e ->
  shr_fexp prec emax (Zpos m) e loc_Exact =
  ({| shr_m := Zpos m; shr_r := false; shr_s := false |}, e).
Proof.
  intro H. unfold shr_fexp, shr. cbn [Zdigits2 shr_record_of_loc].
  destruct (SpecFloat.fexp prec emax (Zpos (digits2_pos m) + e) - e) eqn:E; try reflexivity. lia.
Qed.

Lemma binary_round_aux_stay (sx : bool) (m : positive) (e : Z) :
  SpecFloat.fexp prec emax (Zpos (digits2_pos m) + e) <= e ->
  e <= emax - prec ->
  binary_round_aux prec emax sx (Zpos m) e loc_Exact = S754_finite sx m e.
Proof.
  intros H O. unfold binary_round_aux.
  rewrite shr_fexp_stay by exact H.
  cbn [shr_m loc_of_shr_record round_nearest_even].
  rewrite shr_fexp_stay by exact H. cbn [shr_m].
  destruct (Z.leb_spec e (emax - prec)); [reflexivity|lia].
Qed.

(** A value that fits the format is represented exactly, in canonical form. *)
Lemma binary_round_exact (sx : bool) (mx : positive) (ex : Z) :
  let e' := SpecFloat.fexp prec emax (Zpos (digits2_pos mx) + ex) in
  e' <= ex -> e' <= emax - prec ->
  exists mz, Zpos mz = Zpos mx * 2 ^ (ex - e') /\
             binary_round prec emax sx mx ex = S754_finite sx mz e' /\
             bounded prec emax mz e' = true.
Proof.
  intros e' H O. unfold binary_round. fold e'.
  destruct (shl_align_le mx ex e' H) as [V S].
  destruct (shl_align mx ex e') as [mz ez]. cbn [fst snd] in V, S. subst ez.
  assert (D : Zpos (digits2_pos mz) + e' = Zpos (digits2_pos mx) + ex).
  { rewrite (digits2_shift mx mz (ex - e')) by (lia || exact V). lia. }
  exists mz. split; [exact V|]. split.
  - apply binary_round_aux_stay; [rewrite D; fold e'; lia | exact O].
  - unfold bounded, canonical_mantissa. rewrite D. fold e'.
    rewrite Z.eqb_refl. cbn. apply Z.leb_le. exact O.
Qed.

Lemma fexp_normal (e : Z) :
  SpecFloat.emin prec emax <= e - prec -> SpecFloat.fexp prec emax e = e - prec.
Proof. intro H. unfold SpecFloat.fexp. lia. Qed.

Lemma shr_fexp_shift (m p : positive) (e : Z) :
  SpecFloat.fexp prec emax (Zpos (digits2_pos m) + e) - e = Zpos p ->
  shr_fexp prec emax (Zpos m) e loc_Exact =
  (iter_pos shr_1 p {| shr_m := Zpos m; shr_r := false; shr_s := false |}, e + Zpos p).
Proof.
  intro H. unfold shr_fexp, shr. cbn [Zdigits2 shr_record_of_loc].
  rewrite H. reflexivity.
Qed.

(** A value with too many digits is rounded to [prec] digits; the result is
    within half a unit in the last place. *)
Lemma binary_round_inexact (sx : bool) (mx : positive) (ex : Z) :
  let e' := Zpos (digits2_pos mx) + ex - prec in
  ex < e' -> SpecFloat.emin prec emax <= e' -> e' + 1 <= emax - prec ->
  exists mz ez,
    binary_round prec emax sx mx ex = S754_finite sx mz ez /\
    bounded prec emax mz ez = true /\
    e' <= ez /\
    2 * Z.abs (Zpos mz * 2 ^ (ez - ex) - Zpos mx) <= 2 ^ (e' - ex) /\
    2 ^ (prec - 1) <= Zpos mz < 2 ^ prec.
Proof.
  intros e' Hlt Hmin Hmax.
  pose proof (digits2_bounds mx) as [DL DU].
  set (d := Zpos (digits2_pos mx)) in *.
  assert (F : SpecFloat.fexp prec emax (d + ex) = e') by (apply fexp_normal; fold e'; lia).
  unfold binary_round. fold d. rewrite F.
  rewrite shl_align_gt by exact Hlt.
  unfold binary_round_aux.
  destruct (e' - ex) as [|p|p] eqn:En; try lia.
  rewrite (shr_fexp_shift mx p ex) by (fold d; rewrite F; exact En).
  pose proof (shr_round (Zpos mx) p ltac:(lia)) as R. cbn zeta in R.
  set (mrs := iter_pos shr_1 p {| shr_m := Zpos mx; shr_r := false; shr_s := false |}) in *.
  set (q' := round_nearest_even (shr_m mrs) (loc_of_shr_record mrs)) in *.
  destruct R as [[QL QU] QE].
  replace (ex + Zpos p) with e' by lia.
  assert (Pp : 0 < 2 ^ Zpos p) by (apply Z.pow_pos_nonneg; lia).
  assert (Hd : d = prec + Zpos p) by lia.
  assert (Q1 : 2 ^ (prec - 1) <= Zpos mx / 2 ^ Zpos p).
  { apply Z.div_le_lower_bound; [lia|].
    rewrite Z.mul_comm, <- Z.pow_add_r by lia.
    replace (prec - 1 + Zpos p) with (d - 1) by lia. exact DL. }
  assert (Q2 : Zpos mx / 2 ^ Zpos p < 2 ^ prec).
  { apply Z.div_lt_upper_bound; [lia|].
    rewrite <- Z.pow_add_r by lia.
    replace (Zpos p + prec) with d by lia. exact DU. }
  assert (P1 : 0 < 2 ^ (prec - 1)) by (apply Z.pow_pos_nonneg; lia).
  assert (P2 : 2 ^ prec = 2 * 2 ^ (prec - 1)).
  { rewrite <- Z.pow_succ_r by lia. f_equal. lia. }
  clearbody q'. destruct q' as [|q|q]; try lia.
  destruct (Z_lt_le_dec (Zpos q) (2 ^ prec)) as [C|C].
  - (* the rounded mantissa still has [prec] digits *)
    assert (Dq : Zpos (digits2_pos q) = prec) by (apply digits2_unique; lia).
    assert (Fq : SpecFloat.fexp prec emax (Zpos (digits2_pos q) + e') = e').
    { rewrite Dq. rewrite fexp_normal by lia. lia. }
    rewrite shr_fexp_stay by lia. cbn [shr_m].
    destruct (Z.leb_spec e' (emax - prec)); [|lia].
    exists q, e'. split; [reflexivity|]. split.
    { unfold bounded, canonical_mantissa. rewrite Fq, Z.eqb_refl.
      cbn. apply Z.leb_le. lia. }
    split; [lia|]. rewrite En. split; [exact QE | lia].
  - (* the rounding carried into a new digit *)
    assert (Eq : Zpos q = 2 ^ prec) by lia.
    assert (Dq : Zpos (digits2_pos q) = prec + 1).
    { apply digits2_unique. replace (prec + 1 - 1) with prec by lia.
      rewrite Z.pow_add_r by lia. lia. }
    rewrite (shr_fexp_shift q 1 e')
      by (rewrite Dq, fexp_normal by lia; lia).
    cbn [iter_pos]. rewrite shr_1_nonneg by lia. cbn [shr_m].
    rewrite Eq, P2, Z.mul_comm, Z.div_mul by lia.
    destruct (2 ^ (prec - 1)) as [|h|h] eqn:Eh; try lia.
    destruct (Z.leb_spec (e' + 1) (emax - prec)); [|lia].
    exists h, (e' + 1).
    assert (Dh : Zpos (digits2_pos h) = prec).
    { apply digits2_unique. rewrite <- Eh, P2. lia. }
    split; [reflexivity|]. split.
    { unfold bounded, canonical_mantissa.
      rewrite Dh, fexp_normal by lia.
      replace (prec + (e' + 1) - prec) with (e' + 1) by lia.
      rewrite Z.eqb_refl. cbn. apply Z.leb_le. lia. }
    split; [lia|]. split; [|lia].
    replace (e' + 1 - ex) with (Z.succ (Zpos p)) by lia.
    rewrite Z.pow_succ_r by lia.
    replace (Zpos h * (2 * 2 ^ Zpos p)) with (Zpos q * 2 ^ Zpos p) by (rewrite Eq, P2; lia).
    exact QE.
Qed.

End Rounding.
(** ** Values as rationals *)

Open Scope Q_scope.

Lemma pow2_pos (e : Z) : 0 < 2 ^ e.
Proof. apply Qpower_0_lt. reflexivity. Qed.

Lemma pow2_add (a b : Z) : 2 ^ (a + b) == 2 ^ a * 2 ^ b.
Proof. apply Qpower_plus. discriminate. Qed.

Lemma pow2_inject (k : Z) : (0 <= k)%Z -> inject_Z (2 ^ k) == 2 ^ k.
Proof. intro H. rewrite Zpower_Qpower by exact H. reflexivity. Qed.

Lemma pow2_ge_1 (k : Z) : (0 <= k)%Z -> 1 <= 2 ^ k.
Proof.
  intro H. rewrite <- pow2_inject by exact H.
  change 1 with (inject_Z 1). rewrite <- Zle_Qle.
  assert (0 < 2 ^ k)%Z by (apply Z.pow_pos_nonneg; lia). lia.
Qed.

Lemma pow2_le (a b : Z) : (a <= b)%Z -> 2 ^ a <= 2 ^ b.
Proof.
  intro H. replace b with (a + (b - a))%Z by lia. rewrite pow2_add.
  pose proof (pow2_pos a). pose proof (pow2_ge_1 (b - a) ltac:(lia)). nra.
Qed.

Lemma pow2_lt_inv (a b : Z) : 2 ^ a < 2 ^ b -> (a < b)%Z.
Proof.
  intro H. destruct (Z_lt_le_dec a b) as [C|C]; [exact C|].
  apply pow2_le in C. lra.
Qed.

Lemma scale_inject (m : Z) (e e2 : Z) :
  (e <= e2)%Z -> inject_Z m * 2 ^ e2 == inject_Z (m * 2 ^ (e2 - e)) * 2 ^ e.
Proof.
  intro H. rewrite inject_Z_mult, pow2_inject by lia.
  replace e2 with ((e2 - e) + e)%Z at 1 by lia. rewrite pow2_add. ring.
Qed.

Lemma F2Q_finite (s : bool) (m : positive) (e : Z) :
  F2Q (S754_finite s m e) = inject_Z (cond_Zopp s (Zpos m)) * 2 ^ e.
Proof. reflexivity. Qed.

Lemma F2Q_scaled (s : bool) (m m' : positive) (e e' : Z) :
  (e' <= e)%Z -> Zpos m' = (Zpos m * 2 ^ (e - e'))%Z ->
  F2Q (S754_finite s m' e') == F2Q (S754_finite s m e).
Proof.
  intros H E. rewrite !F2Q_finite.
  rewrite (scale_inject (cond_Zopp s (Zpos m)) e' e) by exact H.
  destruct s; unfold cond_Zopp.
  - rewrite Z.mul_opp_l, <- E. reflexivity.
  - rewrite <- E. reflexivity.
Qed.

(** The position of the leading digit, from bounds on the value. *)
Lemma digits_upper (m : positive) (e hi : Z) :
  inject_Z (Zpos m) * 2 ^ e < 2 ^ hi -> (Zpos (digits2_pos m) + e <= hi)%Z.
Proof.
  intro H. pose proof (digits2_bounds m) as [L _].
  assert (2 ^ (Zpos (digits2_pos m) - 1 + e) < 2 ^ hi).
  { rewrite pow2_add, <- (pow2_inject (Zpos (digits2_pos m) - 1)) by lia.
    apply Qle_lt_trans with (inject_Z (Zpos m) * 2 ^ e); [|exact H].
    apply Qmult_le_compat_r; [rewrite <- Zle_Qle; exact L | apply Qlt_le_weak, pow2_pos]. }
  apply pow2_lt_inv in H0. lia.
Qed.

Lemma digits_lower (m : positive) (e lo : Z) :
  2 ^ lo <= inject_Z (Zpos m) * 2 ^ e -> (lo + 1 <= Zpos (digits2_pos m) + e)%Z.
Proof.
  intro H. pose proof (digits2_bounds m) as [_ U].
  assert (2 ^ lo < 2 ^ (Zpos (digits2_pos m) + e)).
  { rewrite pow2_add, <- (pow2_inject (Zpos (digits2_pos m))) by lia.
    apply Qle_lt_trans with (inject_Z (Zpos m) * 2 ^ e); [exact H|].
    apply Qmult_lt_compat_r; [apply pow2_pos | rewrite <- Zlt_Qlt; exact U]. }
  apply pow2_lt_inv in H0. lia.
Qed.

Lemma Qabs_inject (z : Z) : Qabs (inject_Z z) = inject_Z (Z.abs z).
Proof. reflexivity. Qed.

(** Rounding a positive value of the normal range into a format: the
    result is a finite number of the format within half a unit in the last
    place. *)
Lemma binary_round_Q (prec emax : Z) (mx : positive) (ex lo hi : Z) :
  (0 < prec)%Z -> (prec < emax)%Z ->
  2 ^ lo <= inject_Z (Zpos mx) * 2 ^ ex ->
  inject_Z (Zpos mx) * 2 ^ ex < 2 ^ hi ->
  (SpecFloat.emin prec emax + prec <= lo + 1)%Z ->
  (hi + 1 <= emax)%Z ->
  exists mz ez,
    binary_round prec emax false mx ex = S754_finite false mz ez /\
    bounded prec emax mz ez = true /\
    Qabs (F2Q (S754_finite false mz ez) - F2Q (S754_finite false mx ex))
      <= 2 ^ (hi - prec - 1).
Proof.
  intros Hprec Hemax L U Hlo Hhi.
  apply digits_lower in L. apply digits_upper in U.
  set (D := (Zpos (digits2_pos mx) + ex)%Z) in *.
  assert (F : SpecFloat.fexp prec emax D = (D - prec)%Z)
    by (apply fexp_normal; lia).
  destruct (Z_lt_le_dec ex (D - prec)) as [C|C].
  - destruct (binary_round_inexact prec emax Hprec false mx ex)
      as (mz & ez & R & B & E1 & E2 & _); fold D; try lia.
    exists mz, ez. split; [exact R|]. split; [exact B|].
    fold D in E1, E2.
    rewrite !F2Q_finite. cbn [cond_Zopp].
    rewrite (scale_inject (Zpos mz) ex ez) by lia.
    setoid_replace (inject_Z (Zpos mz * 2 ^ (ez - ex)) * 2 ^ ex - inject_Z (Zpos mx) * 2 ^ ex)
      with (inject_Z (Zpos mz * 2 ^ (ez - ex) - Zpos mx) * 2 ^ ex)
      by (unfold Z.sub; rewrite inject_Z_plus, inject_Z_opp; ring).
    rewrite Qabs_Qmult, Qabs_inject, (Qabs_pos (2 ^ ex)) by (apply Qlt_le_weak, pow2_pos).
    apply Qle_trans with (2 ^ (D - prec - 1)); [|apply pow2_le; lia].
    set (a := Z.abs (Zpos mz * 2 ^ (ez - ex) - Zpos mx)) in *.
    assert (A : 2 * inject_Z a <= 2 ^ (D - prec - ex)).
    { rewrite <- pow2_inject by lia. change 2 with (inject_Z 2) at 1.
      rewrite <- inject_Z_mult, <- Zle_Qle. exact E2. }
    replace (D - prec - 1)%Z with ((D - prec - ex) + ex + -1)%Z by lia.
    rewrite !pow2_add. change (2 ^ (-1)) with (1 # 2).
    pose proof (pow2_pos ex). nra.
  - destruct (binary_round_exact prec emax false mx ex) as (mz & V & R & B);
      fold D; rewrite ?F; try lia.
    exists mz, (D - prec)%Z. fold D in R, B, V. rewrite F in R, B, V.
    split; [exact R|]. split; [exact B|].
    rewrite (F2Q_scaled false mx mz ex (D - prec)) by (lia || exact V).
    setoid_replace (F2Q (S754_finite false mx ex) - F2Q (S754_finite false mx ex)) with 0
      by ring.
    apply Qlt_le_weak, pow2_pos.
Qed.

(** A value that has few enough digits is converted exactly. *)
Lemma binary_round_exact_Q (prec emax : Z) (sx : bool) (mx : positive) (ex : Z) :
  (SpecFloat.fexp prec emax (Zpos (digits2_pos mx) + ex) <= ex)%Z ->
  (SpecFloat.fexp prec emax (Zpos (digits2_pos mx) + ex) <= emax - prec)%Z ->
  exists mz ez,
    binary_round prec emax sx mx ex = S754_finite sx mz ez /\
    bounded prec emax mz ez = true /\
    F2Q (S754_finite sx mz ez) == F2Q (S754_finite sx mx ex).
Proof.
  intros H O.
  destruct (binary_round_exact prec emax sx mx ex H O) as (mz & V & R & B).
  exists mz, (SpecFloat.fexp prec emax (Zpos (digits2_pos mx) + ex)).
  split; [exact R|]. split; [exact B|].
  apply F2Q_scaled; [exact H | exact V].
Qed.

(** ** The operations of one animation step *)

Lemma bounded32_facts (m : positive) (e : Z) :
  bounded prec32 emax32 m e = true ->
  (Zpos (digits2_pos m) <= 24 /\ -149 <= e <= 104)%Z.
Proof.
  unfold bounded, canonical_mantissa, SpecFloat.fexp, SpecFloat.emin, prec32, emax32.
  intro H. apply andb_true_iff in H as [C O].
  apply Z.eqb_eq in C. apply Z.leb_le in O. lia.
Qed.

Lemma double_of_float_exact (s : bool) (m : positive) (e : Z) :
  bounded prec32 emax32 m e = true ->
  exists mz ez,
    double_of_float (S754_finite s m e) = S754_finite s mz ez /\
    bounded prec64 emax64 mz ez = true /\
    F2Q (S754_finite s mz ez) == F2Q (S754_finite s m e).
Proof.
  intro B. apply bounded32_facts in B as [D E].
  apply binary_round_exact_Q;
    unfold SpecFloat.fexp, SpecFloat.emin, prec64, emax64; lia.
Qed.

Lemma SFadd_positive (mx my : positive) (ex ey lo hi : Z) :
  2 ^ lo <= F2Q (S754_finite false mx ex) + F2Q (S754_finite false my ey) ->
  F2Q (S754_finite false mx ex) + F2Q (S754_finite false my ey) < 2 ^ hi ->
  (-1021 <= lo + 1)%Z -> (hi + 1 <= 1024)%Z ->
  exists mz ez,
    SFadd prec64 emax64 (S754_finite false mx ex) (S754_finite false my ey) =
      S754_finite false mz ez /\
    bounded prec64 emax64 mz ez = true /\
    Qabs (F2Q (S754_finite false mz ez) -
          (F2Q (S754_finite false mx ex) + F2Q (S754_finite false my ey)))
      <= 2 ^ (hi - 54).
Proof.
  intros L U Hlo Hhi. unfold SFadd. cbn [cond_Zopp].
  set (ez := Z.min ex ey).
  destruct (shl_align_le mx ex ez ltac:(lia)) as [Va _].
  destruct (shl_align_le my ey ez ltac:(lia)) as [Vb _].
  set (a := fst (shl_align mx ex ez)) in *. set (b := fst (shl_align my ey ez)) in *.
  change (Zpos a + Zpos b)%Z with (Zpos (a + b)). cbn [binary_normalize].
  assert (V : inject_Z (Zpos (a + b)) * 2 ^ ez ==
              F2Q (S754_finite false mx ex) + F2Q (S754_finite false my ey)).
  { rewrite !F2Q_finite. cbn [cond_Zopp].
    rewrite (scale_inject (Zpos mx) ez ex), (scale_inject (Zpos my) ez ey) by lia.
    rewrite <- Va, <- Vb, Pos2Z.inj_add, inject_Z_plus. ring. }
  rewrite <- V in L, U.
  destruct (binary_round_Q prec64 emax64 (a + b) ez lo hi
              ltac:(unfold prec64; lia) ltac:(unfold prec64, emax64; lia) L U
              ltac:(unfold SpecFloat.emin, prec64, emax64; lia)
              ltac:(unfold emax64; lia))
    as (mz & ez' & R & B & E).
  exists mz, ez'. split; [exact R|]. split; [exact B|].
  rewrite (F2Q_finite false (a + b) ez) in E. cbn [cond_Zopp] in E. rewrite V in E.
  replace (hi - 54)%Z with (hi - prec64 - 1)%Z by (unfold prec64; lia). exact E.
Qed.

Lemma float_of_double_positive (m : positive) (e : Z) :
  2 ^ (-7) <= F2Q (S754_finite false m e) ->
  F2Q (S754_finite false m e) < 2 ^ 1 ->
  exists mz ez,
    float_of_double (S754_finite false m e) = S754_finite false mz ez /\
    bounded prec32 emax32 mz ez = true /\
    Qabs (F2Q (S754_finite false mz ez) - F2Q (S754_finite false m e)) <= 2 ^ (-24).
Proof.
  intros L U.
  rewrite F2Q_finite in L, U. cbn [cond_Zopp] in L, U.
  destruct (binary_round_Q prec32 emax32 m e (-7) 1
              ltac:(unfold prec32; lia) ltac:(unfold prec32, emax32; lia) L U
              ltac:(unfold SpecFloat.emin, prec32, emax32; lia)
              ltac:(unfold emax32; lia))
    as (mz & ez & R & B & E).
  exists mz, ez. auto.
Qed.

Lemma one32_eq : float_of_double lit_1_0 = S754_finite false 8388608 (-23).
Proof. vm_compute. reflexivity. Qed.

Lemma lit_0_01_eq : lit_0_01 = S754_finite false 5764607523034235 (-59).
Proof. vm_compute. reflexivity. Qed.

(** [fmodf(x, 1.0f)] of a positive binary32 number: the fractional part,
    exactly. *)
Lemma fmodf_one (m : positive) (e : Z) :
  bounded prec32 emax32 m e = true ->
  unit_interval (fmodf (S754_finite false m e) (S754_finite false 8388608 (-23))) /\
  exists k : Z,
    F2Q (fmodf (S754_finite false m e) (S754_finite false 8388608 (-23))) ==
    F2Q (S754_finite false m e) - inject_Z k.
Proof.
  intro B. apply bounded32_facts in B as [D E].
  unfold fmodf. set (ez := Z.min e (-23)).
  destruct (shl_align_le m e ez ltac:(lia)) as [VX _].
  destruct (shl_align_le 8388608 (-23) ez ltac:(lia)) as [VY _].
  set (X := Zpos (fst (shl_align m e ez))) in *.
  set (Y := Zpos (fst (shl_align 8388608 (-23) ez))) in *.
  assert (HY : Y = (2 ^ (- ez))%Z).
  { rewrite VY. change (Zpos 8388608) with (2 ^ 23)%Z.
    rewrite <- Z.pow_add_r by lia. f_equal. lia. }
  assert (PY : (0 < Y)%Z) by (rewrite HY; apply Z.pow_pos_nonneg; lia).
  pose proof (Z.mod_pos_bound X Y PY) as [R0 R1].
  pose proof (Z.div_mod X Y ltac:(lia)) as DM.
  assert (One : inject_Z Y * 2 ^ ez == 1).
  { rewrite HY, pow2_inject, <- pow2_add by lia.
    replace (- ez + ez)%Z with 0%Z by lia. reflexivity. }
  assert (VQ : F2Q (S754_finite false m e) ==
               inject_Z (X / Y) + inject_Z (X mod Y) * 2 ^ ez).
  { rewrite F2Q_finite. cbn [cond_Zopp].
    rewrite (scale_inject (Zpos m) ez e) by lia. rewrite <- VX.
    rewrite DM at 1. rewrite inject_Z_plus, inject_Z_mult.
    setoid_replace ((inject_Z Y * inject_Z (X / Y) + inject_Z (X mod Y)) * 2 ^ ez)
      with (inject_Z (X / Y) * (inject_Z Y * 2 ^ ez) + inject_Z (X mod Y) * 2 ^ ez) by ring.
    rewrite One. ring. }
  cbn [cond_Zopp]. destruct (X mod Y)%Z as [|r|r] eqn:ER; try lia.
  - (* an integer: the remainder is +0 *)
    cbn [binary_normalize]. split.
    + repeat split; cbn; lra.
    + exists (X / Y)%Z. rewrite VQ. cbn [F2Q]. change (inject_Z 0) with 0. ring.
  - cbn [binary_normalize].
    assert (Dr : (Zpos (digits2_pos r) <= 24)%Z).
    { pose proof (digits2_bounds r) as [L _].
      assert (Zpos r < 2 ^ 24)%Z.
      { destruct (Z_le_gt_dec (-23) e).
        - assert (Y <= 2 ^ 23)%Z by (rewrite HY; apply Z.pow_le_mono_r; lia). lia.
        - assert (X = Zpos m) by (rewrite VX; replace (e - ez)%Z with 0%Z by lia; cbn; lia).
          pose proof (digits2_bounds m) as [_ U].
          assert (2 ^ Zpos (digits2_pos m) <= 2 ^ 24)%Z by (apply Z.pow_le_mono_r; lia).
          assert (Zpos r <= X)%Z by (rewrite <- ER; apply Z.mod_le; lia). lia. }
      destruct (Z_le_gt_dec (Zpos (digits2_pos r)) 24) as [C|C]; [exact C|].
      assert (2 ^ 24 <= 2 ^ (Zpos (digits2_pos r) - 1))%Z by (apply Z.pow_le_mono_r; lia).
      lia. }
    destruct (binary_round_exact_Q prec32 emax32 false r ez) as (mz & ez' & R & Bz & V);
      try (unfold SpecFloat.fexp, SpecFloat.emin, prec32, emax32; lia).
    rewrite R. rewrite (F2Q_finite false r ez) in V. cbn [cond_Zopp] in V.
    assert (Lt1 : inject_Z (Zpos r) * 2 ^ ez < 1).
    { rewrite <- One. apply Qmult_lt_compat_r; [apply pow2_pos|].
      rewrite <- Zlt_Qlt. lia. }
    assert (Gt0 : 0 < inject_Z (Zpos r) * 2 ^ ez).
    { apply Qmult_lt_0_compat; [reflexivity | apply pow2_pos]. }
    split.
    + unfold unit_interval. cbn [valid_binary is_finite].
      rewrite V. repeat split; auto; lra.
    + exists (X / Y)%Z. rewrite V, VQ. ring.
Qed.

Ltac eval_pow2 :=
  repeat match goal with
  | |- context [Qpower 2 ?e] =>
      let v := eval vm_compute in (Qpower 2 e) in change (Qpower 2 e) with v
  | H : context [Qpower 2 ?e] |- _ =>
      let v := eval vm_compute in (Qpower 2 e) in change (Qpower 2 e) with v in H
  end.

Lemma lit_0_01_value :
  1 # 100 <= F2Q (S754_finite false 5764607523034235 (-59)) /\
  F2Q (S754_finite false 5764607523034235 (-59)) <= (1 # 100) + (1 # 1000000000000000000).
Proof. split; vm_compute; discriminate. Qed.

Lemma finite_nonneg_sign (s : bool) (m : positive) (e : Z) :
  0 <= F2Q (S754_finite s m e) -> s = false /\ 0 < F2Q (S754_finite false m e).
Proof.
  rewrite !F2Q_finite. intro H.
  assert (P : 0 < inject_Z (Zpos m) * 2 ^ e).
  { apply Qmult_lt_0_compat; [reflexivity | apply pow2_pos]. }
  destruct s; [|split; [reflexivity | exact P]].
  exfalso. cbn [cond_Zopp] in H.
  change (inject_Z (- Zpos m)) with (- inject_Z (Zpos m)) in H. lra.
Qed.

(** One animation step keeps a channel in the unit interval and advances
    it by 0.01 modulo 1, up to [step_error]. *)
Lemma advanceChannel_spec (c : spec_float) :
  unit_interval c ->
  unit_interval (advanceChannel c) /\
  near_mod_1 step_error (F2Q (advanceChannel c)) (F2Q c + (1 # 100)).
Proof.
  intros (V & Fin & Lo & Hi).
  destruct c as [s|s| |s m e]; try discriminate Fin.
  - (* a zero of either sign *)
    assert (E : advanceChannel (S754_zero s) = S754_finite false 10737418 (-30))
      by (destruct s; vm_compute; reflexivity).
    rewrite E. split.
    + repeat split; vm_compute; congruence.
    + exists 0%Z. vm_compute. discriminate.
  - destruct (finite_nonneg_sign s m e Lo) as [-> Pos].
    cbn [valid_binary] in V.
    unfold advanceChannel. rewrite one32_eq, lit_0_01_eq.
    destruct (double_of_float_exact false m e V) as (m1 & e1 & R1 & B1 & V1).
    rewrite R1.
    destruct lit_0_01_value as [L0 L1].
    set (L := F2Q (S754_finite false 5764607523034235 (-59))) in *.
    set (v := F2Q (S754_finite false m e)) in *.
    destruct (SFadd_positive m1 5764607523034235 e1 (-59) (-7) 1) as (m2 & e2 & R2 & B2 & V2);
      try lia.
    { fold L. rewrite V1. fold v. eval_pow2. lra. }
    { fold L. rewrite V1. fold v. eval_pow2. lra. }
    rewrite R2. fold L in V2. rewrite V1 in V2. fold v in V2.
    set (x2 := F2Q (S754_finite false m2 e2)) in *.
    apply Qabs_Qle_condition in V2. eval_pow2.
    destruct (float_of_double_positive m2 e2) as (m3 & e3 & R3 & B3 & V3).
    { fold x2. eval_pow2. lra. }
    { fold x2. eval_pow2. lra. }
    rewrite R3. fold x2 in V3.
    set (x3 := F2Q (S754_finite false m3 e3)) in *.
    apply Qabs_Qle_condition in V3. eval_pow2.
    destruct (fmodf_one m3 e3 B3) as [UI [k K]].
    split; [exact UI|].
    exists k. rewrite K. fold x3. unfold step_error.
    apply Qabs_Qle_condition. lra.
Qed.

Lemma iterate_advanceChannel (n : nat) (c : spec_float) :
  unit_interval c ->
  unit_interval (Nat.iter n advanceChannel c) /\
  near_mod_1 (inject_Z (Z.of_nat n) * step_error)
    (F2Q (Nat.iter n advanceChannel c)) (F2Q c + inject_Z (Z.of_nat n) * (1 # 100)).
Proof.
  intro U. induction n as [|n [IU [k1 IH]]].
  - split; [exact U|]. exists 0%Z.
    change (Nat.iter 0 advanceChannel c) with c. change (inject_Z (Z.of_nat 0)) with 0.
    apply Qabs_Qle_condition. change (inject_Z 0) with 0. unfold step_error. lra.
  - rewrite Nat.iter_succ. destruct (advanceChannel_spec _ IU) as [SU [k2 SH]].
    split; [exact SU|]. exists (k1 + k2)%Z.
    rewrite Nat2Z.inj_succ. unfold Z.succ. rewrite !inject_Z_plus.
    change (inject_Z 1) with 1.
    apply Qabs_Qle_condition in IH. apply Qabs_Qle_condition in SH.
    apply Qabs_Qle_condition.
    set (x := F2Q (Nat.iter n advanceChannel c)) in *.
    set (y := F2Q (advanceChannel (Nat.iter n advanceChannel c))) in *.
    set (N := inject_Z (Z.of_nat n)) in *.
    unfold step_error in *. lra.
Qed.

Lemma updateClearColor_eq (color : VkClearColorValue) :
  updateClearColor color =
  {| float32_0 := advanceChannel (float32_0 color);
     float32_1 := advanceChannel (float32_1 color);
     float32_2 := advanceChannel (float32_2 color);
     float32_3 := advanceChannel (float32_3 color) |}.
Proof. destruct color. reflexivity. Qed.

Lemma updateClearColor_channel (color : VkClearColorValue) (i : Z) :
  float32 (updateClearColor color) i = advanceChannel (float32 color i).
Proof.
  rewrite updateClearColor_eq. unfold float32. cbn [float32_0 float32_1 float32_2 float32_3].
  destruct (i =? 0); [reflexivity|].
  destruct (i =? 1); [reflexivity|].
  destruct (i =? 2); reflexivity.
Qed.

Section Animation.
Variable d : Driver.

Lemma render_channel (r r' : VkRenderer) (w : world d) (i : Z) :
  outcome (run d (render r) w) = Done r' ->
  float32 (mClearColorValue r') i = advanceChannel (float32 (mClearColorValue r) i).
Proof.
  intro H. rewrite (render_done d r w H). cbn [mClearColorValue with_clear_color].
  apply updateClearColor_channel.
Qed.

Lemma renderTimes_channel (n : nat) (r r' : VkRenderer) (w : world d) (i : Z) :
  outcome (run d (renderTimes n r) w) = Done r' ->
  float32 (mClearColorValue r') i =
  Nat.iter n advanceChannel (float32 (mClearColorValue r) i).
Proof.
  revert r w. induction n as [|n IH]; intros r w H.
  - cbn in H. inversion H. reflexivity.
  - cbn [renderTimes] in H.
    apply run_bind_done in H as (r1 & H1 & H2 & _).
    rewrite (IH _ _ H2), (render_channel r r1 w i H1).
    rewrite <- Nat.iter_succ_r. reflexivity.
Qed.

End Animation.

Lemma float_eq_unit_interval (x y : spec_float) :
  unit_interval x -> unit_interval y -> float_eq x y = true ->
  advanceChannel x = advanceChannel y.
Proof.
  intros (_ & Fx & Lx & _) (_ & Fy & Ly & _).
  destruct x as [sx|sx| |sx mx ex]; try discriminate Fx;
  destruct y as [sy|sy| |sy my ey]; try discriminate Fy.
  - intros _. destruct sx, sy; vm_compute; reflexivity.
  - unfold float_eq, SFeqb. cbn. destruct sy; discriminate.
  - unfold float_eq, SFeqb. cbn. destruct sx; discriminate.
  - destruct (finite_nonneg_sign sx mx ex Lx) as [-> _].
    destruct (finite_nonneg_sign sy my ey Ly) as [-> _].
    unfold float_eq, SFeqb. cbn [SFcompare].
    destruct (Z.compare_spec ex ey) as [E|E|E]; try discriminate.
    rewrite Pos.compare_cont_spec.
    destruct (Pos.compare_spec mx my) as [M|M|M]; cbn; try discriminate.
    intros _. subst. reflexivity.
Qed.

Lemma float_eq_refl_unit_interval (x : spec_float) :
  unit_interval x -> float_eq x x = true.
Proof.
  intros (_ & F & L & _). destruct x as [s|s| |s m e]; try discriminate F.
  - reflexivity.
  - destruct (finite_nonneg_sign s m e L) as [-> _].
    unfold float_eq, SFeqb. cbn [SFcompare].
    rewrite Z.compare_refl, Pos.compare_cont_spec, Pos.compare_refl. reflexivity.
Qed.

(** C9.  For every call to [render] that completes, against every driver:
    each channel is replaced by [advanceChannel] of its old value; if the
    four channels are binary32 values of [0, 1) before the call, they are
    so after it; channels that hold the same value before the call hold
    the same value after it, and channels of [0, 1) that compare equal
    with [==] before the call compare equal after it. *)
Theorem render_preserves_unit_interval (d : Driver) (r r' : VkRenderer) (w : world d) :
  outcome (run d (render r) w) = Done r' ->
  let before := float32 (mClearColorValue r) in
  let after := float32 (mClearColorValue r') in
  (forall i, after i = advanceChannel (before i)) /\
  ((forall i, (0 <= i < 4)%Z -> unit_interval (before i)) ->
   forall i, (0 <= i < 4)%Z -> unit_interval (after i)) /\
  (forall i j, before i = before j -> after i = after j) /\
  (forall i j, unit_interval (before i) -> unit_interval (before j) ->
               float_eq (before i) (before j) = true ->
               float_eq (after i) (after j) = true).
Proof.
  intros H before after.
  assert (A : forall i, after i = advanceChannel (before i))
    by (intro i; apply (render_channel d r r' w i H)).
  split; [exact A|]. split; [|split].
  - intros U i Hi. rewrite A. apply advanceChannel_spec, U, Hi.
  - intros i j E. rewrite !A, E. reflexivity.
  - intros i j Ui Uj E. rewrite !A.
    rewrite (float_eq_unit_interval _ _ Ui Uj E).
    apply float_eq_refl_unit_interval, advanceChannel_spec, Uj.
Qed.

(** C1, as amended.  For every natural number [n], against every driver,
    [n] calls to [render] that complete replace each channel by the
    [n]-fold iterate of [advanceChannel]; a channel that starts as a
    binary32 value of [0, 1) ends in [0, 1) and within [n * step_error]
    (1e-7 per call) of its start value plus [n * 0.01], modulo 1. *)
Theorem renderTimes_advances_channels (d : Driver) (n : nat) (r r' : VkRenderer)
  (w : world d) :
  outcome (run d (renderTimes n r) w) = Done r' ->
  let before := float32 (mClearColorValue r) in
  let after := float32 (mClearColorValue r') in
  forall i, (0 <= i < 4)%Z ->
    after i = Nat.iter n advanceChannel (before i) /\
    (unit_interval (before i) ->
     unit_interval (after i) /\
     near_mod_1 (inject_Z (Z.of_nat n) * step_error)
       (F2Q (after i)) (F2Q (before i) + inject_Z (Z.of_nat n) * (1 # 100))).
Proof.
  intros H before after i Hi.
  assert (A : after i = Nat.iter n advanceChannel (before i))
    by apply (renderTimes_channel d n r r' w i H).
  split; [exact A|]. intro U. rewrite A. apply iterate_advanceChannel, U.
Qed.

Lemma unit_interval_zero : unit_interval (S754_zero false).
Proof. repeat split; vm_compute; congruence. Qed.

Lemma black_unit_interval (i : Z) : unit_interval (float32 Scenario.black i).
Proof.
  unfold float32. destruct (i =? 0)%Z; [exact unit_interval_zero|].
  destruct (i =? 1)%Z; [exact unit_interval_zero|].
  destruct (i =? 2)%Z; exact unit_interval_zero.
Qed.

(** The first frame on the phone, starting from the colour (0, 0, 0, 0). *)
Lemma render_preserves_unit_interval_witness :
  let r' := with_clear_color Scenario.phoneRenderer (updateClearColor Scenario.black) in
  outcome Replay.firstFrame = Done r' /\
  unit_interval (float32 (mClearColorValue r') 0) /\
  float32 (mClearColorValue r') 0 = float32 (mClearColorValue r') 3 /\
  float_eq (float32 (mClearColorValue r') 1) (float32 (mClearColorValue r') 2) = true.
Proof.
  intro r'.
  assert (H : outcome Replay.firstFrame = Done r') by (vm_compute; reflexivity).
  destruct (render_preserves_unit_interval (Sim.driver Sim.phone)
              Scenario.phoneRenderer r' Replay.phoneWorld H) as (_ & U & S & E).
  split; [exact H|]. split; [|split].
  - apply U; [intros i _; apply black_unit_interval | lia].
  - apply S. reflexivity.
  - apply E; try apply black_unit_interval. reflexivity.
Defined.

(** One hundred frames on the phone, starting from the colour (0, 0, 0, 0). *)
Lemma renderTimes_advances_channels_witness :
  outcome Replay.hundredFrames = Done Replay.afterHundredFrames /\
  float32 (mClearColorValue Replay.afterHundredFrames) 0 =
    Nat.iter 100 advanceChannel (S754_zero false) /\
  unit_interval (float32 (mClearColorValue Replay.afterHundredFrames) 0) /\
  near_mod_1 (inject_Z 100 * step_error)
    (F2Q (float32 (mClearColorValue Replay.afterHundredFrames) 0))
    (F2Q (S754_zero false) + inject_Z 100 * (1 # 100)).
Proof.
  assert (H : outcome Replay.hundredFrames = Done Replay.afterHundredFrames)
    by (vm_compute; reflexivity).
  destruct (renderTimes_advances_channels (Sim.driver Sim.phone) 100
              Scenario.phoneRenderer Replay.afterHundredFrames Replay.phoneWorld H
              0%Z ltac:(lia)) as [A B].
  split; [exact H|]. split; [exact A|].
  apply (B (black_unit_interval 0)).
Defined.

(** C1, as stated, fails.  On the phone, starting from the colour
    (0, 0, 0, 0), one hundred calls to [render] leave 0x3f7ffff5, that is
    16777205 * 2^-24 = 0.99999934..., in channel 0: the channel has not
    returned to its start value and is not congruent to start + 100 * 0.01
    modulo 1.  And a channel that starts at 2^24 is at 0 after one call:
    it advanced by a multiple of 1, not by 0.01. *)
Lemma hundred_frames_do_not_return_to_start :
  let start := float32 (mClearColorValue Scenario.phoneRenderer) 0 in
  let finish := float32 (mClearColorValue Replay.afterHundredFrames) 0 in
  outcome Replay.hundredFrames = Done Replay.afterHundredFrames /\
  start = S754_zero false /\
  finish = S754_finite false 16777205 (-24) /\
  float_eq finish start = false /\
  ~ near_mod_1 0 (F2Q finish) (F2Q start + inject_Z 100 * (1 # 100)) /\
  advanceChannel (S754_finite false 8388608 1) = S754_zero false /\
  ~ near_mod_1 0 (F2Q (advanceChannel (S754_finite false 8388608 1)))
                 (F2Q (S754_finite false 8388608 1) + (1 # 100)).
Proof.
  intros start finish.
  split; [vm_compute; reflexivity|].
  split; [reflexivity|]. split; [reflexivity|]. split; [reflexivity|].
  split; [|split; [vm_compute; reflexivity|]].
  - intros [k H]. apply Qabs_Qle_condition in H. destruct H as [H1 H2].
    set (q := F2Q finish - (F2Q start + inject_Z 100 * (1 # 100))) in *.
    vm_compute in q. subst q.
    revert H1 H2. unfold Qle, Qplus, Qopp, inject_Z. cbn [Qnum Qden]. lia.
  - intros [k H]. apply Qabs_Qle_condition in H. destruct H as [H1 H2].
    set (q := F2Q (advanceChannel (S754_finite false 8388608 1)) -
              (F2Q (S754_finite false 8388608 1) + (1 # 100))) in *.
    vm_compute in q. subst q.
    revert H1 H2. unfold Qle, Qplus, Qopp, inject_Z. cbn [Qnum Qden]. lia.
Qed.

(** * Further properties *)

Open Scope Z_scope.
Set Implicit Arguments.
Import Frames.

Section FrameEdges.
Variable d : Driver.

(** X1.  Against every driver: a frame has undefined behaviour exactly when the
    acquisition succeeds with an image index outside the swapchain images
    it indexes with, below 0 or not below their number; the index is used
    as returned, with no check. *)
Theorem render_image_index_out_of_range (r : VkRenderer) (w : world d) :
  let acquire := vkAcquireNextImageKHR (mDevice r) (mSwapchain r) UINT64_MAX
                   (mImageAcquisitionSemaphore r) (mFence r) in
  let answer := fst (reply d acquire w) in
  let R := run d (render r) w in
  outcome R = UB <->
  (fst answer = VK_SUCCESS /\
   (snd answer < 0 \/ Z.of_nat (List.length (mSwapchainImages r)) <= snd answer)).
Proof.
  intros acquire answer R. subst R answer acquire.
  unfold render. exec.
  all: repeat match goal with
       | H : (_ <? _) = true |- _ => apply Z.ltb_lt in H
       | H : (_ <? _) = false |- _ => apply Z.ltb_ge in H
       | H : nth_error _ _ = None |- _ => apply nth_error_None in H
       | H : nth_error ?l ?n = Some _ |- _ =>
           assert (n < List.length l)%nat by (apply nth_error_Some; congruence); clear H
       end.
  all: split; try discriminate.
  all: try (intros _; reflexivity).
  all: try (intros _; split; [reflexivity|lia]).
  all: intros [? ?]; try contradiction; exfalso; lia.
Qed.

Lemma render_silent (r : VkRenderer) (w : world d) :
  creations (trace (run d (render r) w)) = [] /\
  destructions (trace (run d (render r) w)) = [].
Proof.
  unfold render, creations, destructions. exec; split; reflexivity.
Qed.

Lemma with_clear_color_twice (r : VkRenderer) (c c' : VkClearColorValue) :
  with_clear_color (with_clear_color r c) c' = with_clear_color r c'.
Proof. reflexivity. Qed.

(** X2.  Against every driver: any number of frames, completed or cut short,
    creates no object and destroys none.  When the [n] frames complete the
    renderer differs from the one they started with in its clear colour
    alone, which was updated [n] times: the handles and the swapchain
    images stay those of setup. *)
Theorem renderTimes_keeps_objects (n : nat) (r : VkRenderer) (w : world d) :
  let R := run d (renderTimes n r) w in
  creations (trace R) = [] /\
  destructions (trace R) = [] /\
  (forall r', outcome R = Done r' ->
     r' = with_clear_color r (Nat.iter n updateClearColor (mClearColorValue r)) /\
     mSwapchainImages r' = mSwapchainImages r /\
     mCommandBuffer r' = mCommandBuffer r /\ mFence r' = mFence r /\
     mImageAcquisitionSemaphore r' = mImageAcquisitionSemaphore r /\
     mRenderCompletionSemaphore r' = mRenderCompletionSemaphore r).
Proof.
  revert r w. induction n as [|n IH]; intros r w.
  - cbn. split; [reflexivity|split; [reflexivity|]].
    intros r' H. inversion H; subst. destruct r'; repeat split; reflexivity.
  - cbn [renderTimes]. rewrite run_bind. unfold then_run.
    destruct (render_silent r w) as [C D].
    destruct (outcome (run d (render r) w)) as [r1| |] eqn:O; cbn [trace outcome].
    + destruct (IH r1 (final (run d (render r) w))) as (C' & D' & E).
      unfold creations, destructions in *. rewrite !flat_map_app, C, D, C', D'.
      split; [reflexivity|split; [reflexivity|]]. intros r' H.
      destruct (E _ H) as (-> & _). rewrite (render_done d r w O).
      repeat split.
      all: cbn [mClearColorValue with_clear_color mSwapchainImages mCommandBuffer mFence
                mImageAcquisitionSemaphore mRenderCompletionSemaphore].
      all: try reflexivity.
      rewrite Nat.iter_succ_r. reflexivity.
    + repeat split; try assumption; discriminate.
    + repeat split; try assumption; discriminate.
Qed.

End FrameEdges.
Import Monitor Layouts.

Section MonitorFacts.
Variable S : Type.
Variable step : S -> Event -> option S.

Lemma monitor_app (s : S) (t t' : list Event) :
  monitor step s (t ++ t') =
  match monitor step s t with
  | Some s' => monitor step s' t'
  | None => None
  end.
Proof.
  revert s. induction t as [|e t IH]; intro s; cbn; [reflexivity|].
  destruct (step s e); [apply IH | reflexivity].
Qed.

End MonitorFacts.

Section CallsOnlyFacts.
Variable P : forall X, VkCall X -> Prop.

Lemma CallsOnly_bind A B (p : Prog A) (f : A -> Prog B) :
  CallsOnly P p -> (forall a, CallsOnly P (f a)) -> CallsOnly P (bind p f).
Proof.
  intros Hp Hf. induction Hp; cbn; try constructor; auto.
Qed.

Lemma CallsOnly_call X (c : VkCall X) : P c -> CallsOnly P (call c).
Proof. intro H. constructor; [exact H | constructor]. Qed.

Lemma CallsOnly_check X (line : Z) (c : VkCall (VkResult * X)) :
  P c -> CallsOnly P (VK_CHECK_ERROR line c).
Proof.
  intro H. constructor; [exact H|]. intro x.
  destruct (fst x =? VK_SUCCESS); constructor.
Qed.

Lemma CallsOnly_assert (line : Z) (e : string) (c : bool) : CallsOnly P (assert line e c).
Proof. destruct c; constructor. Qed.

Lemma CallsOnly_at_index A (v : list A) (i : Z) : CallsOnly P (at_index v i).
Proof.
  unfold at_index. destruct (i <? 0); [constructor|].
  destruct (nth_error v (Z.to_nat i)); constructor.
Qed.

Lemma CallsOnly_secondCall A (zero : A) (count : N) (query : Prog N)
  (fetch : Prog (list A)) :
  CallsOnly P query -> CallsOnly P fetch ->
  CallsOnly P (secondCall zero count query fetch).
Proof.
  intros Q F. unfold secondCall.
  destruct (count =? 0)%N; (apply CallsOnly_bind; [assumption|intro; constructor]).
Qed.

Lemma CallsOnly_defined A (o : option A) : CallsOnly P (defined o).
Proof. destruct o; constructor. Qed.

Lemma CallsOnly_trace A (p : Prog A) (d : Driver) (w : world d) :
  CallsOnly P p ->
  Forall (fun e => match e with Ev c _ => P c end) (trace (run d p w)).
Proof.
  intro H. revert w. induction H; intro w; cbn; constructor; auto.
Qed.

End CallsOnlyFacts.
Import Calls.

(** ** The steps of the constructor *)

Ltac calls_only :=
  repeat first
    [ apply CallsOnly_bind; [|intro]
    | apply CallsOnly_check
    | apply CallsOnly_call
    | apply CallsOnly_assert
    | apply CallsOnly_at_index
    | apply CallsOnly_secondCall
    | apply CallsOnly_defined
    | apply CallsOnly_Ret
    | match goal with
      | |- CallsOnly _ (let '(_, _) := ?x in _) => destruct x
      end ];
  try reflexivity.

Lemma createInstance_calls : CallsOnly QueryOrCreate createInstance.
Proof. unfold createInstance. calls_only. Qed.

Lemma selectPhysicalDevice_calls inst : CallsOnly QueryOrCreate (selectPhysicalDevice inst).
Proof. unfold selectPhysicalDevice. calls_only. Qed.

Lemma createDevice_calls pd : CallsOnly QueryOrCreate (createDevice pd).
Proof. unfold createDevice. calls_only. Qed.

Lemma createSurface_calls win inst pd q : CallsOnly QueryOrCreate (createSurface win inst pd q).
Proof. unfold createSurface. calls_only. Qed.

Lemma createSwapchain_calls pd dev surf : CallsOnly QueryOrCreate (createSwapchain pd dev surf).
Proof. unfold createSwapchain, selectSurfaceFormat, selectPresentMode. calls_only. Qed.

Lemma createCommandPool_calls dev q : CallsOnly QueryOrCreate (createCommandPool dev q).
Proof. unfold createCommandPool. calls_only. Qed.

Lemma allocateCommandBuffer_calls dev pool :
  CallsOnly QueryOrCreate (allocateCommandBuffer dev pool).
Proof. unfold allocateCommandBuffer. calls_only. Qed.

Lemma createSyncObjects_calls dev : CallsOnly QueryOrCreate (createSyncObjects dev).
Proof. unfold createSyncObjects. calls_only. Qed.

Section Phases.
Variable d : Driver.

(** A completed constructor is the succession of its nine steps. *)
Lemma constructor_phases (color : VkClearColorValue) (window : Handle) (w : world d)
  (r : VkRenderer) :
  outcome (run d (constructor color window) w) = Done r ->
  let R1 := run d createInstance w in
  let R2 := run d (selectPhysicalDevice (mInstance r)) (final R1) in
  let R3 := run d (createDevice (mPhysicalDevice r)) (final R2) in
  let R4 := run d (createSurface window (mInstance r) (mPhysicalDevice r)
                     (mQueueFamilyIndex r)) (final R3) in
  let R5 := run d (createSwapchain (mPhysicalDevice r) (mDevice r) (mSurface r)) (final R4) in
  let R6 := run d (createCommandPool (mDevice r) (mQueueFamilyIndex r)) (final R5) in
  let R7 := run d (allocateCommandBuffer (mDevice r) (mCommandPool r)) (final R6) in
  let R8 := run d (transitionSwapchainImages (mQueue r) (mCommandBuffer r)
                     (mSwapchainImages r)) (final R7) in
  let R9 := run d (createSyncObjects (mDevice r)) (final R8) in
  outcome R1 = Done (mInstance r) /\
  outcome R2 = Done (mPhysicalDevice r) /\
  outcome R3 = Done (mQueueFamilyIndex r, mDevice r, mQueue r) /\
  outcome R4 = Done (mSurface r) /\
  outcome R5 = Done (mSwapchain r, mSwapchainImages r) /\
  outcome R6 = Done (mCommandPool r) /\
  outcome R7 = Done (mCommandBuffer r) /\
  outcome R8 = Done tt /\
  outcome R9 = Done (mFence r, mImageAcquisitionSemaphore r, mRenderCompletionSemaphore r) /\
  mClearColorValue r = color /\
  trace (run d (constructor color window) w) =
    trace R1 ++ trace R2 ++ trace R3 ++ trace R4 ++ trace R5 ++ trace R6 ++ trace R7 ++
    trace R8 ++ trace R9.
Proof.
  unfold constructor. intro H.
  apply run_bind_done in H as (inst & H1 & H & -> & _).
  apply run_bind_done in H as (pd & H2 & H & -> & _).
  apply run_bind_done in H as ([[q dev] queue] & H3 & H & -> & _).
  apply run_bind_done in H as (surf & H4 & H & -> & _).
  apply run_bind_done in H as ([sc images] & H5 & H & -> & _).
  apply run_bind_done in H as (pool & H6 & H & -> & _).
  apply run_bind_done in H as (cb & H7 & H & -> & _).
  apply run_bind_done in H as ([] & H8 & H & -> & _).
  apply run_bind_done in H as ([[f a] c] & H9 & H & -> & _).
  cbn in H. inversion H; subst; clear H. cbn [trace].
  cbn [mInstance mPhysicalDevice mQueueFamilyIndex mDevice mQueue mSurface mSwapchain
       mSwapchainImages mCommandPool mCommandBuffer mFence mImageAcquisitionSemaphore
       mRenderCompletionSemaphore mClearColorValue].
  rewrite app_nil_r.
  exact (conj H1 (conj H2 (conj H3 (conj H4 (conj H5 (conj H6 (conj H7 (conj H8
          (conj H9 (conj eq_refl eq_refl)))))))))).
Qed.

End Phases.

(** ** Monitors over the constructor *)

Section SetupMonitors.
Variable d : Driver.
Variable S : Type.
Variable step : S -> Event -> option S.
Hypothesis step_setup :
  forall X (c : VkCall X) (x : X) (s : S), queryOrCreate c = true -> step s (Ev c x) = Some s.

Lemma monitor_setup A (p : Prog A) (w : world d) (s : S) :
  CallsOnly QueryOrCreate p -> monitor step s (trace (run d p w)) = Some s.
Proof.
  intro H. apply (CallsOnly_trace d w) in H.
  induction H as [|[X c x] tr Hc _ IH]; cbn; [reflexivity|].
  rewrite (step_setup c x s Hc). exact IH.
Qed.

(** A monitor that lets queries and creations pass sees, of a completed
    constructor, the recording and submission of the initial layout
    transitions only. *)
Lemma constructor_monitor (color : VkClearColorValue) (window : Handle) (w : world d)
  (r : VkRenderer) (s : S) :
  outcome (run d (constructor color window) w) = Done r ->
  exists w',
    outcome (run d (transitionSwapchainImages (mQueue r) (mCommandBuffer r)
                      (mSwapchainImages r)) w') = Done tt /\
    monitor step s (trace (run d (constructor color window) w)) =
    monitor step s (trace (run d (transitionSwapchainImages (mQueue r) (mCommandBuffer r)
                                    (mSwapchainImages r)) w')).
Proof.
  intro H.
  destruct (constructor_phases d color window w H)
    as (_ & _ & _ & _ & _ & _ & _ & H8 & _ & _ & T).
  eexists. split; [exact H8|]. rewrite T.
  rewrite monitor_app, (monitor_setup _ _ createInstance_calls).
  rewrite monitor_app, (monitor_setup _ _ (selectPhysicalDevice_calls _)).
  rewrite monitor_app, (monitor_setup _ _ (createDevice_calls _)).
  rewrite monitor_app, (monitor_setup _ _ (createSurface_calls _ _ _ _)).
  rewrite monitor_app, (monitor_setup _ _ (createSwapchain_calls _ _ _)).
  rewrite monitor_app, (monitor_setup _ _ (createCommandPool_calls _ _)).
  rewrite monitor_app, (monitor_setup _ _ (allocateCommandBuffer_calls _ _)).
  rewrite monitor_app.
  match goal with |- match ?m with _ => _ end = _ => destruct m as [s'|]; [|reflexivity] end.
  apply (monitor_setup _ _ (createSyncObjects_calls _)).
Qed.

End SetupMonitors.

(** ** Image layouts *)

Lemma layoutStep_setup (images : list Handle) X (c : VkCall X) (x : X) (l : Layouts) :
  queryOrCreate c = true -> layoutStep images l (Ev c x) = Some l.
Proof. destruct c; try discriminate; reflexivity. Qed.

Lemma toPresent_spec (imgs : list Handle) (l : Layouts) (h : Handle) :
  (In h imgs -> toPresent imgs l h = VK_IMAGE_LAYOUT_PRESENT_SRC_KHR) /\
  (~ In h imgs -> toPresent imgs l h = l h).
Proof.
  revert l. induction imgs as [|i imgs IH]; intro l; cbn.
  - split; [contradiction | reflexivity].
  - destruct (IH (setLayout l i VK_IMAGE_LAYOUT_PRESENT_SRC_KHR)) as [In' Out'].
    destruct (in_dec Z.eq_dec h imgs) as [I|I].
    + split; [intros _; exact (In' I) | intro N; exfalso; apply N; right; exact I].
    + unfold toPresent in *. cbn. rewrite (Out' I). unfold setLayout.
      destruct (Z.eqb_spec h i) as [E|E].
      * split; [reflexivity | intro N; exfalso; apply N; left; symmetry; exact E].
      * split; [intros [F|F]; [symmetry in F|]; contradiction | reflexivity].
Qed.

Section LayoutsOfSetup.
Variable d : Driver.

Lemma recordInitialLayouts_layouts (images : list Handle) (cb : Handle) (imgs : list Handle)
  (w : world d) (l : Layouts) :
  layoutMonitor images l (trace (run d (recordInitialLayouts cb imgs) w)) =
  Some (toPresent imgs l).
Proof.
  revert w l. induction imgs as [|i imgs IH]; intros w l; [reflexivity|].
  cbn [recordInitialLayouts]. rewrite run_bind, run_call. unfold then_run.
  cbn [outcome trace final app]. unfold layoutMonitor in *. cbn [monitor].
  cbn [layoutStep applyBarriers applyBarrier presentBarrier oldLayout newLayout image].
  apply IH.
Qed.

Lemma transitionSwapchainImages_layouts (images : list Handle) (queue cb : Handle)
  (imgs : list Handle) (w : world d) (l : Layouts) :
  let R := run d (transitionSwapchainImages queue cb imgs) w in
  exists l', layoutMonitor images l (trace R) = Some l' /\
             (outcome R = Done tt -> l' = toPresent imgs l).
Proof.
  unfold transitionSwapchainImages. cbn zeta.
  rewrite run_bind, run_check. unfold then_run. cbn [outcome trace final].
  status_test; [|eexists; split; [reflexivity | discriminate]].
  rewrite run_bind. unfold then_run.
  destruct (recordInitialLayouts_run d cb imgs (snd (reply d
    (vkBeginCommandBuffer cb {| cb_flags := VK_COMMAND_BUFFER_USAGE_ONE_TIME_SUBMIT_BIT |}) w)))
    as [O _].
  rewrite O. cbn [outcome trace final].
  unfold layoutMonitor. cbn [app monitor layoutStep]. rewrite monitor_app.
  fold (layoutMonitor images). rewrite recordInitialLayouts_layouts.
  exec; eexists; split; try reflexivity; try discriminate.
Qed.

(** X3.  Against every driver: in a setup that completes, every layout
    transition, clear and presentation is consistent with the layouts the
    earlier commands left, starting from all images undefined; at the end
    every swapchain image is in the layout for presentation, and every
    other image still undefined. *)
Theorem constructor_establishes_present_layout (color : VkClearColorValue) (window : Handle)
  (w : world d) (r : VkRenderer) :
  outcome (run d (constructor color window) w) = Done r ->
  exists l,
    layoutMonitor (mSwapchainImages r) undefinedLayouts
      (trace (run d (constructor color window) w)) = Some l /\
    allPresentable (mSwapchainImages r) l /\
    (forall h, ~ In h (mSwapchainImages r) -> l h = VK_IMAGE_LAYOUT_UNDEFINED).
Proof.
  intro H.
  destruct (constructor_monitor d (layoutStep (mSwapchainImages r))
              (layoutStep_setup (mSwapchainImages r)) color window w undefinedLayouts H)
    as (w' & O & M).
  destruct (transitionSwapchainImages_layouts (mSwapchainImages r) (mQueue r)
              (mCommandBuffer r) (mSwapchainImages r) w' undefinedLayouts) as (l & L & E).
  exists l. unfold layoutMonitor in *. rewrite M. split; [exact L|].
  rewrite (E O). split.
  - intros img I. apply toPresent_spec, I.
  - intros h N. apply (proj2 (toPresent_spec (mSwapchainImages r) undefinedLayouts h) N).
Qed.

End LayoutsOfSetup.

Section LayoutsOfFrames.
Variable d : Driver.



End LayoutsOfFrames.

(** ** The fence, over any number of frames *)

Import Discipline.

Lemma fenceMonitor_monitor (fence cb : Handle) (tr : list Event) (k : FenceKnowledge) :
  fenceMonitor fence cb k (frameSteps tr) =
  match monitor (fenceStep fence cb) k tr with
  | Some _ => true
  | None => false
  end.
Proof.
  revert k. induction tr as [|e tr IH]; intro k; [reflexivity|].
  unfold frameSteps in *. cbn [map fenceMonitor monitor]. unfold fenceStep.
  destruct (frameStep e) as [sem f t st i|fs wa t st|fs st|c st|c st|c|c st|q ss f st|q i st|];
    cbn [rerecords]; try apply IH.
  - destruct (f =? fence); apply IH.
  - destruct fs as [|f [|f' fs]]; cbn [rerecords]; try apply IH.
    destruct ((f =? fence) && (wa =? VK_TRUE) && (t =? UINT64_MAX) && (st =? VK_SUCCESS));
      apply IH.
  - destruct fs as [|f [|f' fs]]; cbn [rerecords]; try apply IH.
    destruct ((f =? fence) && (st =? VK_SUCCESS)); [|apply IH].
    destruct k; try reflexivity. apply IH.
  - destruct (c =? cb); [|apply IH]. destruct k; try reflexivity. apply IH.
  - destruct (c =? cb); [|apply IH]. destruct k; try reflexivity. apply IH.
  - destruct (c =? cb); [|apply IH]. destruct k; try reflexivity. apply IH.
Qed.

Section FenceOverFrames.
Variable d : Driver.

Lemma render_fence (r : VkRenderer) (w : world d) (k : FenceKnowledge) :
  exists k', monitor (fenceStep (mFence r) (mCommandBuffer r)) k
               (trace (run d (render r) w)) = Some k'.
Proof.
  unfold render. exec.
  all: unfold fenceStep; cbn -[Z.eqb];
       repeat (rewrite ?Z.eqb_refl; cbn -[Z.eqb]);
       eexists; reflexivity.
Qed.

(** X5.  Against every driver: over any number of frames, completed or cut
    short, the command buffer is reset or recorded only when, since the
    last acquisition that was handed the fence, an unbounded wait for the
    fence has succeeded and the fence has then been reset successfully;
    and the fence is reset only right after such a wait. *)
Theorem renderTimes_fence_before_rerecording (n : nat) (r : VkRenderer) (w : world d) :
  fenceMonitor (mFence r) (mCommandBuffer r) Pending
    (frameSteps (trace (run d (renderTimes n r) w))) = true.
Proof.
  rewrite fenceMonitor_monitor.
  assert (H : forall k, exists k',
             monitor (fenceStep (mFence r) (mCommandBuffer r)) k
               (trace (run d (renderTimes n r) w)) = Some k').
  { revert r w. induction n as [|n IH]; intros r w k.
    - exists k. reflexivity.
    - cbn [renderTimes]. rewrite run_bind. unfold then_run.
      destruct (render_fence r w k) as [k1 M1].
      destruct (outcome (run d (render r) w)) as [r1| |] eqn:O; cbn [trace outcome];
        [|exists k1; exact M1 ..].
      rewrite monitor_app, M1.
      replace (mFence r) with (mFence r1) by (rewrite (render_done d r w O); reflexivity).
      replace (mCommandBuffer r) with (mCommandBuffer r1)
        by (rewrite (render_done d r w O); reflexivity).
      apply IH. }
  destruct (H Pending) as [k' ->]. reflexivity.
Qed.

End FenceOverFrames.

(** ** Monitors over the frames *)

Section FrameMonitors.
Variable d : Driver.
Variable S : Type.
Variable step : VkRenderer -> S -> Event -> option S.
Variable I : S -> Prop.
Hypothesis step_handles :
  forall r color, step (with_clear_color r color) = step r.
Hypothesis frame :
  forall r (w : world d) s, I s ->
    exists s', monitor (step r) s (trace (run d (render r) w)) = Some s' /\
               (forall r', outcome (run d (render r) w) = Done r' -> I s').

(** What every frame keeps, any number of frames keeps. *)
Lemma frames_monitor (n : nat) (r : VkRenderer) (w : world d) (s : S) :
  I s ->
  exists s', monitor (step r) s (trace (run d (renderTimes n r) w)) = Some s' /\
             (forall r', outcome (run d (renderTimes n r) w) = Done r' -> I s').
Proof.
  revert r w s. induction n as [|n IH]; intros r w s Hs.
  - exists s. split; [reflexivity | intros; exact Hs].
  - cbn [renderTimes]. rewrite run_bind. unfold then_run.
    destruct (frame r w Hs) as (s1 & M1 & I1).
    destruct (outcome (run d (render r) w)) as [r1| |] eqn:O; cbn [trace outcome].
    + destruct (IH r1 (final (run d (render r) w)) s1 (I1 r1 eq_refl)) as (s2 & M2 & I2).
      exists s2. rewrite monitor_app, M1. split; [|exact I2].
      assert (Es : step r1 = step r)
        by (rewrite (render_done d r w O); apply step_handles).
      rewrite Es in M2. exact M2.
    + exists s1. split; [exact M1 | discriminate].
    + exists s1. split; [exact M1 | discriminate].
Qed.

End FrameMonitors.

(** ** Recording and submitting the command buffer *)

Lemma recordingStep_setup (cb : Handle) X (c : VkCall X) (x : X) (s : Recording) :
  queryOrCreate c = true -> recordingStep cb s (Ev c x) = Some s.
Proof. destruct c; try discriminate; reflexivity. Qed.

Section RecordingDiscipline.
Variable d : Driver.

Lemma recordInitialLayouts_recording (cb : Handle) (imgs : list Handle) (w : world d) :
  monitor (recordingStep cb) Open (trace (run d (recordInitialLayouts cb imgs) w)) = Some Open.
Proof.
  revert w. induction imgs as [|i imgs IH]; intro w; [reflexivity|].
  cbn [recordInitialLayouts]. rewrite run_bind, run_call. unfold then_run.
  cbn [outcome trace final app monitor]. unfold recordingStep at 1. cbn [frameStep].
  rewrite Z.eqb_refl. apply IH.
Qed.

Lemma transitionSwapchainImages_recording (queue cb : Handle) (imgs : list Handle)
  (w : world d) :
  let R := run d (transitionSwapchainImages queue cb imgs) w in
  exists s', monitor (recordingStep cb) Blank (trace R) = Some s' /\
             (outcome R = Done tt -> s' = Blank).
Proof.
  unfold transitionSwapchainImages. cbn zeta.
  rewrite run_bind, run_check. unfold then_run. cbn [outcome trace final].
  status_test;
    [|cbn [trace monitor]; unfold recordingStep; cbn [frameStep]; rewrite Z.eqb_refl;
      eexists; split; [reflexivity | discriminate]].
  rewrite run_bind. unfold then_run.
  destruct (recordInitialLayouts_run d cb imgs (snd (reply d
    (vkBeginCommandBuffer cb {| cb_flags := VK_COMMAND_BUFFER_USAGE_ONE_TIME_SUBMIT_BIT |}) w)))
    as [O _].
  rewrite O. cbn [outcome trace final app monitor].
  unfold recordingStep at 1. cbn [frameStep fst]. rewrite Z.eqb_refl, S.
  change (VK_SUCCESS =? VK_SUCCESS) with true. cbn iota.
  rewrite monitor_app, recordInitialLayouts_recording.
  exec.
  all: unfold recordingStep, submitted; cbn -[Z.eqb];
       repeat (rewrite ?Z.eqb_refl; cbn -[Z.eqb]).
  all: eexists; split; [reflexivity|]; try discriminate; reflexivity.
Qed.

Lemma render_recording (r : VkRenderer) (w : world d) :
  exists s', monitor (recordingStep (mCommandBuffer r)) Blank
               (trace (run d (render r) w)) = Some s' /\
             (forall r', outcome (run d (render r) w) = Done r' -> s' = Blank).
Proof.
  unfold render. exec.
  all: unfold recordingStep, submitted; cbn -[Z.eqb];
       repeat (rewrite ?Z.eqb_refl; cbn -[Z.eqb]);
       repeat match goal with
              | |- context [if ?s =? VK_SUCCESS then _ else _] => destruct (s =? VK_SUCCESS)
              end; cbn -[Z.eqb].
  all: eexists; split; [reflexivity|]; intros r' Hr; try discriminate Hr; reflexivity.
Qed.

(** X6.  Against every driver: in a setup that completes, and in any number
    of frames after it, completed or cut short, commands are recorded into
    the command buffer and the recording is ended only while a recording
    is in progress, a recording is begun only when none is in progress,
    and the command buffer is submitted only with a recording that was
    ended successfully and has not been submitted before (it is recorded
    for one-time submission).  The setup and completed frames end with
    the recording submitted. *)
Theorem recording_discipline (color : VkClearColorValue) (window : Handle) (w : world d)
  (r : VkRenderer) :
  outcome (run d (constructor color window) w) = Done r ->
  monitor (recordingStep (mCommandBuffer r)) Blank
    (trace (run d (constructor color window) w)) = Some Blank /\
  forall (n : nat) (w' : world d),
    exists s', monitor (recordingStep (mCommandBuffer r)) Blank
                 (trace (run d (renderTimes n r) w')) = Some s' /\
               (forall r', outcome (run d (renderTimes n r) w') = Done r' -> s' = Blank).
Proof.
  intro H. split.
  - destruct (constructor_monitor d (recordingStep (mCommandBuffer r))
                (recordingStep_setup (mCommandBuffer r)) color window w Blank H)
      as (w' & O & M).
    rewrite M.
    destruct (transitionSwapchainImages_recording (mQueue r) (mCommandBuffer r)
                (mSwapchainImages r) w') as (s' & M' & E).
    rewrite M', (E O). reflexivity.
  - intros n w'.
    apply (frames_monitor d (fun r => recordingStep (mCommandBuffer r)) (fun s => s = Blank)).
    + reflexivity.
    + intros r0 w0 s ->. apply render_recording.
    + reflexivity.
Qed.

End RecordingDiscipline.

(** ** Waiting for the submission *)

Lemma submissionStep_setup (cb : Handle) X (c : VkCall X) (x : X)
  (p : option (Handle * Handle)) :
  queryOrCreate c = true -> submissionStep cb p (Ev c x) = Some p.
Proof. destruct c; try discriminate; destruct p as [[? ?]|]; reflexivity. Qed.

Section Submissions.
Variable d : Driver.

Lemma recordInitialLayouts_submission (cb : Handle) (imgs : list Handle) (w : world d) :
  monitor (submissionStep cb) None (trace (run d (recordInitialLayouts cb imgs) w)) = Some None.
Proof.
  revert w. induction imgs as [|i imgs IH]; intro w; [reflexivity|].
  cbn [recordInitialLayouts]. rewrite run_bind, run_call. unfold then_run.
  cbn [outcome trace final app monitor]. unfold submissionStep at 1.
  cbn [frameStep rerecords]. rewrite Z.eqb_refl. apply IH.
Qed.

Lemma transitionSwapchainImages_submission (queue cb : Handle) (imgs : list Handle)
  (w : world d) :
  let R := run d (transitionSwapchainImages queue cb imgs) w in
  exists p, monitor (submissionStep cb) None (trace R) = Some p /\
            (outcome R = Done tt -> p = None).
Proof.
  unfold transitionSwapchainImages. cbn zeta.
  rewrite run_bind, run_check. unfold then_run. cbn [outcome trace final].
  status_test;
    [|cbn [trace monitor]; unfold submissionStep; cbn [frameStep rerecords];
      rewrite Z.eqb_refl; eexists; split; [reflexivity | discriminate]].
  rewrite run_bind. unfold then_run.
  destruct (recordInitialLayouts_run d cb imgs (snd (reply d
    (vkBeginCommandBuffer cb {| cb_flags := VK_COMMAND_BUFFER_USAGE_ONE_TIME_SUBMIT_BIT |}) w)))
    as [O _].
  rewrite O. cbn [outcome trace final app monitor].
  unfold submissionStep at 1. cbn [frameStep rerecords]. rewrite Z.eqb_refl.
  rewrite monitor_app, recordInitialLayouts_submission.
  exec.
  all: unfold submissionStep, submitted, waitedFor; cbn -[Z.eqb];
       repeat (rewrite ?Z.eqb_refl; cbn -[Z.eqb]).
  all: repeat match goal with
       | S : ?s <> VK_SUCCESS |- context [?s =? VK_SUCCESS] =>
           rewrite (proj2 (Z.eqb_neq s VK_SUCCESS) S); cbn -[Z.eqb]
       end.
  all: eexists; split; [reflexivity|]; try discriminate; reflexivity.
Qed.

(** X7.  Against every driver: a setup that completes has waited for the queue
    to be idle after its one submission, so it leaves no submission that
    may still be executing. *)
Theorem constructor_waits_for_submission (color : VkClearColorValue) (window : Handle)
  (w : world d) (r : VkRenderer) :
  outcome (run d (constructor color window) w) = Done r ->
  monitor (submissionStep (mCommandBuffer r)) None
    (trace (run d (constructor color window) w)) = Some None.
Proof.
  intro H.
  destruct (constructor_monitor d (submissionStep (mCommandBuffer r))
              (submissionStep_setup (mCommandBuffer r)) color window w None H)
    as (w' & O & M).
  rewrite M.
  destruct (transitionSwapchainImages_submission (mQueue r) (mCommandBuffer r)
              (mSwapchainImages r) w') as (p & M' & E).
  rewrite M', (E O). reflexivity.
Qed.

Lemma render_submission (r : VkRenderer) (w : world d) :
  exists p, monitor (submissionStep (mCommandBuffer r)) None
              (trace (run d (render r) w)) = Some p /\
            (forall r', outcome (run d (render r) w) = Done r' ->
                        p = Some (mQueue r, VK_NULL_HANDLE)).
Proof.
  unfold render. exec.
  all: unfold submissionStep, submitted, waitedFor; cbn -[Z.eqb];
       repeat (rewrite ?Z.eqb_refl; cbn -[Z.eqb]).
  all: repeat match goal with
       | S : ?s <> VK_SUCCESS |- context [?s =? VK_SUCCESS] =>
           rewrite (proj2 (Z.eqb_neq s VK_SUCCESS) S); cbn -[Z.eqb]
       end.
  all: eexists; split; [reflexivity|]; intros r' Hr; try discriminate Hr; reflexivity.
Qed.

Lemma render_pending_submission (r r' : VkRenderer) (w : world d) (queue : Handle) :
  outcome (run d (render r) w) = Done r' ->
  monitor (submissionStep (mCommandBuffer r)) (Some (queue, VK_NULL_HANDLE))
    (trace (run d (render r) w)) = None.
Proof.
  unfold render. exec; intro H; try discriminate H.
  unfold submissionStep, submitted, waitedFor; cbn -[Z.eqb].
  repeat (rewrite ?Z.eqb_refl; cbn -[Z.eqb]). reflexivity.
Qed.

(** X8.  Against every driver: a frame submits its command buffer with no
    fence and waits for the queue nowhere, so a completed frame leaves its
    submission un-waited.  Hence two or more completed frames are not
    accepted by the monitor of submissions: the second frame resets the
    command buffer while nothing has waited for the first frame's
    submission (the fence it waits for is handed to the acquisition). *)
Theorem frames_do_not_wait_for_submission (r : VkRenderer) :
  (forall w : world d,
     exists p, monitor (submissionStep (mCommandBuffer r)) None
                 (trace (run d (render r) w)) = Some p /\
               (forall r', outcome (run d (render r) w) = Done r' ->
                           p = Some (mQueue r, VK_NULL_HANDLE))) /\
  (forall (n : nat) (w : world d) (r' : VkRenderer),
     outcome (run d (renderTimes (2 + n) r) w) = Done r' ->
     monitor (submissionStep (mCommandBuffer r)) None
       (trace (run d (renderTimes (2 + n) r) w)) = None).
Proof.
  split; [apply render_submission|].
  intros n w r' H. cbn [renderTimes Nat.add] in *.
  apply run_bind_done in H as (r1 & H1 & H & -> & _).
  apply run_bind_done in H as (r2 & H2 & H & -> & _).
  destruct (render_submission r w) as (p & M & E).
  rewrite monitor_app, M, (E r1 H1), monitor_app.
  replace (mCommandBuffer r) with (mCommandBuffer r1)
    by (rewrite (render_done d r w H1); reflexivity).
  rewrite (render_pending_submission r1 _ (mQueue r) H2). reflexivity.
Qed.

End Submissions.

(** ** The calls of a frame *)

Section FrameCalls.
Variable d : Driver.

Lemma names_app (t t' : list Event) : names (t ++ t') = names t ++ names t'.
Proof. apply map_app. Qed.

Lemma render_names (r : VkRenderer) (w : world d) :
  let R := run d (render r) w in
  (exists rest, names (trace R) ++ rest = frameCalls) /\
  (forall r', outcome R = Done r' -> names (trace R) = frameCalls).
Proof.
  unfold render, names. exec.
  all: split; [eexists; cbn; reflexivity | intros r' Hr; try discriminate Hr; reflexivity].
Qed.

(** X9.  Against every driver: the Vulkan entry points any number of frames
    call are, in order, a prefix of the same eleven per frame: acquire,
    wait for the fence, reset it, reset the command buffer, begin,
    barrier, clear, barrier, end, submit, present.  Completed frames call
    exactly these; a frame cut short calls none after the failing call. *)
Theorem renderTimes_call_sequence (n : nat) (r : VkRenderer) (w : world d) :
  let R := run d (renderTimes n r) w in
  (exists rest, names (trace R) ++ rest = List.concat (repeat frameCalls n)) /\
  (forall r', outcome R = Done r' -> names (trace R) = List.concat (repeat frameCalls n)) /\
  (List.length (names (trace R)) <= 11 * n)%nat.
Proof.
  cbn zeta.
  assert (H : (exists rest, names (trace (run d (renderTimes n r) w)) ++ rest =
                            List.concat (repeat frameCalls n)) /\
              (forall r', outcome (run d (renderTimes n r) w) = Done r' ->
                          names (trace (run d (renderTimes n r) w)) =
                          List.concat (repeat frameCalls n))).
  { revert r w. induction n as [|n IH]; intros r w.
    - split; [exists []; reflexivity | reflexivity].
    - cbn [renderTimes repeat List.concat]. rewrite run_bind. unfold then_run.
      destruct (render_names r w) as ([rest P] & C).
      destruct (outcome (run d (render r) w)) as [r1| |] eqn:O; cbn [trace outcome].
      + destruct (IH r1 (final (run d (render r) w))) as ([rest' P'] & C').
        rewrite names_app, (C r1 eq_refl). split.
        * exists rest'. rewrite <- app_assoc, P'. reflexivity.
        * intros r' Hr. rewrite (C' r' Hr). reflexivity.
      + split; [|discriminate].
        exists (rest ++ List.concat (repeat frameCalls n)). rewrite app_assoc, P. reflexivity.
      + split; [|discriminate].
        exists (rest ++ List.concat (repeat frameCalls n)). rewrite app_assoc, P. reflexivity. }
  destruct H as ([rest P] & C). split; [exists rest; exact P|]. split; [exact C|].
  assert (L : List.length (List.concat (repeat frameCalls n)) = (11 * n)%nat).
  { clear. induction n as [|n IH]; [reflexivity|].
    cbn [repeat List.concat]. rewrite length_app, IH. cbn [frameCalls List.length]. lia. }
  rewrite <- L, <- P, length_app. lia.
Qed.

(** X10.  Against every driver: a completed frame acquires one image index and
    records exactly three commands into its command buffer, all on the
    swapchain image at that index: a barrier from the top of the pipe to
    the transfer stage taking it to the transfer destination layout, a
    clear in that layout with the colour the renderer holds after the
    frame, which is the updated colour, and a barrier from the transfer
    stage to the bottom of the pipe taking it back to the layout for
    presentation. *)
Theorem render_clears_acquired_image (r r' : VkRenderer) (w : world d) :
  outcome (run d (render r) w) = Done r' ->
  exists index img,
    acquired (trace (run d (render r) w)) = [index] /\
    0 <= index /\
    nth_error (mSwapchainImages r) (Z.to_nat index) = Some img /\
    mClearColorValue r' = updateClearColor (mClearColorValue r) /\
    recorded (trace (run d (render r) w)) =
      [ Barrier (mCommandBuffer r) VK_PIPELINE_STAGE_TOP_OF_PIPE_BIT
          VK_PIPELINE_STAGE_TRANSFER_BIT [clearBarrier img];
        Clear (mCommandBuffer r) img VK_IMAGE_LAYOUT_TRANSFER_DST_OPTIMAL
          (mClearColorValue r');
        Barrier (mCommandBuffer r) VK_PIPELINE_STAGE_TRANSFER_BIT
          VK_PIPELINE_STAGE_BOTTOM_OF_PIPE_BIT [backToPresentBarrier img] ].
Proof.
  unfold render, acquired, recorded. exec; intro H; try discriminate H.
  inversion H; subst; clear H.
  match goal with
  | N : (?x <? 0) = false, I : nth_error _ _ = Some ?img |- _ =>
      exists x, img; apply Z.ltb_ge in N
  end.
  repeat split; auto.
Qed.

End FrameCalls.

(** ** Setup: devices and queue families *)

Lemma length_written A (capacity : N) (entries : list A) :
  (List.length (written capacity entries) <= N.to_nat capacity)%nat.
Proof. unfold written. rewrite length_firstn. lia. Qed.

Lemma length_filled A (capacity : N) (zero : A) (entries : list A) :
  List.length (filled capacity zero entries) = N.to_nat capacity.
Proof.
  unfold filled. rewrite length_app, repeat_length.
  pose proof (length_written capacity entries). lia.
Qed.

Section Devices.
Variable d : Driver.

(** X11.  Against every driver: selecting the physical device has undefined
    behaviour exactly when both enumeration calls succeed and the first
    reports no device: element 0 of an empty vector is read, with no check
    of the count.  It has then made the two enumeration calls, and the
    constructor, whose second phase it is, has undefined behaviour too. *)
Theorem selectPhysicalDevice_without_devices (inst : Handle) (w : world d) :
  let query := vkEnumeratePhysicalDevices inst QueryCount in
  let count := snd (fst (reply d query w)) in
  let fetch := vkEnumeratePhysicalDevices inst (Fetch count) in
  let R := run d (selectPhysicalDevice inst) w in
  (outcome R = UB <->
   fst (fst (reply d query w)) = VK_SUCCESS /\
   fst (fst (reply d fetch (snd (reply d query w)))) = VK_SUCCESS /\
   count = 0%N) /\
  (outcome R = UB ->
   names (trace R) = ["vkEnumeratePhysicalDevices"; "vkEnumeratePhysicalDevices"]%string) /\
  (forall color window (w0 : world d),
     outcome (run d createInstance w0) = Done inst ->
     final (run d createInstance w0) = w ->
     outcome R = UB ->
     outcome (run d (constructor color window) w0) = UB).
Proof.
  cbn zeta. split; [|split].
  - unfold selectPhysicalDevice. setup_exec.
    all: repeat match goal with
         | H : nth_error (filled ?c _ _) _ = None |- _ =>
             apply nth_error_None in H; rewrite length_filled in H
         | H : nth_error (filled ?c ?z ?e) ?n = Some _ |- _ =>
             assert (n < List.length (filled c z e))%nat
               by (apply nth_error_Some; congruence);
             clear H
         | H : (_ < List.length (filled _ _ _))%nat |- _ => rewrite length_filled in H
         end.
    all: change (Z.to_nat 0) with 0%nat in *.
    all: repeat match goal with
         | H : (_, _, _) = (_, _, _) |- _ => inversion H; subst; clear H
         end.
    all: split; try discriminate; try reflexivity;
         try (intros (? & ? & ?); try contradiction; lia).
    intros _. repeat split; try congruence. lia.
  - unfold selectPhysicalDevice, names. setup_exec; intro H; try discriminate H; reflexivity.
  - intros color window w0 H1 <- H2. unfold constructor.
    rewrite run_bind. unfold then_run. rewrite H1.
    rewrite run_bind. unfold then_run. rewrite H2. reflexivity.
Qed.

End Devices.

Lemma breakIndex_first A (test : A -> bool) (v rest : list A) (i : Z) :
  existsb test v = true ->
  exists k x,
    breakIndex test (v ++ rest) (List.length v) i = Some (i + Z.of_nat k) /\
    nth_error v k = Some x /\ test x = true /\ (k < List.length v)%nat /\
    forall j y, (j < k)%nat -> nth_error v j = Some y -> test y = false.
Proof.
  revert i. induction v as [|x v IH]; intros i H; simpl in *; [discriminate|].
  destruct (test x) eqn:Hx.
  - exists 0%nat, x. repeat split; auto; try lia. f_equal. lia.
  - destruct (IH (i + 1) H) as (k & y & E & N & T & L & F).
    exists (S k), y. repeat split; auto; try lia.
    + rewrite E. f_equal. lia.
    + intros [|j] z Hj Hz; cbn in Hz.
      * inversion Hz; subst. exact Hx.
      * apply (F j z); [lia | exact Hz].
Qed.

Section GraphicsFamily.
Variable d : Driver.

(** X12.  Against every driver: when a queue family the driver reported
    supports graphics, the queue family index used is that of the first
    such family, and nothing is undefined.  When the device-extension
    enumeration reports the swapchain extension exactly once, the device
    is requested of the physical device with one queue of that family;
    and when the device is created the phase completes with that index,
    having fetched queue 0 of that family. *)
Theorem createDevice_with_graphics_family (pd : Handle) (w : world d) :
  let query := vkGetPhysicalDeviceQueueFamilyProperties pd QueryCount in
  let count := fst (reply d query w) in
  let w1 := snd (reply d query w) in
  let fetch := vkGetPhysicalDeviceQueueFamilyProperties pd (Fetch count) in
  let families := written count (fst (reply d fetch w1)) in
  existsb graphicsCapable families = true ->
  let R := run d (createDevice pd) w in
  exists (k : nat) (family : VkQueueFamilyProperties),
    nth_error families k = Some family /\
    graphicsCapable family = true /\
    (forall j other,
        (j < k)%nat -> nth_error families j = Some other ->
        graphicsCapable other = false) /\
    outcome R <> UB /\
    (forall entries,
        Requests.reportedDeviceExtensions (trace R) = [entries] ->
        List.length (filter wantedDeviceExtension entries) = 1%nat ->
        deviceRequests (trace R) =
          [(pd, {| pQueueCreateInfos :=
                     [{| dq_queueFamilyIndex := Z.of_nat k; dq_queueCount := 1;
                         pQueuePriorities := [1] |}];
                   dci_ppEnabledExtensionNames := ["VK_KHR_swapchain"%string] |})]) /\
    (forall dev,
        creations (trace R) = [Device dev] ->
        exists queue, outcome R = Done (Z.of_nat k, dev, queue) /\
                      In (Ev (vkGetDeviceQueue dev (Z.of_nat k) 0) queue) (trace R)) /\
    (forall q dev queue, outcome R = Done (q, dev, queue) -> q = Z.of_nat k).
Proof.
  intros query count w1 fetch families H R.
  destruct (@breakIndex_first _ graphicsCapable families
              (repeat zeroQueueFamily (N.to_nat count - List.length families)) 0 H)
    as (k & x & E & N & T & L & F).
  exists k, x. split; [exact N|]. split; [exact T|]. split; [exact F|].
  assert (C : count <> 0%N).
  { intros C0. subst families. rewrite C0 in H. discriminate H. }
  assert (B : breakIndex graphicsCapable
                (filled count zeroQueueFamily (fst (reply d fetch w1)))
                (N.to_nat (N.of_nat (List.length families))) 0 = Some (Z.of_nat k)).
  { rewrite <- (Z.add_0_l (Z.of_nat k)), <- E. subst families.
    rewrite stored_count. reflexivity. }
  clear E N T L F H x. subst R. revert C B. generalize (Z.of_nat k) as index. clear k.
  intro index. subst families fetch count w1 query.
  unfold createDevice, deviceRequests, Requests.reportedDeviceExtensions, creations.
  setup_exec.
  all: intros Hc Hb; try (exfalso; apply Hc; reflexivity); try discriminate Hb;
       injection Hb as ->.
  all: split; [discriminate|].
  all: repeat match goal with
       | A : Nat.eqb (List.length (map _ (filter _ (filled ?c _ ?e)))) 1 = _ |- _ =>
           rewrite (filter_filled wantedDeviceExtension c e eq_refl), length_map in A
       end.
  all: split;
    [ intros entries I L; cbn in I; try discriminate I; injection I as <-;
      try (match goal with A : Nat.eqb _ 1 = false |- _ =>
             rewrite L in A; discriminate A end);
      rewrite (filter_filled wantedDeviceExtension _ _ eq_refl),
        wantedDeviceExtension_names, L; reflexivity
    | split;
      [ intros dev Cr; cbn in Cr; unfold whenSuccess in Cr;
        repeat match type of Cr with
               | context [?st =? VK_SUCCESS] =>
                   match goal with
                   | S : st <> VK_SUCCESS |- _ =>
                       rewrite (proj2 (Z.eqb_neq st VK_SUCCESS) S) in Cr
                   end
               end;
        first [ discriminate Cr
              | injection Cr as <-; eexists;
                split; [reflexivity | do 5 right; left; reflexivity] ]
      | let X := fresh in intros ? ? ? X; try discriminate X; inversion X; reflexivity ] ].
Qed.

End GraphicsFamily.

(** ** Setup: one queue family throughout *)

Import Requests.

Ltac quiet_calls :=
  repeat first
    [ apply CallsOnly_bind; [|intro]
    | apply CallsOnly_check
    | apply CallsOnly_call
    | apply CallsOnly_assert
    | apply CallsOnly_at_index
    | apply CallsOnly_secondCall
    | apply CallsOnly_defined
    | apply CallsOnly_Ret
    | match goal with
      | |- CallsOnly _ (let '(_, _) := ?x in _) => destruct x
      end ];
  try (intros; reflexivity).

Lemma recordInitialLayouts_calls (P : forall X, VkCall X -> Prop) (cb : Handle)
  (imgs : list Handle) :
  (forall img, P _ (vkCmdPipelineBarrier cb VK_PIPELINE_STAGE_TOP_OF_PIPE_BIT
                      VK_PIPELINE_STAGE_BOTTOM_OF_PIPE_BIT [presentBarrier img])) ->
  CallsOnly P (recordInitialLayouts cb imgs).
Proof.
  intro H. induction imgs as [|i imgs IH]; cbn [recordInitialLayouts]; [constructor|].
  apply CallsOnly_bind; [apply CallsOnly_call, H | intro; exact IH].
Qed.

Section Observers.
Variable d : Driver.
Variable X : Type.
Variable obs : Event -> list X.

Lemma silent A (p : Prog A) (w : world d) :
  CallsOnly (fun Y c => forall y : Y, obs (Ev c y) = []) p ->
  flat_map obs (trace (run d p w)) = [].
Proof.
  intro H. apply (CallsOnly_trace d w) in H.
  induction H as [|[Y c y] tr Hc _ IH]; cbn; [reflexivity|].
  rewrite Hc. exact IH.
Qed.

End Observers.

Section QueueFamily.
Variable d : Driver.

Lemma createDevice_family (pd : Handle) (w : world d) (q : Z) (dev queue : Handle) :
  outcome (run d (createDevice pd) w) = Done (q, dev, queue) ->
  queueFamilyUses (trace (run d (createDevice pd) w)) = [q; q] /\
  supportAnswers (trace (run d (createDevice pd) w)) = [].
Proof.
  unfold createDevice, queueFamilyUses, supportAnswers. setup_exec.
  all: intro H; try discriminate H; inversion H; subst; split; reflexivity.
Qed.

Lemma createSurface_family (win inst pd : Handle) (q : Z) (w : world d) (surf : Handle) :
  outcome (run d (createSurface win inst pd q) w) = Done surf ->
  queueFamilyUses (trace (run d (createSurface win inst pd q) w)) = [q] /\
  exists supported,
    supportAnswers (trace (run d (createSurface win inst pd q) w)) =
      [(pd, q, surf, VK_SUCCESS, supported)] /\ supported <> 0.
Proof.
  unfold createSurface, queueFamilyUses, supportAnswers. setup_exec.
  all: intro H; first [discriminate H | inversion H; subst; split; [reflexivity|]].
  eexists. split; [reflexivity|].
  match goal with A : negb (?s =? 0) = true |- _ =>
    destruct (Z.eqb_spec s 0); [discriminate A | assumption] end.
Qed.

Lemma createCommandPool_family (dev : Handle) (q : Z) (w : world d) :
  queueFamilyUses (trace (run d (createCommandPool dev q) w)) = [q] /\
  supportAnswers (trace (run d (createCommandPool dev q) w)) = [].
Proof.
  unfold createCommandPool, queueFamilyUses, supportAnswers. setup_exec; split; reflexivity.
Qed.

(** X13.  Against every driver: a setup that completes uses one queue family
    index throughout, the one it stores: for the queue requested with the
    device, the queue fetched, the surface support query and the command
    pool.  It has queried surface support once, for the stored physical
    device, index and surface, and was answered success and supported. *)
Theorem constructor_queue_family (color : VkClearColorValue) (window : Handle)
  (w : world d) (r : VkRenderer) :
  outcome (run d (constructor color window) w) = Done r ->
  let tr := trace (run d (constructor color window) w) in
  queueFamilyUses tr =
    [mQueueFamilyIndex r; mQueueFamilyIndex r; mQueueFamilyIndex r; mQueueFamilyIndex r] /\
  exists supported,
    supportAnswers tr =
      [(mPhysicalDevice r, mQueueFamilyIndex r, mSurface r, VK_SUCCESS, supported)] /\
    supported <> 0.
Proof.
  intros H tr. subst tr.
  destruct (constructor_phases d color window w H)
    as (_ & _ & H3 & H4 & _ & _ & _ & _ & _ & _ & T).
  rewrite T. clear T.
  destruct (createDevice_family _ _ H3) as [U3 A3].
  destruct (createSurface_family _ _ _ _ _ H4) as [U4 (supported & A4 & N)].
  destruct (createCommandPool_family (mDevice r) (mQueueFamilyIndex r)
              (final (run d (createSwapchain (mPhysicalDevice r) (mDevice r) (mSurface r))
                 (final (run d (createSurface window (mInstance r) (mPhysicalDevice r)
                                  (mQueueFamilyIndex r))
                   (final (run d (createDevice (mPhysicalDevice r))
                     (final (run d (selectPhysicalDevice (mInstance r))
                       (final (run d createInstance w))))))))))) as [U6 A6].
  unfold queueFamilyUses, supportAnswers in *.
  rewrite !flat_map_app, U3, U4, U6, A3, A4, A6.
  rewrite !(@silent d _ _ _ createInstance) by (unfold createInstance; quiet_calls).
  rewrite !(@silent d _ _ _ (selectPhysicalDevice _)) by (unfold selectPhysicalDevice; quiet_calls).
  rewrite !(@silent d _ _ _ (createSwapchain _ _ _))
    by (unfold createSwapchain, selectSurfaceFormat, selectPresentMode; quiet_calls).
  rewrite !(@silent d _ _ _ (allocateCommandBuffer _ _))
    by (unfold allocateCommandBuffer; quiet_calls).
  rewrite !(@silent d _ _ _ (transitionSwapchainImages _ _ _))
    by (unfold transitionSwapchainImages; quiet_calls;
        apply recordInitialLayouts_calls; intros; reflexivity).
  rewrite !(@silent d _ _ _ (createSyncObjects _)) by (unfold createSyncObjects; quiet_calls).
  split; [reflexivity|]. exists supported. split; [reflexivity | exact N].
Qed.

End QueueFamily.

(** ** Setup: extensions *)

Lemma wantedInstanceExtension_names (l : list VkExtensionProperties) (name : string) :
  In name (map extensionName (filter wantedInstanceExtension l)) ->
  (name = "VK_KHR_surface" \/ name = "VK_KHR_android_surface")%string /\
  In name (map extensionName l).
Proof.
  rewrite in_map_iff. intros (x & <- & I). apply filter_In in I as [I W].
  split; [|apply in_map; exact I].
  unfold wantedInstanceExtension in W. apply orb_true_iff in W as [W|W];
    apply String.eqb_eq in W; auto.
Qed.

Section Extensions.
Variable d : Driver.

(** X14.  Against every driver: an instance is requested with as many layers as
    the first layer enumeration counted, by the names of the vector slots
    (empty names for slots the second enumeration left unwritten), and
    with the names of the reported extensions that are one of the two
    surface extensions, in reported order; these are exactly two, which
    the assertion of line 74 checks by their number alone. *)
Theorem createInstance_request (w : world d) :
  let R := run d createInstance w in
  forall ci, In ci (instanceRequests (trace R)) ->
    exists layerCount layers extensionCount extensions,
      In (Ev (vkEnumerateInstanceLayerProperties (Fetch layerCount)) (VK_SUCCESS, layers))
         (trace R) /\
      In (Ev (vkEnumerateInstanceExtensionProperties (Fetch extensionCount))
            (VK_SUCCESS, extensions)) (trace R) /\
      ici_ppEnabledLayerNames ci = map layerName (filled layerCount zeroLayer layers) /\
      List.length (ici_ppEnabledLayerNames ci) = N.to_nat layerCount /\
      ici_ppEnabledExtensionNames ci =
        map extensionName
          (filter wantedInstanceExtension (written extensionCount extensions)) /\
      List.length (ici_ppEnabledExtensionNames ci) = 2%nat /\
      (forall name, In name (ici_ppEnabledExtensionNames ci) ->
         (name = "VK_KHR_surface" \/ name = "VK_KHR_android_surface")%string /\
         In name (map extensionName (written extensionCount extensions))).
Proof.
  unfold createInstance, instanceRequests. setup_exec.
  all: intros ci I; cbn in I; repeat (destruct I as [I|I]; [subst ci|]); try contradiction.
  all: match goal with
       | A : Nat.eqb (List.length (map _ (filter _ (filled ?c _ ?e)))) 2 = true |- _ =>
           rewrite (filter_filled wantedInstanceExtension c e eq_refl) in A;
           apply Nat.eqb_eq in A
       end.
  all: do 4 eexists; cbn [ici_ppEnabledLayerNames ici_ppEnabledExtensionNames];
       rewrite (filter_filled wantedInstanceExtension _ _ eq_refl);
       (split; [right; left; reflexivity|]);
       (split; [do 3 right; left; reflexivity|]);
       (split; [reflexivity|]); (split; [rewrite length_map; apply length_filled|]);
       (split; [reflexivity|]); (split; [assumption|]);
       intros name; apply wantedInstanceExtension_names.
Qed.

(** X15.  Against every driver: a device is requested with the swapchain
    extension and no other, and only when the reported device extensions
    contain it exactly once; when they contain it not at all or more than
    once, setup dies on the assertion of line 162 and requests no
    device. *)
Theorem createDevice_extensions (pd : Handle) (w : world d) :
  let R := run d (createDevice pd) w in
  (forall request, In request (deviceRequests (trace R)) ->
     dci_ppEnabledExtensionNames (snd request) = ["VK_KHR_swapchain"%string] /\
     exists entries,
       reportedDeviceExtensions (trace R) = [entries] /\
       List.length (filter wantedDeviceExtension entries) = 1%nat) /\
  (forall entries,
     reportedDeviceExtensions (trace R) = [entries] ->
     List.length (filter wantedDeviceExtension entries) <> 1%nat ->
     outcome R = Terminated (AssertFailed 162 "deviceExtensionNames.size() == 1") /\
     deviceRequests (trace R) = []).
Proof.
  unfold createDevice, deviceRequests, reportedDeviceExtensions. setup_exec.
  all: repeat match goal with
       | A : Nat.eqb (List.length (map _ (filter _ (filled ?c _ ?e)))) 1 = _ |- _ =>
           rewrite (filter_filled wantedDeviceExtension c e eq_refl), length_map in A
       end.
  all: split;
    [ intros request I; cbn in I;
      repeat (destruct I as [I|I]; [subst request|]); try contradiction
    | intros entries I L; cbn in I; try discriminate I;
      try (injection I as <-) ].
  all: try (cbn [snd dci_ppEnabledExtensionNames];
            rewrite (filter_filled wantedDeviceExtension _ _ eq_refl),
              wantedDeviceExtension_names;
            match goal with A : Nat.eqb ?n 1 = true |- _ =>
              apply Nat.eqb_eq in A; rewrite A end;
            split; [reflexivity | eexists; split; [reflexivity | assumption]]).
  all: try (match goal with A : Nat.eqb ?n 1 = true |- _ =>
              apply Nat.eqb_eq in A; contradiction end).
  all: split; reflexivity.
Qed.

End Extensions.

(** ** Setup: the swapchain request *)

Lemma land_bit (s i : Z) :
  0 <= i -> (Z.land s (Z.shiftl 1 i) =? 0) = negb (Z.testbit s i).
Proof.
  intro Hi. rewrite Z.shiftl_1_l.
  destruct (Z.testbit s i) eqn:T; cbn [negb].
  - apply Z.eqb_neq. intro E.
    assert (B : Z.testbit (Z.land s (2 ^ i)) i = true)
      by (rewrite Z.land_spec, T, Z.pow2_bits_true by lia; reflexivity).
    rewrite E, Z.bits_0 in B. discriminate B.
  - apply Z.eqb_eq. apply Z.bits_inj'. intros n Hn.
    rewrite Z.land_spec, Z.bits_0, Z.pow2_bits_eqb by lia.
    destruct (Z.eqb_spec i n) as [<-|]; [rewrite T|]; auto using andb_false_r.
Qed.

Lemma compositeAlpha_scan (supported : Z) :
  let flag :=
    firstCompositeAlpha supported [0; 1; 2; 3; 4] VK_COMPOSITE_ALPHA_FLAG_BITS_MAX_ENUM_KHR in
  (exists i, 0 <= i <= 4 /\ flag = 2 ^ i /\
             (flag =? VK_COMPOSITE_ALPHA_FLAG_BITS_MAX_ENUM_KHR) = false /\
             Z.testbit supported i = true /\
             forall j, 0 <= j < i -> Z.testbit supported j = false) \/
  (flag = VK_COMPOSITE_ALPHA_FLAG_BITS_MAX_ENUM_KHR /\
   forall j, 0 <= j <= 4 -> Z.testbit supported j = false).
Proof.
  cbn [firstCompositeAlpha]. rewrite !land_bit by lia. rewrite !negb_involutive.
  destruct (Z.testbit supported 0) eqn:T0;
    [|destruct (Z.testbit supported 1) eqn:T1;
      [|destruct (Z.testbit supported 2) eqn:T2;
        [|destruct (Z.testbit supported 3) eqn:T3;
          [|destruct (Z.testbit supported 4) eqn:T4]]]].
  1: left; exists 0.
  2: left; exists 1.
  3: left; exists 2.
  4: left; exists 3.
  5: left; exists 4.
  1-5: (split; [lia|]); (split; [reflexivity|]); (split; [reflexivity|]);
       (split; [assumption|]); intros j Hj;
       assert (C : j = 0 \/ j = 1 \/ j = 2 \/ j = 3) by lia;
       destruct C as [-> | [-> | [-> | ->]]]; first [assumption | lia].
  right. split; [reflexivity|]. intros j Hj.
  assert (C : j = 0 \/ j = 1 \/ j = 2 \/ j = 3 \/ j = 4) by lia.
  destruct C as [->|[-> | [-> | [-> | ->]]]]; assumption.
Qed.

Section SwapchainRequest.
Variable d : Driver.

(** X16.  Against every driver: a swapchain is requested for the surface with
    the minimum image count, the current extent and the current transform
    of the reported capabilities, one array layer, exclusive sharing, the
    usage colour attachment and transfer destination (of which only colour
    attachment was checked to be supported), and the composite alpha mode
    of the lowest supported bit among bits 0 to 4.  With none of these bits
    supported setup dies on the assertion of line 207, with colour
    attachment usage unsupported on that of line 211, in both cases right
    after the capabilities query. *)
Theorem createSwapchain_request (pd dev surf : Handle) (w : world d) :
  let R := run d (createSwapchain pd dev surf) w in
  (forall ci, In ci (swapchainRequests (trace R)) ->
     exists caps,
       reportedCapabilities (trace R) = [caps] /\
       sc_surface ci = surf /\
       sc_minImageCount ci = minImageCount caps /\
       imageExtent ci = currentExtent caps /\
       preTransform ci = currentTransform caps /\
       imageArrayLayers ci = 1 /\
       imageSharingMode ci = VK_SHARING_MODE_EXCLUSIVE /\
       imageUsage ci = 0x12 /\
       Z.land (supportedUsageFlags caps) VK_IMAGE_USAGE_COLOR_ATTACHMENT_BIT <> 0 /\
       exists i, 0 <= i <= 4 /\ compositeAlpha ci = 2 ^ i /\
                 Z.testbit (supportedCompositeAlpha caps) i = true /\
                 forall j, 0 <= j < i -> Z.testbit (supportedCompositeAlpha caps) j = false) /\
  (forall caps, reportedCapabilities (trace R) = [caps] ->
     (forall j, 0 <= j <= 4 -> Z.testbit (supportedCompositeAlpha caps) j = false) ->
     outcome R = Terminated
       (AssertFailed 207 "compositeAlpha != VK_COMPOSITE_ALPHA_FLAG_BITS_MAX_ENUM_KHR") /\
     names (trace R) = ["vkGetPhysicalDeviceSurfaceCapabilitiesKHR"%string]) /\
  (forall caps, reportedCapabilities (trace R) = [caps] ->
     (exists j, 0 <= j <= 4 /\ Z.testbit (supportedCompositeAlpha caps) j = true) ->
     Z.land (supportedUsageFlags caps) VK_IMAGE_USAGE_COLOR_ATTACHMENT_BIT = 0 ->
     outcome R = Terminated
       (AssertFailed 211
          "surfaceCapabilities.supportedUsageFlags & VK_IMAGE_USAGE_COLOR_ATTACHMENT_BIT") /\
     names (trace R) = ["vkGetPhysicalDeviceSurfaceCapabilitiesKHR"%string]).
Proof.
  unfold createSwapchain, selectSurfaceFormat, selectPresentMode,
    swapchainRequests, reportedCapabilities, names.
  setup_exec.
  all: cbn [map].
  all: repeat match goal with
       | A : negb (Z.land ?f VK_IMAGE_USAGE_COLOR_ATTACHMENT_BIT =? 0) = true |- _ =>
           apply negb_true_iff, Z.eqb_neq in A
       | A : negb (Z.land ?f VK_IMAGE_USAGE_COLOR_ATTACHMENT_BIT =? 0) = false |- _ =>
           apply negb_false_iff, Z.eqb_eq in A
       end.
  all: try match goal with
       | A : negb (firstCompositeAlpha ?s _ _ =? _) = _ |- _ =>
           destruct (compositeAlpha_scan s) as [(i & Hi & Ei & Ni & Ti & Fi)|[Ei Fi]];
           [ rewrite Ni in A | rewrite Ei, Z.eqb_refl in A ]; cbn [negb] in A;
           try discriminate A
       end.
  all: split;
    [ first
        [ intros ci [<-|[]];
          eexists; split; [reflexivity|];
          cbn [sc_surface sc_minImageCount imageExtent preTransform imageArrayLayers
               imageSharingMode imageUsage compositeAlpha];
          repeat (split; [reflexivity|]); split; [assumption|];
          exists i; auto
        | intros ci [] ]
    | split;
      [ intros caps Hc F; first [discriminate Hc | injection Hc as <-];
        first [ split; reflexivity
              | exfalso; rewrite (F i Hi) in Ti; discriminate Ti ]
      | intros caps Hc (j & Hj & Tj) U; first [discriminate Hc | injection Hc as <-];
        first [ split; reflexivity
              | exfalso; congruence
              | exfalso; rewrite (Fi j Hj) in Tj; discriminate Tj ] ] ].
Qed.

End SwapchainRequest.

(** ** Nothing is destroyed before the destructor *)

Section NoDestruction.
Variable d : Driver.

Lemma constructor_calls_destroy_nothing (color : VkClearColorValue) (window : Handle) :
  CallsOnly (fun X c => forall x : X, destroyed (Ev c x) = []) (constructor color window).
Proof.
  unfold constructor. apply CallsOnly_bind; [unfold createInstance; quiet_calls|]. intro inst.
  apply CallsOnly_bind; [unfold selectPhysicalDevice; quiet_calls|]. intro pd.
  apply CallsOnly_bind; [unfold createDevice; quiet_calls|]. intros [[q dev] queue].
  apply CallsOnly_bind; [unfold createSurface; quiet_calls|]. intro surf.
  apply CallsOnly_bind;
    [unfold createSwapchain, selectSurfaceFormat, selectPresentMode; quiet_calls|].
  intros [sc images].
  apply CallsOnly_bind; [unfold createCommandPool; quiet_calls|]. intro pool.
  apply CallsOnly_bind; [unfold allocateCommandBuffer; quiet_calls|]. intro cb.
  apply CallsOnly_bind;
    [unfold transitionSwapchainImages; quiet_calls;
     apply recordInitialLayouts_calls; intros; reflexivity|].
  intros _.
  apply CallsOnly_bind; [unfold createSyncObjects; quiet_calls|]. intros [[f a] c].
  constructor.
Qed.

(** X17.  Against every driver: the constructor destroys and frees nothing,
    whatever its outcome; a setup that fails half-way leaves what it has
    created. *)
Theorem constructor_never_destroys (color : VkClearColorValue) (window : Handle)
  (w : world d) :
  destructions (trace (run d (constructor color window) w)) = [].
Proof.
  unfold destructions.
  apply (@silent d _ destroyed _ _ w). apply constructor_calls_destroy_nothing.
Qed.

End NoDestruction.

(** ** The order of destruction *)

Import Ownership.

Section Ownership.
Variable d : Driver.

Ltac owned :=
  setup_exec;
  let H := fresh "H" in
  intro H; try discriminate H; inversion H; subst; reflexivity.

Lemma createSurface_dependencies (win inst pd : Handle) (q : Z) (w : world d) (surf : Handle) :
  outcome (run d (createSurface win inst pd q) w) = Done surf ->
  flat_map dependencies (trace (run d (createSurface win inst pd q) w)) =
    [(Surface surf, Instance inst)].
Proof. unfold createSurface. owned. Qed.

Lemma createSwapchain_dependencies (pd dev surf : Handle) (w : world d) (sc : Handle)
  (images : list Handle) :
  outcome (run d (createSwapchain pd dev surf) w) = Done (sc, images) ->
  flat_map dependencies (trace (run d (createSwapchain pd dev surf) w)) =
    [(Swapchain sc, Device dev); (Swapchain sc, Surface surf)].
Proof. unfold createSwapchain, selectSurfaceFormat, selectPresentMode. owned. Qed.

Lemma createCommandPool_dependencies (dev : Handle) (q : Z) (w : world d) (pool : Handle) :
  outcome (run d (createCommandPool dev q) w) = Done pool ->
  flat_map dependencies (trace (run d (createCommandPool dev q) w)) =
    [(CommandPool pool, Device dev)].
Proof. unfold createCommandPool. owned. Qed.

Lemma allocateCommandBuffer_dependencies (dev pool : Handle) (w : world d) (cb : Handle) :
  outcome (run d (allocateCommandBuffer dev pool) w) = Done cb ->
  flat_map dependencies (trace (run d (allocateCommandBuffer dev pool) w)) =
    [(CommandBuffer cb, Device dev); (CommandBuffer cb, CommandPool pool)].
Proof. unfold allocateCommandBuffer. owned. Qed.

Lemma createSyncObjects_dependencies (dev : Handle) (w : world d) (f a c : Handle) :
  outcome (run d (createSyncObjects dev) w) = Done (f, a, c) ->
  flat_map dependencies (trace (run d (createSyncObjects dev) w)) =
    [(Fence f, Device dev); (Semaphore a, Device dev); (Semaphore c, Device dev)].
Proof. unfold createSyncObjects. owned. Qed.

Lemma constructor_dependencies (color : VkClearColorValue) (window : Handle) (w : world d)
  (r : VkRenderer) :
  outcome (run d (constructor color window) w) = Done r ->
  flat_map dependencies (trace (run d (constructor color window) w)) =
    [ (Surface (mSurface r), Instance (mInstance r));
      (Swapchain (mSwapchain r), Device (mDevice r));
      (Swapchain (mSwapchain r), Surface (mSurface r));
      (CommandPool (mCommandPool r), Device (mDevice r));
      (CommandBuffer (mCommandBuffer r), Device (mDevice r));
      (CommandBuffer (mCommandBuffer r), CommandPool (mCommandPool r));
      (Fence (mFence r), Device (mDevice r));
      (Semaphore (mImageAcquisitionSemaphore r), Device (mDevice r));
      (Semaphore (mRenderCompletionSemaphore r), Device (mDevice r)) ].
Proof.
  intro H.
  destruct (constructor_phases d color window w H)
    as (_ & _ & _ & H4 & H5 & H6 & H7 & _ & H9 & _ & T).
  rewrite T. clear T. rewrite !flat_map_app.
  rewrite (createSurface_dependencies _ _ _ _ _ H4), (createSwapchain_dependencies _ _ _ _ H5),
    (createCommandPool_dependencies _ _ _ H6), (allocateCommandBuffer_dependencies _ _ _ H7),
    (createSyncObjects_dependencies _ _ H9).
  rewrite (@silent d _ _ _ createInstance) by (unfold createInstance; quiet_calls).
  rewrite (@silent d _ _ _ (selectPhysicalDevice _))
    by (unfold selectPhysicalDevice; quiet_calls).
  rewrite (@silent d _ _ _ (createDevice _)) by (unfold createDevice; quiet_calls).
  rewrite (@silent d _ _ _ (transitionSwapchainImages _ _ _))
    by (unfold transitionSwapchainImages; quiet_calls;
        apply recordInitialLayouts_calls; intros; reflexivity).
  reflexivity.
Qed.

(** X18.  Against every driver: for every object a completed setup created
    from another one (the surface from the instance, the swapchain from
    the device and the surface, the command pool, the fence and the
    semaphores from the device, the command buffer from the device and the
    pool), the destructor destroys the object before the one it was
    created from. *)
Theorem destructor_children_before_parents (color : VkClearColorValue) (window : Handle)
  (w w' : world d) (r : VkRenderer) :
  outcome (run d (constructor color window) w) = Done r ->
  forall child parent,
    In (child, parent)
       (flat_map dependencies (trace (run d (constructor color window) w))) ->
    exists pre post,
      destructions (trace (run d (destructor r) w')) = pre ++ child :: post /\
      In parent post /\ ~ In parent pre.
Proof.
  intros H child parent I.
  rewrite (constructor_dependencies _ _ _ H) in I.
  rewrite (proj1 (destructor_destructions d r w')).
  set (A := Semaphore (mImageAcquisitionSemaphore r)).
  set (C := Semaphore (mRenderCompletionSemaphore r)).
  set (F := Fence (mFence r)). set (B := CommandBuffer (mCommandBuffer r)).
  set (P := CommandPool (mCommandPool r)). set (S := Swapchain (mSwapchain r)).
  set (U := Surface (mSurface r)). set (D := Device (mDevice r)).
  set (N := Instance (mInstance r)).
  cbn [In] in I.
  repeat (destruct I as [I|I]; [inversion I; subst child parent; clear I|]);
    try contradiction.
  - exists [A; C; F; B; P; S], [D; N]. subst A C F B P S U D N.
    cbn. intuition discriminate.
  - exists [A; C; F; B; P], [U; D; N]. subst A C F B P S U D N.
    cbn. intuition discriminate.
  - exists [A; C; F; B; P], [U; D; N]. subst A C F B P S U D N.
    cbn. intuition discriminate.
  - exists [A; C; F; B], [S; U; D; N]. subst A C F B P S U D N.
    cbn. intuition discriminate.
  - exists [A; C; F], [P; S; U; D; N]. subst A C F B P S U D N.
    cbn. intuition discriminate.
  - exists [A; C; F], [P; S; U; D; N]. subst A C F B P S U D N.
    cbn. intuition discriminate.
  - exists [A; C], [B; P; S; U; D; N]. subst A C F B P S U D N.
    cbn. intuition discriminate.
  - exists [], [C; F; B; P; S; U; D; N]. subst A C F B P S U D N.
    cbn. intuition discriminate.
  - exists [A], [F; B; P; S; U; D; N]. subst A C F B P S U D N.
    cbn. intuition discriminate.
Qed.

End Ownership.

(** ** The loader sample *)

Section LoaderSample.
Variable d : Driver.

(** X19.  The loader sample, against every driver: a constructor that completes
    has made the two layer enumeration calls and no other, and has written
    one line per slot of the vector sized by the first count: the names of
    the entries the second call wrote, in order, followed by empty lines
    for the slots it left.  It creates nothing and has no undefined
    behaviour; the destructor does nothing. *)
Theorem loader_constructor_lines (w : world d) :
  let R := run d Loader.constructor w in
  (forall lines, outcome R = Done lines ->
     exists count entries,
       trace R =
         [ Ev (vkEnumerateInstanceLayerProperties QueryCount) (VK_SUCCESS, count);
           Ev (vkEnumerateInstanceLayerProperties (Fetch count)) (VK_SUCCESS, entries) ] /\
       lines = map layerName (written count entries) ++
               repeat EmptyString (N.to_nat count - List.length (written count entries)) /\
       List.length lines = N.to_nat count /\
       ((N.to_nat count <= List.length entries)%nat ->
        lines = map layerName (firstn (N.to_nat count) entries))) /\
  creations (trace R) = [] /\
  outcome R <> UB /\
  outcome (run d Loader.destructor w) = Done tt /\ trace (run d Loader.destructor w) = [].
Proof.
  unfold Loader.constructor, creations. setup_exec.
  all: split; [|repeat split; discriminate].
  all: intros lines H; try discriminate H; inversion H; subst; clear H.
  do 2 eexists. split; [reflexivity|].
  unfold filled. rewrite map_app, map_repeat. cbn [layerName zeroLayer].
  split; [reflexivity|]. split.
  - rewrite length_app, length_map, repeat_length.
    pose proof (length_written x x0). lia.
  - intro L. unfold written. rewrite length_firstn.
    replace (N.to_nat x - Nat.min (N.to_nat x) (List.length x0))%nat with 0%nat by lia.
    apply app_nil_r.
Qed.

End LoaderSample.

(** ** The lifecycle shim *)

Import Shim.

Lemma handle_cmd_cases (cmd : Z) :
  (cmd = APP_CMD_INIT_WINDOW /\ handle_cmd cmd = ["Hello Vulkan!"%string]) \/
  (cmd <> APP_CMD_INIT_WINDOW /\ handle_cmd cmd = []).
Proof.
  unfold handle_cmd. destruct (Z.eqb_spec cmd APP_CMD_INIT_WINDOW) as [E|E].
  - left. split; [exact E | reflexivity].
  - right. split; [exact E|]. destruct (cmd =? APP_CMD_TERM_WINDOW); reflexivity.
Qed.

(** X20.  Over any sequence of commands the command handler writes the line
    "Hello Vulkan!" once per APP_CMD_INIT_WINDOW and nothing for any other
    command. *)
Theorem handle_cmd_output (cmds : list Z) :
  flat_map handle_cmd cmds =
  repeat "Hello Vulkan!"%string (count_occ Z.eq_dec cmds APP_CMD_INIT_WINDOW) /\
  (flat_map handle_cmd cmds = [] <-> ~ In APP_CMD_INIT_WINDOW cmds).
Proof.
  assert (E : flat_map handle_cmd cmds =
              repeat "Hello Vulkan!"%string (count_occ Z.eq_dec cmds APP_CMD_INIT_WINDOW)).
  { induction cmds as [|cmd cmds IH]; [reflexivity|].
    cbn [flat_map count_occ]. rewrite IH.
    destruct (handle_cmd_cases cmd) as [[-> ->]|[N ->]].
    - destruct (Z.eq_dec APP_CMD_INIT_WINDOW APP_CMD_INIT_WINDOW); [reflexivity | contradiction].
    - destruct (Z.eq_dec cmd APP_CMD_INIT_WINDOW); [contradiction | reflexivity]. }
  split; [exact E|]. rewrite E, (count_occ_not_In Z.eq_dec).
  destruct (count_occ Z.eq_dec cmds APP_CMD_INIT_WINDOW); cbn; split; congruence.
Qed.

Section EventLoop.
Variable P : Platform.

Lemma Rounds_app (a b : nat) (ea eb : list (ShimEvent P)) :
  Rounds P a ea -> Rounds P b eb -> Rounds P (a + b) (ea ++ eb).
Proof.
  intros Ha Hb. induction Ha; cbn [app Nat.add]; [exact Hb| |].
  - apply Rounds_processed; assumption.
  - apply Rounds_idle; assumption.
Qed.

Lemma Rounds_iteration (st : android_app * state P) : Rounds P 1 (snd (iteration P st)).
Proof.
  unfold iteration.
  destruct (ALooper_pollAll P 0 (fst st) (snd st)) as [[[result pSource] app] s].
  destruct (Z.geb_spec result 0) as [G|G]; [destruct pSource as [src|]|]; cbn [snd].
  - apply Rounds_processed; [lia | constructor].
  - apply Rounds_idle; [right; reflexivity | constructor].
  - apply Rounds_idle; [left; lia | constructor].
Qed.

Lemma rounds_succ (k : nat) (st : android_app * state P) :
  rounds P (S k) st = rounds P k (fst (iteration P st)).
Proof. unfold rounds. rewrite Nat.iter_succ_r. reflexivity. Qed.

Lemma eventLoop_runs_until_destroy (fuel : nat) (st : android_app * state P) :
  (forall k, (1 <= k <= fuel)%nat ->
     destroyRequested (fst (rounds P k st)) <> 0 ->
     (forall j, (1 <= j < k)%nat -> destroyRequested (fst (rounds P j st)) = 0) ->
     exists events,
       eventLoop P fuel st = Some (rounds P k st, events) /\ Rounds P k events) /\
  ((forall k, (1 <= k <= fuel)%nat -> destroyRequested (fst (rounds P k st)) = 0) ->
   eventLoop P fuel st = None).
Proof.
  revert st. induction fuel as [|fuel IH]; intro st.
  - split; [intros k Hk; lia | reflexivity].
  - cbn [eventLoop].
    assert (R1 : forall k, rounds P (S k) st = rounds P k (fst (iteration P st)))
      by (intro; apply rounds_succ).
    pose proof (Rounds_iteration st) as Pi.
    destruct (IH (fst (iteration P st))) as [IHr IHn].
    destruct (iteration P st) as [st' events]. cbn [fst snd] in *.
    split.
    + intros k Hk D Z. destruct k as [|[|k]]; [lia| |].
      * rewrite R1 in D. change (rounds P 0 st') with st' in D.
        destruct (Z.eqb_spec (destroyRequested (fst st')) 0) as [E|E]; [contradiction|].
        exists events. rewrite R1. split; [reflexivity | exact Pi].
      * assert (E : destroyRequested (fst st') = 0).
        { specialize (Z 1%nat ltac:(lia)). rewrite R1 in Z. exact Z. }
        rewrite E. change (0 =? 0) with true. cbn iota.
        destruct (IHr (S k)) as (events' & L & C);
          [lia | rewrite <- R1; exact D | intros j Hj; rewrite <- R1; apply Z; lia |].
        rewrite L. exists (events ++ events'). rewrite (R1 (S k)).
        split; [reflexivity|]. exact (Rounds_app Pi C).
    + intro Z.
      assert (E : destroyRequested (fst st') = 0).
      { specialize (Z 1%nat ltac:(lia)). rewrite R1 in Z. exact Z. }
      rewrite E. change (0 =? 0) with true. cbn iota.
      rewrite IHn; [reflexivity|].
      intros k Hk. rewrite <- R1. apply Z. lia.
Qed.

Lemma eventLoop_returned (fuel : nat) (st final : android_app * state P)
  (events : list (ShimEvent P)) :
  eventLoop P fuel st = Some (final, events) ->
  exists k, (1 <= k <= fuel)%nat /\ final = rounds P k st /\ Rounds P k events /\
            destroyRequested (fst final) <> 0 /\
            forall j, (1 <= j < k)%nat -> destroyRequested (fst (rounds P j st)) = 0.
Proof.
  revert st final events. induction fuel as [|fuel IH]; intros st final events H;
    [discriminate H|].
  cbn [eventLoop] in H.
  assert (R1 : forall k, rounds P (S k) st = rounds P k (fst (iteration P st)))
    by (intro; apply rounds_succ).
  pose proof (Rounds_iteration st) as Pi.
  destruct (iteration P st) as [st' events0]. cbn [fst snd] in *.
  destruct (Z.eqb_spec (destroyRequested (fst st')) 0) as [E|E].
  - destruct (eventLoop P fuel st') as [[final' events']|] eqn:L; [|discriminate H].
    inversion H; subst; clear H.
    destruct (IH _ _ _ L) as (k & Hk & F & C & D & Z).
    exists (S k). rewrite R1.
    split; [lia|]. split; [exact F|]. split; [exact (Rounds_app Pi C)|].
    split; [exact D|].
    intros j Hj. destruct j as [|[|j]].
    + lia.
    + rewrite R1. exact E.
    + rewrite R1. apply Z. lia.
  - inversion H; subst; clear H. exists 1%nat. rewrite R1.
    repeat split; auto; lia.
Qed.

Lemma eventLoop_more_fuel (fuel fuel' : nat) (st : android_app * state P)
  (x : android_app * state P * list (ShimEvent P)) :
  eventLoop P fuel st = Some x -> (fuel <= fuel')%nat -> eventLoop P fuel' st = Some x.
Proof.
  revert fuel' st x. induction fuel as [|fuel IH]; intros fuel' st x H L; [discriminate H|].
  destruct fuel' as [|fuel']; [lia|]. cbn [eventLoop] in *.
  destruct (iteration P st) as [st' events].
  destruct (destroyRequested (fst st') =? 0); [|exact H].
  destruct (eventLoop P fuel st') as [[final events']|] eqn:E; [|discriminate H].
  rewrite (IH fuel' st' _ E ltac:(lia)). exact H.
Qed.

(** X21.  Against every glue and looper: whenever the main loop returns
    it has gone through one or more rounds, and only at the end of the
    last one was destruction requested.  In every round it polls the
    looper once, with timeout 0, and calls [process] exactly when the poll
    answered with a non-negative result and stored a source: once, for that
    source, before the next poll.  It does return after the first round at
    whose end destruction is requested, and not while no round has ended
    so; a result it returns is the same under every larger bound. *)
Theorem android_main_runs_until_destroy (fuel : nat) (pApp : android_app) (s : state P) :
  let st := android_app_set_motion_event_filter P Input.motion_event_filter_func
              (set_onAppCmd pApp handle_cmd) s in
  (forall final events,
     android_main P fuel pApp s = Some (final, events) ->
     exists k, (1 <= k <= fuel)%nat /\ Rounds P k events /\
               final = rounds P k st /\
               destroyRequested (fst final) <> 0 /\
               (forall j, (1 <= j < k)%nat -> destroyRequested (fst (rounds P j st)) = 0) /\
               forall fuel', (fuel <= fuel')%nat ->
                 android_main P fuel' pApp s = android_main P fuel pApp s) /\
  (forall k, (1 <= k <= fuel)%nat ->
     destroyRequested (fst (rounds P k st)) <> 0 ->
     (forall j, (1 <= j < k)%nat -> destroyRequested (fst (rounds P j st)) = 0) ->
     exists events,
       android_main P fuel pApp s = Some (rounds P k st, events) /\ Rounds P k events) /\
  ((forall k, (1 <= k <= fuel)%nat -> destroyRequested (fst (rounds P k st)) = 0) ->
   android_main P fuel pApp s = None).
Proof.
  intro st. unfold android_main. fold st.
  destruct (eventLoop_runs_until_destroy fuel st) as [R N].
  split; [|split; [exact R | exact N]].
  intros final events H.
  destruct (@eventLoop_returned fuel st _ _ H) as (k & Hk & F & C & D & Z).
  exists k. repeat split; auto; try lia.
  intros fuel' L. rewrite H. apply (@eventLoop_more_fuel fuel fuel' st _ H L).
Qed.

End EventLoop.

(** ** The animation step: when a channel wraps *)

Lemma integer_cases (k : Z) :
  (inject_Z k <= -1)%Q \/ k = 0%Z \/ (1 <= inject_Z k)%Q.
Proof.
  destruct (Z_lt_le_dec k 0) as [L|L]; [left|].
  - change (-1)%Q with (inject_Z (-1)). rewrite <- Zle_Qle. lia.
  - destruct (Z.eq_dec k 0) as [E|E]; [right; left; exact E|].
    right. right. change 1%Q with (inject_Z 1). rewrite <- Zle_Qle. lia.
Qed.

Lemma advanceChannel_wrap (c : spec_float) :
  unit_interval c ->
  ((F2Q c <= 9899 # 10000)%Q ->
   (Qabs (F2Q (advanceChannel c) - (F2Q c + (1 # 100))) <= step_error)%Q /\
   (F2Q c < F2Q (advanceChannel c))%Q) /\
  ((990001 # 1000000 <= F2Q c)%Q ->
   (Qabs (F2Q (advanceChannel c) - (F2Q c - (99 # 100))) <= step_error)%Q /\
   (F2Q (advanceChannel c) < F2Q c)%Q).
Proof.
  intro U. destruct (advanceChannel_spec c U) as [(_ & _ & Lo' & Hi') [k K]].
  destruct U as (_ & _ & Lo & Hi).
  apply Qabs_Qle_condition in K. unfold step_error in *.
  set (x := F2Q c) in *. set (y := F2Q (advanceChannel c)) in *.
  split; intro B.
  - destruct (integer_cases k) as [N|[->|N]]; [exfalso; lra | | exfalso; lra].
    change (inject_Z 0) with 0%Q in K.
    split; [apply Qabs_Qle_condition|]; lra.
  - destruct (integer_cases (k - 1)) as [N|[E|N]].
    + exfalso. unfold Z.sub in N. rewrite inject_Z_plus in N.
      change (inject_Z (- (1))) with (-1)%Q in N. lra.
    + assert (k = 1%Z) as -> by lia. change (inject_Z 1) with 1%Q in K.
      split; [apply Qabs_Qle_condition|]; lra.
    + exfalso. unfold Z.sub in N. rewrite inject_Z_plus in N.
      change (inject_Z (- (1))) with (-1)%Q in N. lra.
Qed.

(** X22.  Against every driver: a completed frame moves a channel in the unit
    interval by one step, within the rounding error of the step: up by
    0.01 when the channel is at most 0.9899, down by 0.99 when it is at
    least 0.990001. *)
Theorem render_wraps_channel (d : Driver) (r r' : VkRenderer) (w : world d) (i : Z) :
  outcome (run d (render r) w) = Done r' ->
  unit_interval (float32 (mClearColorValue r) i) ->
  let before := F2Q (float32 (mClearColorValue r) i) in
  let after := F2Q (float32 (mClearColorValue r') i) in
  ((before <= 9899 # 10000)%Q ->
   (Qabs (after - (before + (1 # 100))) <= step_error)%Q /\ (before < after)%Q) /\
  ((990001 # 1000000 <= before)%Q ->
   (Qabs (after - (before - (99 # 100))) <= step_error)%Q /\ (after < before)%Q).
Proof.
  intros H U before after. subst before after.
  rewrite (render_channel d r r' w i H).
  apply advanceChannel_wrap, U.
Qed.

(** ** The animation step: values that are not numbers *)

Lemma advanceChannel_not_finite (c : spec_float) :
  is_finite c = false -> advanceChannel c = S754_nan.
Proof. destruct c as [s|s| |s m e]; try discriminate; intros _; reflexivity. Qed.

(** X23.  Against every driver: a channel that is infinite or not a number is
    not a number after one or more completed frames; the animation does
    not recover from it. *)
Theorem renderTimes_not_finite (d : Driver) (n : nat) (r r' : VkRenderer) (w : world d)
  (i : Z) :
  outcome (run d (renderTimes (S n) r) w) = Done r' ->
  is_finite (float32 (mClearColorValue r) i) = false ->
  float32 (mClearColorValue r') i = S754_nan.
Proof.
  intros H F. rewrite (renderTimes_channel d (S n) r r' w i H).
  clear H. induction n as [|n IH].
  - apply advanceChannel_not_finite, F.
  - rewrite Nat.iter_succ, IH. reflexivity.
Qed.

(** ** A count that changes between the two calls of an enumeration *)

Lemma breakIndex_empty A (test : A -> bool) (count : nat) (i z : Z) :
  breakIndex test [] count i = Some z -> count = 0%nat /\ z = i.
Proof. destruct count; cbn; intro H; [injection H as <-; auto | discriminate H]. Qed.

Lemma breakIndex_fetched_defined A (test : A -> bool) (capacity : N) (zero : A)
  (entries : list A) (i : Z) :
  breakIndex test (filled capacity zero entries)
    (N.to_nat (N.of_nat (List.length (written capacity entries)))) i <> None.
Proof.
  rewrite stored_count. unfold filled.
  destruct (existsb test (written capacity entries)) eqn:H.
  - destruct (@breakIndex_present _ test (written capacity entries)
                (repeat zero (N.to_nat capacity - List.length (written capacity entries)))
                i H) as (k & x & E & _).
    rewrite E. discriminate.
  - rewrite breakIndex_absent by exact H. discriminate.
Qed.

Lemma firstIndex_fetched_defined A (test : A -> bool) (capacity : N) (zero : A)
  (entries : list A) (sentinel : Z) :
  Z.of_nat (List.length (written capacity entries)) <= INT_MAX ->
  firstIndex test (filled capacity zero entries)
    (N.to_nat (N.of_nat (List.length (written capacity entries)))) 0 sentinel <> None.
Proof.
  intro L. destruct (existsb test (written capacity entries)) eqn:H.
  - rewrite stored_count. unfold filled.
    destruct (@firstIndex_present _ test (written capacity entries)
                (repeat zero (N.to_nat capacity - List.length (written capacity entries)))
                0 sentinel H) as (k & x & E & _); [lia|].
    rewrite E. discriminate.
  - rewrite (firstIndex_fetched_absent _ _ zero _ sentinel H L). discriminate.
Qed.

Lemma firstIndex_fetched_cases A (test : A -> bool) (capacity : N) (zero : A)
  (entries : list A) (sentinel z : Z) :
  Z.of_nat (List.length (written capacity entries)) <= INT_MAX ->
  firstIndex test (filled capacity zero entries)
    (N.to_nat (N.of_nat (List.length (written capacity entries)))) 0 sentinel = Some z ->
  z = sentinel \/
  exists k x, z = Z.of_nat k /\ nth_error (filled capacity zero entries) k = Some x.
Proof.
  intros L D. destruct (existsb test (written capacity entries)) eqn:H.
  - right. revert D. rewrite stored_count. unfold filled at 1.
    destruct (@firstIndex_present _ test (written capacity entries)
                (repeat zero (N.to_nat capacity - List.length (written capacity entries)))
                0 sentinel H) as (k & x & E & I & _); [lia|].
    rewrite E. intro D. injection D as <-. exists k, x.
    split; [reflexivity | apply filled_written; exact I].
  - left. rewrite (firstIndex_fetched_absent _ _ zero _ sentinel H L) in D.
    injection D as <-. reflexivity.
Qed.

Section QueueFamilyCounts.
Variable d : Driver.

(** X24.  Against every driver: creating the logical device has undefined
    behaviour exactly when the first queue-family count is 0 and the
    second call stores a count other than 0.  The vector is then empty,
    its data pointer null and the second call a count query; the search
    runs to the count it stored and reads element 0 of the empty vector.
    When both calls store 0 the search ends at once with index 0. *)
Theorem createDevice_count_after_zero (pd : Handle) (w : world d) :
  let query := vkGetPhysicalDeviceQueueFamilyProperties pd QueryCount in
  let count := fst (reply d query w) in
  let stored := fst (reply d query (snd (reply d query w))) in
  let R := run d (createDevice pd) w in
  (outcome R = UB <-> count = 0%N /\ stored <> 0%N) /\
  (count = 0%N -> stored = 0%N ->
   forall q dev queue, outcome R = Done (q, dev, queue) -> q = 0).
Proof.
  intros query count stored R. subst R stored count query.
  unfold createDevice. setup_exec.
  all: repeat match goal with
       | D : breakIndex _ [] _ _ = Some _ |- _ =>
           apply breakIndex_empty in D; destruct D as [? ?]; subst
       | D : breakIndex _ (filled _ _ _) _ _ = None |- _ =>
           exfalso; exact (breakIndex_fetched_defined _ _ _ _ _ D)
       end.
  all: split; [split|].
  all: try match goal with
       | |- _ = UB -> _ =>
           let U := fresh in
           intro U; first [discriminate U | split; [reflexivity|]];
           let Z := fresh in
           intro Z; subst;
           match goal with
           | D : breakIndex _ [] _ _ = None |- _ => cbn in D; discriminate D
           end
       | |- _ /\ _ -> _ =>
           let Hc := fresh in let Hs := fresh in
           intros [Hc Hs]; first [reflexivity | exfalso; lia | contradiction]
       end.
  all: intros Hc Hs q dev queue X;
       first [discriminate X | contradiction | inversion X; reflexivity].
Qed.

End QueueFamilyCounts.

Lemma firstIndex_empty_none A (test : A -> bool) (count : N) (i notFound : Z) :
  firstIndex test [] (N.to_nat count) i notFound = None -> count <> 0%N.
Proof. intros D C. subst count. discriminate D. Qed.

Section SwapchainCounts.
Variable d : Driver.

(** X25.  Against every driver that reports at most [INT_MAX] surface
    formats and present modes: creating the swapchain has undefined
    behaviour exactly when the first count of the surface formats, or of
    the present modes, is 0 and the second call, then a count query with
    the null data pointer of the empty vector, stores a count other than
    0: the scan runs to that count and reads element 0 of the empty
    vector. *)
Theorem createSwapchain_count_after_zero (pd dev surf : Handle) (w : world d) :
  let R := run d (createSwapchain pd dev surf) w in
  (forall formats,
      reportedFormats (trace R) = [formats] -> Z.of_nat (List.length formats) <= INT_MAX) ->
  (forall modes,
      reportedPresentModes (trace R) = [modes] -> Z.of_nat (List.length modes) <= INT_MAX) ->
  (outcome R = UB <->
   exists stored, stored <> 0%N /\
     (formatCounts (trace R) = [0%N; stored] \/
      presentModeCounts (trace R) = [0%N; stored])).
Proof.
  unfold createSwapchain, selectSurfaceFormat, selectPresentMode.
  unfold reportedFormats, reportedPresentModes, formatCounts, presentModeCounts.
  setup_exec.
  all: intros Lf Lm.
  all: repeat match goal with
       | D : firstIndex _ [] _ _ _ = Some _ |- _ =>
           apply firstIndex_empty in D; destruct D as [? ?]; subst
       | D : firstIndex _ [] (N.to_nat _) _ _ = None |- _ =>
           apply firstIndex_empty_none in D
       | D : firstIndex _ (filled _ _ _) _ _ _ = None |- _ =>
           exfalso; revert D; apply firstIndex_fetched_defined;
           first [apply Lf | apply Lm]; reflexivity
       end.
  all: try match goal with
       | A : negb (?x =? ?x) = true |- _ => rewrite Z.eqb_refl in A; discriminate A
       end.
  all: repeat match goal with
       | D : firstIndex _ (filled _ _ _) _ _ _ = Some _ |- _ =>
           apply firstIndex_fetched_cases in D;
           [| first [apply Lf | apply Lm]; reflexivity];
           destruct D as [-> | (? & ? & -> & ?)]
       end.
  all: try match goal with
       | A : negb (?x =? ?x) = true |- _ => rewrite Z.eqb_refl in A; discriminate A
       end.
  all: try match goal with
       | N : (Z.of_nat _ <? 0) = true |- _ => apply Z.ltb_lt in N; lia
       end.
  all: try match goal with
       | I : nth_error ?v (Z.to_nat (Z.of_nat ?k)) = None, T : nth_error ?v ?k = Some _ |- _ =>
           rewrite Nat2Z.id, T in I; discriminate I
       end.
  all: split;
    [ let U := fresh in
      intro U;
      first [ discriminate U
            | eexists; split; cycle 1;
              [first [left; reflexivity | right; reflexivity] | assumption] ]
    | let S := fresh in
      let Hc := fresh in
      intros (stored & S & [Hc|Hc]);
      first [reflexivity | discriminate Hc | injection Hc as <-; exfalso; lia] ].
Qed.

End SwapchainCounts.

(** ** The properties above, on the phone *)

Import Cases.

Lemma constructor_establishes_present_layout_witness :
  exists l,
    layoutMonitor [1001; 1002; 1003] undefinedLayouts (trace (Scenario.built Sim.phone)) =
      Some l /\
    allPresentable [1001; 1002; 1003] l /\
    (forall h, ~ In h [1001; 1002; 1003] -> l h = VK_IMAGE_LAYOUT_UNDEFINED).
Proof.
  apply (@constructor_establishes_present_layout (Sim.driver Sim.phone) Scenario.black
           Scenario.window Sim.boot Scenario.phoneRenderer).
  vm_compute. reflexivity.
Defined.


Lemma recording_discipline_witness :
  monitor (recordingStep 7) Blank (trace (Scenario.built Sim.phone)) = Some Blank /\
  exists s', monitor (recordingStep 7) Blank (trace twoFrames) = Some s' /\
             (forall r', outcome twoFrames = Done r' -> s' = Blank).
Proof.
  destruct (@recording_discipline (Sim.driver Sim.phone) Scenario.black Scenario.window
              Sim.boot Scenario.phoneRenderer) as [C F].
  - vm_compute. reflexivity.
  - split; [exact C|]. apply (F 2%nat Replay.phoneWorld).
Defined.

Lemma constructor_waits_for_submission_witness :
  monitor (submissionStep 7) None (trace (Scenario.built Sim.phone)) = Some None.
Proof.
  apply (@constructor_waits_for_submission (Sim.driver Sim.phone) Scenario.black
           Scenario.window Sim.boot Scenario.phoneRenderer).
  vm_compute. reflexivity.
Defined.

Lemma frames_do_not_wait_for_submission_witness :
  monitor (submissionStep 7) None (trace twoFrames) = None.
Proof.
  apply (proj2 (@frames_do_not_wait_for_submission (Sim.driver Sim.phone)
                  Scenario.phoneRenderer) 0%nat Replay.phoneWorld
           (with_clear_color Scenario.phoneRenderer
              (updateClearColor (updateClearColor Scenario.black)))).
  vm_compute. reflexivity.
Defined.

Lemma render_clears_acquired_image_witness :
  exists index img,
    acquired (trace Replay.firstFrame) = [index] /\
    0 <= index /\
    nth_error [1001; 1002; 1003] (Z.to_nat index) = Some img /\
    updateClearColor Scenario.black = updateClearColor Scenario.black /\
    recorded (trace Replay.firstFrame) =
      [ Barrier 7 VK_PIPELINE_STAGE_TOP_OF_PIPE_BIT VK_PIPELINE_STAGE_TRANSFER_BIT
          [clearBarrier img];
        Clear 7 img VK_IMAGE_LAYOUT_TRANSFER_DST_OPTIMAL (updateClearColor Scenario.black);
        Barrier 7 VK_PIPELINE_STAGE_TRANSFER_BIT VK_PIPELINE_STAGE_BOTTOM_OF_PIPE_BIT
          [backToPresentBarrier img] ].
Proof.
  apply (@render_clears_acquired_image (Sim.driver Sim.phone) Scenario.phoneRenderer
           (with_clear_color Scenario.phoneRenderer (updateClearColor Scenario.black))
           Replay.phoneWorld).
  vm_compute. reflexivity.
Defined.

Lemma createDevice_with_graphics_family_witness :
  let R := run (Sim.driver graphicsSecond) (createDevice 501) Sim.boot in
  outcome R <> UB /\
  deviceRequests (trace R) =
    [(501, {| pQueueCreateInfos :=
                [{| dq_queueFamilyIndex := 1; dq_queueCount := 1; pQueuePriorities := [1] |}];
              dci_ppEnabledExtensionNames := ["VK_KHR_swapchain"%string] |})] /\
  (exists queue, outcome R = Done (1, 1, queue) /\
                 In (Ev (vkGetDeviceQueue 1 1 0) queue) (trace R)).
Proof.
  intro R.
  destruct (@createDevice_with_graphics_family (Sim.driver graphicsSecond) 501 Sim.boot
              eq_refl) as (k & family & Hn & Hg & _ & U & Q & D & _).
  change (nth_error [Sim.computeFamily; Sim.graphicsFamily] k = Some family) in Hn.
  assert (K : k = 1%nat).
  { destruct k as [|[|k]]; cbn in Hn.
    - injection Hn as <-. discriminate Hg.
    - reflexivity.
    - destruct k; discriminate Hn. }
  subst k. split; [exact U|]. split.
  - apply (Q [ {| extensionName := "VK_KHR_swapchain" |} ]); reflexivity.
  - apply (D 1). reflexivity.
Defined.

Lemma constructor_queue_family_witness :
  queueFamilyUses (trace (Scenario.built Sim.phone)) = [0; 0; 0; 0] /\
  exists supported,
    supportAnswers (trace (Scenario.built Sim.phone)) = [(501, 0, 4, VK_SUCCESS, supported)] /\
    supported <> 0.
Proof.
  apply (@constructor_queue_family (Sim.driver Sim.phone) Scenario.black Scenario.window
           Sim.boot Scenario.phoneRenderer).
  vm_compute. reflexivity.
Defined.

Lemma createInstance_request_witness :
  let R := run (Sim.driver Sim.phone) createInstance Sim.boot in
  exists layerCount layers extensionCount extensions,
    In (Ev (vkEnumerateInstanceLayerProperties (Fetch layerCount)) (VK_SUCCESS, layers))
       (trace R) /\
    In (Ev (vkEnumerateInstanceExtensionProperties (Fetch extensionCount))
          (VK_SUCCESS, extensions)) (trace R) /\
    ici_ppEnabledLayerNames phoneInstanceRequest =
      map layerName (filled layerCount zeroLayer layers) /\
    List.length (ici_ppEnabledLayerNames phoneInstanceRequest) = N.to_nat layerCount /\
    ici_ppEnabledExtensionNames phoneInstanceRequest =
      map extensionName (filter wantedInstanceExtension (written extensionCount extensions)) /\
    List.length (ici_ppEnabledExtensionNames phoneInstanceRequest) = 2%nat /\
    (forall name, In name (ici_ppEnabledExtensionNames phoneInstanceRequest) ->
       (name = "VK_KHR_surface" \/ name = "VK_KHR_android_surface")%string /\
       In name (map extensionName (written extensionCount extensions))).
Proof.
  intro R. apply (@createInstance_request (Sim.driver Sim.phone) Sim.boot).
  vm_compute. left. reflexivity.
Defined.

Lemma destructor_children_before_parents_witness :
  exists pre post,
    destructions (trace (run (Sim.driver Sim.phone) (destructor Scenario.phoneRenderer)
                           Replay.phoneWorld)) = pre ++ Swapchain 5 :: post /\
    In (Surface 4) post /\ ~ In (Surface 4) pre.
Proof.
  apply (@destructor_children_before_parents (Sim.driver Sim.phone) Scenario.black
           Scenario.window Sim.boot Replay.phoneWorld Scenario.phoneRenderer).
  - vm_compute. reflexivity.
  - vm_compute. do 2 right. left. reflexivity.
Defined.

Lemma android_main_runs_until_destroy_witness :
  let final : android_app * state countdown :=
    ({| onAppCmd := Some handle_cmd; userData := 0; destroyRequested := 1 |}, 3%nat) in
  let events : list (ShimEvent countdown) :=
    [ @Polled countdown 0 0 (Some tt); @Processed countdown tt;
      @Polled countdown 0 (-3) (Some tt);
      @Polled countdown 0 0 (Some tt); @Processed countdown tt ] in
  android_main countdown 5 freshApp 0%nat = Some (final, events) /\
  exists k, (1 <= k <= 5)%nat /\ Rounds countdown k events /\
            destroyRequested (fst final) <> 0.
Proof.
  intros final events. split; [reflexivity|].
  destruct (proj1 (@android_main_runs_until_destroy countdown 5 freshApp 0%nat)
              final events eq_refl) as (k & Hk & R & _ & D & _).
  exists k. split; [exact Hk|]. split; [exact R | exact D].
Defined.

Lemma render_wraps_channel_witness :
  let before := F2Q (float32 (mClearColorValue Replay.afterHundredFrames) 0) in
  let after := F2Q (float32 (mClearColorValue nextFrame) 0) in
  ((before <= 9899 # 10000)%Q ->
   (Qabs (after - (before + (1 # 100))) <= step_error)%Q /\ (before < after)%Q) /\
  ((990001 # 1000000 <= before)%Q ->
   (Qabs (after - (before - (99 # 100))) <= step_error)%Q /\ (after < before)%Q).
Proof.
  apply (@render_wraps_channel (Sim.driver Sim.phone) Replay.afterHundredFrames nextFrame
           Replay.phoneWorld 0).
  - vm_compute. reflexivity.
  - repeat split; vm_compute; congruence.
Defined.

Lemma renderTimes_not_finite_witness :
  float32 (mClearColorValue afterOverflow) 0 = S754_nan.
Proof.
  apply (@renderTimes_not_finite (Sim.driver Sim.phone) 0 overflowed afterOverflow
           Replay.phoneWorld 0).
  - vm_compute. reflexivity.
  - reflexivity.
Defined.

(** Without a GPU the constructor reads element 0 of an empty vector. *)
Example constructor_without_gpu :
  outcome (run (Sim.driver noGpu) (constructor Scenario.black Scenario.window) Sim.boot) = UB.
Proof. vm_compute. reflexivity. Qed.

(** Without the FIFO present mode setup dies after three objects were
    created, and destroys none of them. *)
Example failed_setup_leaks :
  creations (trace (Scenario.built Scenario.noFifo)) = [Instance 1; Device 2; Surface 4] /\
  destructions (trace (Scenario.built Scenario.noFifo)) = [].
Proof. split; vm_compute; reflexivity. Qed.

(** The surface formats are counted 0, then 2. *)
Lemma createSwapchain_count_after_zero_witness :
  let R := run late (createSwapchain 501 2 4) (Sim.boot, (true, false)) in
  formatCounts (trace R) = [0%N; 2%N] /\ outcome R = UB.
Proof.
  intro R. split; [reflexivity|].
  apply (proj2 (@createSwapchain_count_after_zero late 501 2 4 (Sim.boot, (true, false))
                  ltac:(intros formats H; vm_compute in H; discriminate H)
                  ltac:(intros modes H; vm_compute in H; discriminate H))).
  exists 2%N. split; [discriminate | left; reflexivity].
Defined.

(** The queue families are counted 0, then 1: the constructor is undefined
    in its third phase. *)
Example constructor_late_queue_families :
  outcome (run late (constructor Scenario.black Scenario.window) (Sim.boot, (false, false))) =
  UB.
Proof. vm_compute. reflexivity. Qed.
